(** * Weather-station firmware: sampling, telemetry and connectivity

    A shallow embedding of the ESP32 weather-station firmware
    (data_sender.cpp, nvs_handler.cpp, wifi_manager.cpp,
    web_interface.cpp, main.cpp, utils.cpp, config.h) and the properties
    of its specification that can be settled on it.

    Conventions.
    - [int] and [long] are 32 bits wide on the ESP32; they are carried
      by [Z] and every arithmetic result is passed through [wrap32].
    - [double] is binary64 and is carried by the kernel's primitive
      floats.  The libm functions [exp] and [round] are parameters of
      the sections that use them.
    - [float] (binary32) values of the wind accumulator are carried by
      an abstract number type with the operations the code applies to
      them, so that nothing is assumed about their rounding.
    - Global variables are the fields of a record that is threaded
      through the functions; hardware and library outcomes (the radio's
      status, whether the flash store opens, whether the soft access
      point starts) are read from oracles. *)

From Stdlib Require Import ZArith List Bool Lia QArith.
From Stdlib Require Import Floats.PrimFloat Uint63.
From Stdlib Require Import Ascii.
From stdpp Require Import base gmap strings.

Local Open Scope Z_scope.

(* ##################################################################### *)
(** * Part I: the firmware as definitions *)

(* ===================================================================== *)
(** ** Machine integers *)

Definition INT_MIN : Z := - 2147483648.
Definition INT_MAX : Z := 2147483647.

(** Two's-complement reduction of an integer to the 32-bit signed range. *)
Definition wrap32 (z : Z) : Z := (z + 2147483648) mod 4294967296 - 2147483648.

(** Reduction to the range of [unsigned long] (32 bits). *)
Definition wrapU32 (z : Z) : Z := z mod 4294967296.

(* ===================================================================== *)
(** ** The Arduino core helpers used by the tasks *)

Module Arduino.

(** Modelled from the spec: [map] and [constrain] belong to the Arduino
    core and are not among the sources of this repository.  The spec
    asks for a linear mapping between two thresholds followed by a
    clamp; the definitions below are the core's integer formulas,
    [(x - in_min) * (out_max - out_min) / (in_max - in_min) + out_min]
    with C's truncating division (and [-1] for an empty input range),
    and [amt < low ? low : (amt > high ? high : amt)]. *)
Definition map (x in_min in_max out_min out_max : Z) : Z :=
  let run := wrap32 (in_max - in_min) in
  if run =? 0 then -1
  else
    let rise := wrap32 (out_max - out_min) in
    let delta := wrap32 (x - in_min) in
    wrap32 (wrap32 (Z.quot (wrap32 (delta * rise)) run) + out_min).

Definition constrain (amt low high : Z) : Z :=
  if amt <? low then low else if amt >? high then high else amt.

End Arduino.

(* ===================================================================== *)
(** ** config.h *)

Definition DARK_THRESHOLD : Z := 500.
Definition BRIGHT_THRESHOLD : Z := 3000.
Definition WET_THRESHOLD : Z := 500.
Definition DRY_THRESHOLD : Z := 4000.
Definition DATA_SEND_INTERVAL : Z := 5000.

Definition PHOTORESISTOR_PIN : Z := 1.
Definition RAIN_SENSOR_ANALOG_PIN : Z := 2.
Definition WIND_SENSOR_PIN : Z := 7.

(** [DeviceMode] is a C enumeration; it is stored in flash as an
    unsigned integer and cast back on load, so it is carried by its
    integer value. *)
Definition DeviceMode : Type := Z.
Definition MODE_UNCONFIGURED : DeviceMode := 0.
Definition MODE_CONFIGURED : DeviceMode := 1.

(* ===================================================================== *)
(** ** Derived percentages of the telemetry task (data_sender.cpp) *)

(** Lines 169-170 of sensorTaskFunction. *)
Definition precipitationPercentage (rawRainAnalog : Z) : Z :=
  let p := Arduino.map rawRainAnalog WET_THRESHOLD DRY_THRESHOLD 100 0 in
  Arduino.constrain p 0 100.

(** Line 202 of sensorTaskFunction. *)
Definition brightnessPercentage (analogValue : Z) : Z :=
  Arduino.constrain
    (Arduino.map analogValue BRIGHT_THRESHOLD DARK_THRESHOLD 100 0) 0 100.

(** Line 125 of windSensorTaskFunction: the reading in hundredths of a
    metre per second, before the division by [100.0F]. *)
Definition windSpeedCentimetres (windSpeedAnalog : Z) : Z :=
  Arduino.constrain (Arduino.map windSpeedAnalog 0 1023 0 3240) 0 3240.

(* ===================================================================== *)
(** ** The shared wind accumulator (data_sender.cpp, lines 104-136, 172-188) *)

Section WindAccumulator.

(** The carrier of C's [float] and the operations the two tasks apply
    to it: the literal [0.0], [+=], [/], and the conversion of the
    [int] counter in [totalWindSpeedSum / windReadingCount]. *)
Context {F : Type}.
Variable f0 : F.
Variable fadd : F -> F -> F.
Variable fdiv : F -> F -> F.
Variable of_int : Z -> F.

(** The two globals guarded by [windDataMutex]. *)
Record WindData : Type := mkWindData {
  totalWindSpeedSum : F;
  windReadingCount : Z
}.

(** Their initialisers (lines 104-105). *)
Definition windData_init : WindData :=
  {| totalWindSpeedSum := f0; windReadingCount := 0 |}.

(** The critical section of windSensorTaskFunction (lines 128-129). *)
Definition record (currentWindSpeedms : F) (w : WindData) : WindData :=
  {| totalWindSpeedSum := fadd (totalWindSpeedSum w) currentWindSpeedms;
     windReadingCount := wrap32 (windReadingCount w + 1) |}.

(** The critical section of sensorTaskFunction (lines 176-182): the
    average handed to the cycle and the accumulator left behind. *)
Definition drainAverage (w : WindData) : F * WindData :=
  let averageWindSpeed :=
    if windReadingCount w >? 0
    then fdiv (totalWindSpeedSum w) (of_int (windReadingCount w))
    else f0 in
  (averageWindSpeed, {| totalWindSpeedSum := f0; windReadingCount := 0 |}).

(** A history of the accumulator: the critical sections in the order
    in which the mutex admitted them. *)
Inductive WindOp : Type :=
| OpRecord (x : F)
| OpDrain.

(** Runs a history and collects what each drain returned. *)
Fixpoint run_wind (ops : list WindOp) (w : WindData) : list F * WindData :=
  match ops with
  | [] => ([], w)
  | OpRecord x :: ops' => run_wind ops' (record x w)
  | OpDrain :: ops' =>
      let drained := drainAverage w in
      let rest := run_wind ops' (snd drained) in
      (fst drained :: fst rest, snd rest)
  end.

(** The arithmetic mean of a batch of samples, summed from the left
    starting at [0.0] as the sampling task does; [0.0] for no sample. *)
Definition mean (xs : list F) : F :=
  match xs with
  | [] => f0
  | _ :: _ => fdiv (fold_left fadd xs f0) (of_int (Z.of_nat (length xs)))
  end.

(** What the drains of a history ought to return: the mean of the
    samples recorded since the previous drain.  [pending] holds the
    samples recorded since then, oldest first. *)
Fixpoint drain_means (ops : list WindOp) (pending : list F) : list F :=
  match ops with
  | [] => []
  | OpRecord x :: ops' => drain_means ops' (pending ++ [x])
  | OpDrain :: ops' => mean pending :: drain_means ops' []
  end.

(** The samples still pending at the end of a history. *)
Fixpoint pending_after (ops : list WindOp) (pending : list F) : list F :=
  match ops with
  | [] => pending
  | OpRecord x :: ops' => pending_after ops' (pending ++ [x])
  | OpDrain :: ops' => pending_after ops' []
  end.

(** No batch outgrows the [int] counter: [n] samples are pending and
    every further batch stays within [INT_MAX]. *)
Fixpoint batches_fit (ops : list WindOp) (n : Z) : Prop :=
  match ops with
  | [] => True
  | OpRecord _ :: ops' => n + 1 <= INT_MAX /\ batches_fit ops' (n + 1)
  | OpDrain :: ops' => batches_fit ops' 0
  end.

(** The accumulator holds exactly the pending samples. *)
Definition holds (w : WindData) (pending : list F) : Prop :=
  totalWindSpeedSum w = fold_left fadd pending f0 /\
  windReadingCount w = Z.of_nat (length pending).

End WindAccumulator.

Arguments OpDrain {F}.
Arguments mkWindData {F}.

(* ===================================================================== *)
(** ** Values exchanged with the outside world *)

(** A member of the ArduinoJson document built by the telemetry task. *)
Inductive JsonValue : Type :=
| JNull
| JInt (n : Z)
| JDouble (x : float).

(** A value stored in the flash namespace by the Preferences library. *)
Inductive NvsValue : Type :=
| NvsString (s : string)
| NvsUInt (n : Z).

Inductive wifi_mode_t : Type := WIFI_MODE_NULL | WIFI_STA | WIFI_AP.

Inductive RgbColor : Type := red | green | black | blue | yellow.

(** What the firmware does to its surroundings, in the order of the
    calls.  [EvSerial] carries the text (or format string) printed. *)
Inductive Event : Type :=
| EvSerial (text : string)
| EvLed (color : RgbColor)
| EvWifiBegin (ssid pass : string)
| EvWifiReconnect
| EvWifiDisconnect
| EvSoftAPDisconnect
| EvScanNetworks (show_hidden : bool)
| EvMdnsAddService
| EvServerSend (code : Z) (body : string)
| EvHttpGet (url : string)
| EvHttpPost (url : string) (body : gmap string JsonValue)
| EvAnalogRead (pin : Z)
| EvBmeRead
| EvMutexTake
| EvMutexGive
| EvTaskDelay (ms : Z).

(** utils.cpp, blinkLedError: three red flashes, then the final colour. *)
Definition blinkLedError_events (finalColor : RgbColor) : list Event :=
  [EvLed red; EvLed black; EvLed red; EvLed black; EvLed red; EvLed black;
   EvLed finalColor].

(** Arduino's [String::replace]: every occurrence of a non-empty
    [find], scanning from the left; [skip] counts the characters of an
    occurrence that are still to be dropped. *)
Fixpoint String_replace_from (skip : nat) (find replace s : string) : string :=
  match s with
  | EmptyString => EmptyString
  | String c rest =>
      match skip with
      | S k => String_replace_from k find replace rest
      | O =>
          if String.prefix find s
          then String.append replace
                 (String_replace_from (String.length find - 1) find replace rest)
          else String c (String_replace_from O find replace rest)
      end
  end.

Definition String_replace (find replace s : string) : string :=
  match find with
  | EmptyString => s
  | String _ _ => String_replace_from O find replace s
  end.

(** config.h: API paths and flash keys. *)
Definition apiRegisterPath : string := "/<username>/add_device/<mac_address>".
Definition apiDataPath : string := "/<mac_plytki>/data".
Definition NVS_KEY_SSID : string := "wifi_ssid".
Definition NVS_KEY_PASS : string := "wifi_pass".
Definition NVS_KEY_USER : string := "username".
Definition NVS_KEY_SERVER : string := "server_addr".
Definition NVS_KEY_MODE : string := "device_mode".

(* ===================================================================== *)
(** ** The device state and its surroundings *)

(** The globals of main.cpp, the flash namespace ["config"], the state
    of the radio and of the configuration portal, the millisecond
    clock, the number of questions already put to each oracle, and the
    events so far (oldest first). *)
Record Device : Type := mkDevice {
  wifiSSID : string;
  wifiPass : string;
  userName : string;
  serverAddress : string;
  currentDeviceMode : DeviceMode;
  lastDataSendTime : Z;
  preferences : gmap string NvsValue;
  wifiMode : wifi_mode_t;
  serverRunning : bool;
  mdnsRunning : bool;
  clock : Z;
  statusReads : nat;
  beginCalls : nat;
  softAPCalls : nat;
  mdnsCalls : nat;
  httpCalls : nat;
  trace : list Event
}.

(** The outcomes the firmware only observes: the [k]-th answer of
    [WiFi.status() == WL_CONNECTED], of [preferences.begin], of
    [WiFi.softAP], of [MDNS.begin], the [k]-th HTTP response code, and
    the station MAC address. *)
Record Env : Type := mkEnv {
  wifiConnected : nat -> bool;
  prefsBeginOk : nat -> bool;
  softAPOk : nat -> bool;
  mdnsBeginOk : nat -> bool;
  httpCode : nat -> Z;
  macAddress : string
}.

(** A call either returns, or ends in [ESP.restart()]. *)
Inductive Outcome (A : Type) : Type :=
| Running (a : A) (d : Device)
| Restarted (d : Device).

Arguments Running {A} a d.
Arguments Restarted {A} d.

Definition M (A : Type) : Type := Env -> Device -> Outcome A.

#[global] Instance M_ret : MRet M := fun A a _ d => Running a d.

#[global] Instance M_bind : MBind M := fun A B f m env d =>
  match m env d with
  | Running a d' => f a env d'
  | Restarted d' => Restarted d'
  end.

Definition set_wifiSSID (v : string) (d : Device) : Device :=
  mkDevice v (wifiPass d) (userName d) (serverAddress d) (currentDeviceMode d)
    (lastDataSendTime d) (preferences d) (wifiMode d) (serverRunning d)
    (mdnsRunning d) (clock d) (statusReads d) (beginCalls d) (softAPCalls d)
    (mdnsCalls d) (httpCalls d) (trace d).

Definition set_wifiPass (v : string) (d : Device) : Device :=
  mkDevice (wifiSSID d) v (userName d) (serverAddress d) (currentDeviceMode d)
    (lastDataSendTime d) (preferences d) (wifiMode d) (serverRunning d)
    (mdnsRunning d) (clock d) (statusReads d) (beginCalls d) (softAPCalls d)
    (mdnsCalls d) (httpCalls d) (trace d).

Definition set_userName (v : string) (d : Device) : Device :=
  mkDevice (wifiSSID d) (wifiPass d) v (serverAddress d) (currentDeviceMode d)
    (lastDataSendTime d) (preferences d) (wifiMode d) (serverRunning d)
    (mdnsRunning d) (clock d) (statusReads d) (beginCalls d) (softAPCalls d)
    (mdnsCalls d) (httpCalls d) (trace d).

Definition set_serverAddress (v : string) (d : Device) : Device :=
  mkDevice (wifiSSID d) (wifiPass d) (userName d) v (currentDeviceMode d)
    (lastDataSendTime d) (preferences d) (wifiMode d) (serverRunning d)
    (mdnsRunning d) (clock d) (statusReads d) (beginCalls d) (softAPCalls d)
    (mdnsCalls d) (httpCalls d) (trace d).

Definition set_currentDeviceMode (v : DeviceMode) (d : Device) : Device :=
  mkDevice (wifiSSID d) (wifiPass d) (userName d) (serverAddress d) v
    (lastDataSendTime d) (preferences d) (wifiMode d) (serverRunning d)
    (mdnsRunning d) (clock d) (statusReads d) (beginCalls d) (softAPCalls d)
    (mdnsCalls d) (httpCalls d) (trace d).

Definition set_lastDataSendTime (v : Z) (d : Device) : Device :=
  mkDevice (wifiSSID d) (wifiPass d) (userName d) (serverAddress d)
    (currentDeviceMode d) v (preferences d) (wifiMode d) (serverRunning d)
    (mdnsRunning d) (clock d) (statusReads d) (beginCalls d) (softAPCalls d)
    (mdnsCalls d) (httpCalls d) (trace d).

Definition set_preferences (v : gmap string NvsValue) (d : Device) : Device :=
  mkDevice (wifiSSID d) (wifiPass d) (userName d) (serverAddress d)
    (currentDeviceMode d) (lastDataSendTime d) v (wifiMode d) (serverRunning d)
    (mdnsRunning d) (clock d) (statusReads d) (beginCalls d) (softAPCalls d)
    (mdnsCalls d) (httpCalls d) (trace d).

Definition set_wifiMode (v : wifi_mode_t) (d : Device) : Device :=
  mkDevice (wifiSSID d) (wifiPass d) (userName d) (serverAddress d)
    (currentDeviceMode d) (lastDataSendTime d) (preferences d) v
    (serverRunning d) (mdnsRunning d) (clock d) (statusReads d) (beginCalls d)
    (softAPCalls d) (mdnsCalls d) (httpCalls d) (trace d).

Definition set_serverRunning (v : bool) (d : Device) : Device :=
  mkDevice (wifiSSID d) (wifiPass d) (userName d) (serverAddress d)
    (currentDeviceMode d) (lastDataSendTime d) (preferences d) (wifiMode d) v
    (mdnsRunning d) (clock d) (statusReads d) (beginCalls d) (softAPCalls d)
    (mdnsCalls d) (httpCalls d) (trace d).

Definition set_mdnsRunning (v : bool) (d : Device) : Device :=
  mkDevice (wifiSSID d) (wifiPass d) (userName d) (serverAddress d)
    (currentDeviceMode d) (lastDataSendTime d) (preferences d) (wifiMode d)
    (serverRunning d) v (clock d) (statusReads d) (beginCalls d) (softAPCalls d)
    (mdnsCalls d) (httpCalls d) (trace d).

Definition set_clock (v : Z) (d : Device) : Device :=
  mkDevice (wifiSSID d) (wifiPass d) (userName d) (serverAddress d)
    (currentDeviceMode d) (lastDataSendTime d) (preferences d) (wifiMode d)
    (serverRunning d) (mdnsRunning d) v (statusReads d) (beginCalls d)
    (softAPCalls d) (mdnsCalls d) (httpCalls d) (trace d).

Definition set_statusReads (v : nat) (d : Device) : Device :=
  mkDevice (wifiSSID d) (wifiPass d) (userName d) (serverAddress d)
    (currentDeviceMode d) (lastDataSendTime d) (preferences d) (wifiMode d)
    (serverRunning d) (mdnsRunning d) (clock d) v (beginCalls d)
    (softAPCalls d) (mdnsCalls d) (httpCalls d) (trace d).

Definition set_beginCalls (v : nat) (d : Device) : Device :=
  mkDevice (wifiSSID d) (wifiPass d) (userName d) (serverAddress d)
    (currentDeviceMode d) (lastDataSendTime d) (preferences d) (wifiMode d)
    (serverRunning d) (mdnsRunning d) (clock d) (statusReads d) v
    (softAPCalls d) (mdnsCalls d) (httpCalls d) (trace d).

Definition set_softAPCalls (v : nat) (d : Device) : Device :=
  mkDevice (wifiSSID d) (wifiPass d) (userName d) (serverAddress d)
    (currentDeviceMode d) (lastDataSendTime d) (preferences d) (wifiMode d)
    (serverRunning d) (mdnsRunning d) (clock d) (statusReads d) (beginCalls d)
    v (mdnsCalls d) (httpCalls d) (trace d).

Definition set_mdnsCalls (v : nat) (d : Device) : Device :=
  mkDevice (wifiSSID d) (wifiPass d) (userName d) (serverAddress d)
    (currentDeviceMode d) (lastDataSendTime d) (preferences d) (wifiMode d)
    (serverRunning d) (mdnsRunning d) (clock d) (statusReads d) (beginCalls d)
    (softAPCalls d) v (httpCalls d) (trace d).

Definition set_httpCalls (v : nat) (d : Device) : Device :=
  mkDevice (wifiSSID d) (wifiPass d) (userName d) (serverAddress d)
    (currentDeviceMode d) (lastDataSendTime d) (preferences d) (wifiMode d)
    (serverRunning d) (mdnsRunning d) (clock d) (statusReads d) (beginCalls d)
    (softAPCalls d) (mdnsCalls d) v (trace d).

Definition set_trace (v : list Event) (d : Device) : Device :=
  mkDevice (wifiSSID d) (wifiPass d) (userName d) (serverAddress d)
    (currentDeviceMode d) (lastDataSendTime d) (preferences d) (wifiMode d)
    (serverRunning d) (mdnsRunning d) (clock d) (statusReads d) (beginCalls d)
    (softAPCalls d) (mdnsCalls d) (httpCalls d) v.

(** The device as main.cpp initialises its globals, over a given
    content of the flash namespace. *)
Definition power_on (flash : gmap string NvsValue) : Device :=
  {| wifiSSID := ""; wifiPass := ""; userName := "defaultUser";
     serverAddress := "192.168.50.200:5000";
     currentDeviceMode := MODE_UNCONFIGURED; lastDataSendTime := 0;
     preferences := flash; wifiMode := WIFI_MODE_NULL;
     serverRunning := false; mdnsRunning := false; clock := 0;
     statusReads := O; beginCalls := O; softAPCalls := O; mdnsCalls := O;
     httpCalls := O; trace := [] |}.

(* ===================================================================== *)
(** ** Primitive actions *)

Definition modify (f : Device -> Device) : M unit :=
  fun _ d => Running tt (f d).

Definition gets {A : Type} (f : Device -> A) : M A :=
  fun _ d => Running (f d) d.

Definition ask {A : Type} (f : Env -> A) : M A :=
  fun env d => Running (f env) d.

Definition emit (e : Event) : M unit :=
  modify (fun d => set_trace (trace d ++ [e]) d).

Definition Serial_print (text : string) : M unit := emit (EvSerial text).

Definition setLedColor (color : RgbColor) : M unit := emit (EvLed color).

(** [delay] and [vTaskDelay] let the given number of milliseconds pass. *)
Definition delay (ms : Z) : M unit :=
  modify (fun d => set_clock (clock d + ms) d).

(** [millis()] is an [unsigned long]. *)
Definition millis : M Z := gets (fun d => wrapU32 (clock d)).

Definition ESP_restart {A : Type} : M A := fun _ d => Restarted d.

(** [WiFi.status() == WL_CONNECTED]. *)
Definition WiFi_connected : M bool := fun env d =>
  Running (wifiConnected env (statusReads d))
          (set_statusReads (S (statusReads d)) d).

(** [WiFi.disconnect(true)] and [WiFi.softAPdisconnect(true)] also
    switch the respective role of the radio off. *)
Definition WiFi_disconnect (wifioff : bool) : M unit :=
  emit EvWifiDisconnect;;
  modify (fun d =>
    set_wifiMode
      (match wifiMode d with
       | WIFI_STA => if wifioff then WIFI_MODE_NULL else WIFI_STA
       | other => other
       end) d).

Definition WiFi_softAPdisconnect (wifioff : bool) : M unit :=
  emit EvSoftAPDisconnect;;
  modify (fun d =>
    set_wifiMode
      (match wifiMode d with
       | WIFI_AP => if wifioff then WIFI_MODE_NULL else WIFI_AP
       | other => other
       end) d).

Definition WiFi_softAP : M bool := fun env d =>
  Running (softAPOk env (softAPCalls d))
          (set_softAPCalls (S (softAPCalls d)) d).

Definition MDNS_begin : M bool := fun env d =>
  Running (mdnsBeginOk env (mdnsCalls d))
          (set_mdnsCalls (S (mdnsCalls d)) (set_mdnsRunning (mdnsBeginOk env (mdnsCalls d)) d)).

Definition http_response : M Z := fun env d =>
  Running (httpCode env (httpCalls d)) (set_httpCalls (S (httpCalls d)) d).

(** utils.cpp, blinkLedError. *)
Definition blinkLedError (finalColor : RgbColor) : M unit :=
  setLedColor red;; delay 150;; setLedColor black;; delay 150;;
  setLedColor red;; delay 150;; setLedColor black;; delay 150;;
  setLedColor red;; delay 150;; setLedColor black;; delay 150;;
  setLedColor finalColor.

(** utils.cpp, blinkLedInfo. *)
Fixpoint blinkLedInfo (blinkColor : RgbColor) (times : nat)
  (finalColor : RgbColor) : M unit :=
  match times with
  | O => setLedColor finalColor
  | S n =>
      setLedColor blinkColor;; delay 200;; setLedColor black;; delay 200;;
      blinkLedInfo blinkColor n finalColor
  end.

(* ===================================================================== *)
(** *** The Preferences library over the flash namespace *)

(** Modelled from the spec: the Preferences library is not among the
    sources of this repository.  The spec has the configuration store
    as persistent key-value storage with a load, save and clear
    contract.  The namespace is a finite map from keys to values:
    [begin] opens it or fails, as the surroundings decide; [getString]
    and [getUInt] return the stored value, or the default when the key
    is missing or holds a value of the other type; [putString] and
    [putUInt] overwrite; [remove] deletes; [isKey] tests presence. *)
Definition preferences_begin : M bool := fun env d =>
  Running (prefsBeginOk env (beginCalls d))
          (set_beginCalls (S (beginCalls d)) d).

Definition lookup_string (key def : string) (m : gmap string NvsValue) : string :=
  match m !! key with
  | Some (NvsString s) => s
  | _ => def
  end.

Definition lookup_uint (key : string) (def : Z) (m : gmap string NvsValue) : Z :=
  match m !! key with
  | Some (NvsUInt n) => n
  | _ => def
  end.

Definition preferences_getString (key def : string) : M string :=
  gets (fun d => lookup_string key def (preferences d)).

Definition preferences_getUInt (key : string) (def : Z) : M Z :=
  gets (fun d => lookup_uint key def (preferences d)).

Definition preferences_isKey (key : string) : M bool :=
  gets (fun d => match preferences d !! key with Some _ => true | None => false end).

Definition preferences_putString (key value : string) : M unit :=
  modify (fun d => set_preferences (<[key := NvsString value]> (preferences d)) d).

Definition preferences_putUInt (key : string) (value : Z) : M unit :=
  modify (fun d => set_preferences (<[key := NvsUInt value]> (preferences d)) d).

Definition preferences_remove (key : string) : M unit :=
  modify (fun d => set_preferences (delete key (preferences d)) d).

(* ===================================================================== *)
(** ** nvs_handler.cpp *)

Definition initNVS : M bool :=
  ok ← preferences_begin;
  if negb ok then
    Serial_print "!!! CRITICAL ERROR: Failed to initialize NVS!";;
    mret false
  else
    has ← preferences_isKey NVS_KEY_MODE;
    (if negb has then
       Serial_print "NVS mode key does not exist, setting to MODE_UNCONFIGURED.";;
       preferences_putUInt NVS_KEY_MODE MODE_UNCONFIGURED
     else mret tt);;
    mret true.

Definition loadConfigurationFromNVS : M bool :=
  ok ← preferences_begin;
  if negb ok then
    Serial_print "!!! ERROR: Failed to open NVS in read mode while loading configuration!";;
    mret false
  else
    mode ← preferences_getUInt NVS_KEY_MODE MODE_UNCONFIGURED;
    modify (set_currentDeviceMode mode);;
    if mode =? MODE_CONFIGURED then
      ssid ← preferences_getString NVS_KEY_SSID "";
      modify (set_wifiSSID ssid);;
      pass ← preferences_getString NVS_KEY_PASS "";
      modify (set_wifiPass pass);;
      user ← preferences_getString NVS_KEY_USER "defaultUser";
      modify (set_userName user);;
      server ← preferences_getString NVS_KEY_SERVER "192.168.50.23:5000";
      modify (set_serverAddress server);;
      loaded ← gets wifiSSID;
      if (0 <? String.length loaded)%nat then
        Serial_print "Loaded configuration from NVS:";;
        Serial_print "  SSID: %s";;
        Serial_print "  User: %s";;
        Serial_print "  Server: %s";;
        mret true
      else
        Serial_print "Configured mode, but SSID is missing in NVS. Forcing AP mode.";;
        mret false
    else
      Serial_print "Device in unconfigured mode (as per NVS).";;
      mret false.

Definition saveConfigurationToNVS : M unit :=
  ok ← preferences_begin;
  if negb ok then
    Serial_print "!!! ERROR: Failed to open NVS in write mode!"
  else
    ssid ← gets wifiSSID; preferences_putString NVS_KEY_SSID ssid;;
    pass ← gets wifiPass; preferences_putString NVS_KEY_PASS pass;;
    user ← gets userName; preferences_putString NVS_KEY_USER user;;
    server ← gets serverAddress; preferences_putString NVS_KEY_SERVER server;;
    preferences_putUInt NVS_KEY_MODE MODE_CONFIGURED;;
    Serial_print "Configuration saved to NVS.";;
    modify (set_currentDeviceMode MODE_CONFIGURED).

Definition clearConfigurationInNVS : M unit :=
  ok ← preferences_begin;
  if negb ok then
    Serial_print "!!! ERROR: Failed to open NVS in write mode during clearing!"
  else
    preferences_putUInt NVS_KEY_MODE MODE_UNCONFIGURED;;
    preferences_remove NVS_KEY_SSID;;
    preferences_remove NVS_KEY_PASS;;
    preferences_remove NVS_KEY_USER;;
    preferences_remove NVS_KEY_SERVER;;
    Serial_print "NVS configuration cleared (mode set to unconfigured).";;
    modify (set_currentDeviceMode MODE_UNCONFIGURED);;
    modify (set_wifiSSID "");;
    modify (set_wifiPass "").

(* ===================================================================== *)
(** ** web_interface.cpp: starting and stopping the portal *)

Definition setupWebServer : M unit :=
  Serial_print "Configuring Web Server...";;
  modify (set_serverRunning true);;
  Serial_print "HTTP server started.".

Definition stopWebServerAndMDNS : M unit :=
  Serial_print "Stopping Web Server and MDNS...";;
  modify (set_serverRunning false);;
  modify (set_mdnsRunning false);;
  Serial_print "Web Server and MDNS stopped.".

(* ===================================================================== *)
(** ** wifi_manager.cpp *)

Definition startWifiScan (show_hidden : bool) : M unit :=
  emit (EvScanNetworks show_hidden);;
  Serial_print "Background WiFi network scan started.".

Definition switchToAPMode : M unit :=
  Serial_print "Switching to AP mode...";;
  WiFi_disconnect true;;
  WiFi_softAPdisconnect true;;
  delay 100;;
  modify (set_wifiMode WIFI_AP);;
  apConfigResult ← WiFi_softAP;
  ((if (apConfigResult : bool) then
      Serial_print "AP started: ";;
      Serial_print "AP IP address: ";;
      mdns ← MDNS_begin;
      ((if (mdns : bool) then
          Serial_print "MDNS responder started. Accessible at http://esp32-config.local";;
          emit EvMdnsAddService
        else Serial_print "Error starting MDNS!") : M unit);;
      setLedColor yellow;;
      startWifiScan true
    else
      Serial_print "!!! CRITICAL ERROR: Failed to start AP mode!";;
      blinkLedError red;;
      delay 5000;;
      ESP_restart) : M unit);;
  now ← millis;
  modify (set_lastDataSendTime now);;
  modify (set_currentDeviceMode MODE_UNCONFIGURED).

(** The polling loop shared by connectToWiFi and checkAndReconnectWiFi:
    [while (WiFi.status() != WL_CONNECTED && millis() - start < timeout)]
    with a body that waits 250 ms.  [fuel] bounds the number of tests
    of the loop condition. *)
Fixpoint await_link (fuel : nat) (timeout start : Z) (mark : string) : M unit :=
  match fuel with
  | O => mret tt
  | S fuel' =>
      up ← WiFi_connected;
      if (up : bool) then mret tt
      else
        now ← millis;
        if wrapU32 (now - start) <? timeout then
          delay 250;;
          Serial_print mark;;
          t ← millis;
          setLedColor (if (t / 250) mod 2 =? 0 then blue else black);;
          await_link fuel' timeout start mark
        else mret tt
  end.

(** Tests of the loop condition that a loop of the given timeout can
    reach: one per 250 ms wait, and the one that ends it. *)
Definition polls (timeout : Z) : nat := S (Z.to_nat (timeout / 250)).

Arguments polls : simpl never.

Definition connectToWiFi : M bool :=
  Serial_print "Connecting to network: ";;
  setLedColor blue;;
  modify (set_wifiMode WIFI_STA);;
  ssid ← gets wifiSSID; pass ← gets wifiPass;
  emit (EvWifiBegin ssid pass);;
  start ← millis;
  await_link (polls 15000) 15000 start ".";;
  up ← WiFi_connected;
  if (up : bool) then
    Serial_print ">>> SUCCESS: Connected to WiFi!";;
    setLedColor green;;
    Serial_print "Device IP address: ";;
    now ← millis;
    modify (set_lastDataSendTime now);;
    modify (set_currentDeviceMode MODE_CONFIGURED);;
    mret true
  else
    Serial_print "!!! ERROR: Failed to connect to WiFi within the timeout.";;
    blinkLedError black;;
    WiFi_disconnect true;;
    modify (set_currentDeviceMode MODE_UNCONFIGURED);;
    mret false.

(** The three calls with which every path back to the portal ends
    (wifi_manager.cpp 142-144, web_interface.cpp 147-149, main.cpp
    75-77 and 81-83, utils.cpp 155-157). *)
Definition revertToPortal : M unit :=
  clearConfigurationInNVS;;
  switchToAPMode;;
  setupWebServer.

(** Lines 126-149 of checkAndReconnectWiFi: the bounded reconnect after
    the loss of the link has been seen. *)
Definition reconnectOrRevert : M bool :=
  Serial_print "Lost WiFi connection in STA mode. Attempting to reconnect...";;
  setLedColor blue;;
  emit EvWifiReconnect;;
  reconnStart ← millis;
  await_link (polls 10000) 10000 reconnStart "*";;
  up ← WiFi_connected;
  if negb up then
    Serial_print "Reconnection failed. Reverting to AP mode.";;
    blinkLedError black;;
    revertToPortal;;
    mret false
  else
    Serial_print "Reconnection successful.";;
    setLedColor green;;
    mret true.

Definition checkAndReconnectWiFi : M bool :=
  mode ← gets currentDeviceMode;
  lost ← ((if mode =? MODE_CONFIGURED
           then up ← WiFi_connected; mret (negb up)
           else mret false) : M bool);
  if (lost : bool) then reconnectOrRevert
  else
    mode' ← gets currentDeviceMode;
    still ← ((if mode' =? MODE_CONFIGURED then WiFi_connected
              else mret false) : M bool);
    if (still : bool) then mret true else mret false.

(* ===================================================================== *)
(** ** data_sender.cpp: registration *)

Definition sendMacAddress : M unit :=
  up ← WiFi_connected;
  if negb up then mret tt
  else
    mac ← ask macAddress;
    server ← gets serverAddress;
    user ← gets userName;
    let constructedEndpoint :=
      String_replace "<mac_address>" mac
        (String_replace "<username>" user
           (String.append "http://" (String.append server apiRegisterPath))) in
    Serial_print "Sending MAC to registration endpoint: %s";;
    emit (EvHttpGet constructedEndpoint);;
    httpResponseCode ← http_response;
    ((if 0 <? httpResponseCode then
        Serial_print "Registration server response: %d";;
        Serial_print "Response:";;
        if (httpResponseCode =? 200) || (httpResponseCode =? 201)
        then blinkLedInfo green 2 green
        else blinkLedError green
      else
        Serial_print "HTTP error during registration: %s";;
        blinkLedError green) : M unit);;
    delay 20.

(* ===================================================================== *)
(** ** web_interface.cpp: the submitted form *)

(** The arguments of a POST to /connect; [None] when the form lacks
    the field. *)
Record ConnectForm : Type := mkForm {
  arg_ssid : option string;
  arg_pass : option string;
  arg_username : option string;
  arg_serveraddr : option string
}.

(** Lines 141-150 of handleConnect: the connection attempt with the
    submitted credentials and its two outcomes. *)
Definition connectOrRevert : M unit :=
  connected ← connectToWiFi;
  if (connected : bool) then
    saveConfigurationToNVS;;
    sendMacAddress
  else
    Serial_print "Failed to connect. Returning to AP mode.";;
    revertToPortal.

Definition handleConnect (form : ConnectForm) : M unit :=
  Serial_print "Handling POST request for /connect";;
  match arg_ssid form, arg_pass form, arg_username form, arg_serveraddr form with
  | Some ssid, Some pass, Some username, Some serveraddr =>
      modify (set_wifiSSID ssid);;
      modify (set_wifiPass pass);;
      modify (set_userName username);;
      modify (set_serverAddress serveraddr);;
      Serial_print "Received data:";;
      emit (EvServerSend 200 "text/html");;
      Serial_print "Sent information page with JS alert() to the browser.";;
      Serial_print "Stopping HTTP server and MDNS...";;
      stopWebServerAndMDNS;;
      Serial_print "HTTP server and MDNS stopped.";;
      Serial_print "Disconnecting AP and attempting connection in STA mode...";;
      connectOrRevert
  | _, _, _, _ =>
      emit (EvServerSend 400 "Missing required form data.")
  end.

(* ===================================================================== *)
(** ** main.cpp and utils.cpp: start-up, the button, the main loop *)

(** The start-up logic of [setup] (after the file system and the flash
    store have been initialised). *)
Definition setup : M unit :=
  found ← loadConfigurationFromNVS;
  if (found : bool) then
    Serial_print "Configuration found in NVS. Attempting to connect to WiFi...";;
    WiFi_disconnect true;;
    delay 100;;
    connected ← connectToWiFi;
    if (connected : bool) then sendMacAddress
    else
      Serial_print "Automatic WiFi connection failed. Switching to AP mode for configuration.";;
      revertToPortal
  else
    Serial_print "No valid configuration in NVS or device set to unconfigured. Starting in AP mode.";;
    revertToPortal.

(** A debounced press seen by buttonTask. *)
Definition buttonTask_pressed : M unit :=
  Serial_print "Button press detected";;
  mode ← gets currentDeviceMode;
  if mode =? MODE_CONFIGURED then
    Serial_print "Button pressed in configured mode -> Forcing AP mode and clearing NVS";;
    revertToPortal
  else
    Serial_print "Button pressed in AP mode (unconfigured) - no major action taken";;
    blinkLedInfo yellow 1 yellow.

(** One pass of [loop]; [submitted] is the form, if any, that
    [server.handleClient()] dispatches to handleConnect. *)
Definition loop (submitted : option ConnectForm) : M unit :=
  mode ← gets currentDeviceMode;
  ((if mode =? MODE_UNCONFIGURED then
      match submitted with
      | Some form => handleConnect form
      | None => mret tt
      end
    else if mode =? MODE_CONFIGURED then
      checkAndReconnectWiFi;; mret tt
    else mret tt) : M unit);;
  delay 20.

(* ===================================================================== *)
(** ** utils.cpp and main.cpp: the file system, the button, the start *)

(** utils.cpp, initLittleFS (lines 85-93); [mounted] is the answer of
    [LittleFS.begin()]. *)
Definition initLittleFS (mounted : bool) : M bool :=
  if negb mounted then
    Serial_print "!!! CRITICAL ERROR: Failed to mount LittleFS!";;
    blinkLedError red;;
    mret false
  else
    Serial_print "LittleFS mounted.";;
    mret true.

(** main.cpp, [setup] from line 48 to line 84.  Where the code parks
    the device in [while(1) { delay(1000); }] the result is [false]:
    nothing runs after it, neither the start-up logic nor [loop]. *)
Definition setup_from_reset (mounted : bool) : M bool :=
  fs ← initLittleFS mounted;
  if negb fs then mret false
  else
    nvs ← initNVS;
    if negb nvs then
      blinkLedError red;;
      mret false
    else
      Serial_print "Initializing I2C bus...";;
      Serial_print "Button handling task started.";;
      setup;;
      mret true.

(** utils.cpp, buttonTask: one pass of its loop (lines 145-175).
    [pinLow k] tells whether the [k]-th [digitalRead(BUTTON_PIN)]
    returns LOW; the pass is given the number of reads so far and the
    local [buttonWasPressed], and returns both. *)
Definition buttonTask_pass (pinLow : nat -> bool) (reads : nat)
  (buttonWasPressed : bool) : M (nat * bool) :=
  after ← ((if pinLow reads then
              if negb buttonWasPressed then
                delay 50;;
                if pinLow (S reads) then
                  buttonTask_pressed;;
                  mret (S (S reads), true)
                else mret (S (S reads), false)
              else mret (S reads, buttonWasPressed)
            else
              if buttonWasPressed then
                Serial_print "Button released";;
                mret (S reads, false)
              else mret (S reads, buttonWasPressed)) : M (nat * bool));
  delay 20;;
  mret after.

(** [n] passes of the loop of buttonTask. *)
Fixpoint buttonTask_passes (n : nat) (pinLow : nat -> bool) (reads : nat)
  (buttonWasPressed : bool) : M (nat * bool) :=
  match n with
  | O => mret (reads, buttonWasPressed)
  | S n' =>
      after ← buttonTask_pass pinLow reads buttonWasPressed;
      buttonTask_passes n' pinLow (fst after) (snd after)
  end.

(* ===================================================================== *)
(** ** data_sender.cpp: the two sensor tasks *)

#[local] Set Warnings "-inexact-float".

(** Physical constants (lines 26-29). *)
Definition G_CONST : float := 9.80665%float.
Definition MOLAR_MASS_AIR : float := 0.0289644%float.
Definition UNIV_GAS_CONST : float := 8.31447%float.
Definition STATION_ALTITUDE_METERS : float := 262.0%float.

(** The conversion of an [int] to [double], which is exact. *)
Definition double_of_int (z : Z) : float :=
  if z <? 0 then (- of_uint63 (Uint63.of_Z (- z)))%float
  else of_uint63 (Uint63.of_Z z).

Section Telemetry.

(** libm's [exp] and [round] on [double]. *)
Variable fexp : float -> float.
Variable fround : float -> float.

(** The carrier of [float] for the wind average, as in the section on
    the accumulator, and its promotion to [double]. *)
Context {F : Type}.
Variable f0 : F.
Variable fadd : F -> F -> F.
Variable fdiv : F -> F -> F.
Variable of_int : Z -> F.
Variable to_double : F -> float.

(** Lines 39-55. *)
Definition reduceToMSL
  (station_pressure_hpa station_temperature_c station_altitude_m : float) : float :=
  if is_nan station_pressure_hpa || is_nan station_temperature_c then nan
  else
    let station_temperature_k := (station_temperature_c + 273.15)%float in
    let station_pressure_pa := (station_pressure_hpa * 100.0)%float in
    let exponent :=
      ((G_CONST * MOLAR_MASS_AIR * station_altitude_m) /
       (UNIV_GAS_CONST * station_temperature_k))%float in
    let pressure_msl_pa := (station_pressure_pa * fexp exponent)%float in
    let pressure_msl_hpa := (pressure_msl_pa / 100.0)%float in
    pressure_msl_hpa.

(** [round(x * 100.0) / 100.0] and [round(x * 10000.0) / 10000.0]. *)
Definition round2 (x : float) : float := (fround (x * 100.0) / 100.0)%float.
Definition round4 (x : float) : float := (fround (x * 10000.0) / 10000.0)%float.

(** The JSON document of one cycle (lines 206-217), from the values of
    the locals [temp], [pressure], [humidity], [analogValue],
    [brightnessPercentage], [averageWindSpeed] and
    [precipitationPercentage]. *)
Definition buildPayload (temp pressure humidity : float)
  (analogValue brightness : Z) (averageWindSpeed : F) (precipitation : Z)
  : gmap string JsonValue :=
  let doc : gmap string JsonValue := ∅ in
  let doc :=
    if negb (is_nan temp) then <["temperature" := JDouble (round2 temp)]> doc
    else doc in
  let normalized_pressure := reduceToMSL pressure temp STATION_ALTITUDE_METERS in
  let doc :=
    if negb (is_nan normalized_pressure)
    then <["pressure" := JDouble (round2 normalized_pressure)]> doc
    else if negb (is_nan pressure)
         then <["pressure" := JDouble (round2 pressure)]> doc
         else doc in
  let doc :=
    if negb (is_nan humidity) then <["humidity" := JDouble (round4 humidity)]> doc
    else doc in
  let doc :=
    if negb (analogValue =? -1) then <["sunshine" := JInt brightness]> doc
    else <["sunshine" := JNull]> doc in
  let doc :=
    <["wind_speed" :=
        JDouble (fround (to_double averageWindSpeed * 3.6 * 100.0) / 100.0)%float]>
      doc in
  <["precipitation" := JDouble (round4 (double_of_int precipitation))]> doc.

(** What one telemetry cycle observes. *)
Record Readings : Type := mkReadings {
  wifiUp : nat -> bool;
  stationMac : string;
  rawRainAnalog : Z;
  mutexTaken : bool;
  bmeTemperature : float;
  bmePressure : float;
  bmeHumidity : float;
  photoAnalog : Z;
  postResponseCode : Z
}.

(** Lines 164-203: the locals of a cycle that passed the gate, and the
    accumulator it leaves.  [bmePressure] and [bmeHumidity] are the
    values of [pressure] and [humidity] after the division by
    [100.0F]. *)
Definition cycleAverage (r : Readings) (w : WindData) : F * WindData :=
  if mutexTaken r then drainAverage f0 fdiv of_int w else (f0, w).

Definition cyclePayload (bmeSensorOk : bool) (r : Readings) (w : WindData)
  : gmap string JsonValue :=
  let temp := if bmeSensorOk then bmeTemperature r else nan in
  let pressure := if bmeSensorOk then bmePressure r else nan in
  let humidity := if bmeSensorOk then bmeHumidity r else nan in
  let analogValue := photoAnalog r in
  buildPayload temp pressure humidity analogValue
    (brightnessPercentage analogValue) (fst (cycleAverage r w))
    (precipitationPercentage (rawRainAnalog r)).

Definition dataEndpoint (server mac : string) : string :=
  String_replace "<mac_plytki>" mac
    (String.append "http://" (String.append server apiDataPath)).

(** Lines 238-255: the LED after the POST.  The gate has used the
    first answer of [WiFi.status()]. *)
Definition signalOutcome (r : Readings) : list Event :=
  let code := postResponseCode r in
  if 0 <? code then
    [EvSerial "Sensor Task: Data server response: %d";
     EvSerial "Sensor Task: Response:"; EvSerial "%s"] ++
    (if (200 <=? code) && (code <? 300) then
       if wifiUp r 1%nat then [EvLed green]
       else if wifiUp r 2%nat then blinkLedError_events green else []
     else if wifiUp r 1%nat then blinkLedError_events green else [])
  else
    EvSerial "Sensor Task: HTTP error during data sending: %s" ::
    (if wifiUp r 1%nat then blinkLedError_events green
     else blinkLedError_events black).

(** One pass of the loop of sensorTaskFunction (lines 158-261). *)
Definition sensorTaskFunction_cycle (mode : DeviceMode) (server : string)
  (bmeSensorOk : bool) (r : Readings) (w : WindData)
  : list Event * WindData :=
  if (mode =? MODE_CONFIGURED) && wifiUp r 0%nat then
    ([EvAnalogRead RAIN_SENSOR_ANALOG_PIN; EvMutexTake] ++
     (if mutexTaken r
      then [EvMutexGive;
            EvSerial "Sensor Task: Calculated Average Wind Speed: %.2f m/s"]
      else [EvSerial "Sensor Task: Could not take windDataMutex! Using 0 for wind speed."]) ++
     (if bmeSensorOk
      then [EvBmeRead; EvSerial "Sensor Task: BME280 Reading"]
      else [EvSerial "Sensor Task: Skipping BME280 reading - sensor not initialized."]) ++
     [EvAnalogRead PHOTORESISTOR_PIN;
      EvSerial "Sensor Task: Photoresistor Reading: ADC=%d, Brightness=%d%%";
      EvSerial "Sensor Task: Sending JSON to data endpoint: ";
      EvHttpPost (dataEndpoint server (stationMac r)) (cyclePayload bmeSensorOk r w)] ++
     signalOutcome r ++
     [EvTaskDelay DATA_SEND_INTERVAL],
     snd (cycleAverage r w))
  else
    ([EvSerial "Sensor Task: Skipping data send (not configured or not connected to WiFi).";
      EvTaskDelay DATA_SEND_INTERVAL],
     w).

(** One pass of the loop of windSensorTaskFunction (lines 122-134). *)
Definition windSensorTaskFunction_cycle (windSpeedAnalog : Z) (taken : bool)
  (w : WindData) : list Event * WindData :=
  let currentWindSpeedms :=
    fdiv (of_int (windSpeedCentimetres windSpeedAnalog)) (of_int 100) in
  if taken then
    ([EvAnalogRead WIND_SENSOR_PIN; EvMutexTake; EvMutexGive; EvTaskDelay 100],
     record fadd currentWindSpeedms w)
  else
    ([EvAnalogRead WIND_SENSOR_PIN; EvMutexTake;
      EvSerial "Wind Sensor Task: Could not take windDataMutex!";
      EvTaskDelay 100],
     w).

(** The events that read a sensor, touch the accumulator or transmit. *)
Definition is_action (e : Event) : bool :=
  match e with
  | EvAnalogRead _ | EvBmeRead | EvMutexTake | EvMutexGive
  | EvHttpPost _ _ | EvHttpGet _ => true
  | _ => false
  end.

End Telemetry.

(* ===================================================================== *)
(** ** The two tasks and the mutex *)

(** The block time handed to [xSemaphoreTake]. *)
Inductive TickType : Type :=
| portMAX_DELAY
| ticks (n : nat).

Inductive Task : Type := WindSensorTask | SensorDataTask.

Section Tasks.

Context {F : Type}.
Variable f0 : F.
Variable fadd : F -> F -> F.
Variable fdiv : F -> F -> F.
Variable of_int : Z -> F.

(** Where windSensorTaskFunction stands in its loop: about to read
    the sensor, at [xSemaphoreTake] with the sample in hand, inside
    the critical section, in the branch taken when the mutex could not
    be had, or in [vTaskDelay]. *)
Inductive SamplerPc : Type :=
| S_Read
| S_Take (x : F)
| S_Critical (x : F)
| S_Failed (x : F)
| S_Sleep.

(** Where sensorTaskFunction stands in its loop: at the gate, at
    [xSemaphoreTake], inside the critical section, in the branch taken
    when the mutex could not be had, past the accumulator with the
    average of the cycle, or in [vTaskDelay]. *)
Inductive TelemetryPc : Type :=
| T_Gate
| T_Take
| T_Critical
| T_Failed
| T_Send (averageWindSpeed : F)
| T_Sleep.

(** The two tasks, the mutex and the accumulator, with a record of
    what has happened: the critical sections in the order in which the
    mutex admitted them, the samples brought to the mutex, the number
    of cycles that passed the gate, and the averages the cycles went on
    with. *)
Record Sys : Type := mkSys {
  mutexHolder : option Task;
  samplerPc : SamplerPc;
  telemetryPc : TelemetryPc;
  windData : WindData (F := F);
  history : list (WindOp (F := F));
  sampled : list F;
  gatePasses : nat;
  averages : list F
}.

(** Both tasks at the top of their loops, the mutex created and free. *)
Definition sys_init : Sys :=
  {| mutexHolder := None; samplerPc := S_Read; telemetryPc := T_Gate;
     windData := windData_init f0; history := []; sampled := [];
     gatePasses := O; averages := [] |}.

(** Modelled from the spec: FreeRTOS is not among the sources of this
    repository.  The spec has the two tasks exclude each other on the
    accumulator through one mutual-exclusion primitive whose
    acquisition may block.  As
    FreeRTOS documents [xSemaphoreTake], a free mutex is taken at once
    and the call returns pdTRUE; while the mutex is held the caller is
    blocked, and the call returns pdFALSE only when a finite block time
    expires; with [portMAX_DELAY] the caller stays blocked until the
    mutex is given.  One step of one task, under the block time
    [timeout] that both tasks pass: *)
Inductive step (timeout : TickType) : Sys -> Sys -> Prop :=
| step_read x m tp w h sm g av :
    step timeout (mkSys m S_Read tp w h sm g av)
                 (mkSys m (S_Take x) tp w h (sm ++ [x]) g av)
| step_sampler_takes x tp w h sm g av :
    step timeout (mkSys None (S_Take x) tp w h sm g av)
                 (mkSys (Some WindSensorTask) (S_Critical x) tp w h sm g av)
| step_sampler_times_out x n holder tp w h sm g av :
    timeout = ticks n ->
    step timeout (mkSys (Some holder) (S_Take x) tp w h sm g av)
                 (mkSys (Some holder) (S_Failed x) tp w h sm g av)
| step_sampler_records x m tp w h sm g av :
    step timeout (mkSys m (S_Critical x) tp w h sm g av)
                 (mkSys None S_Sleep tp (record fadd x w)
                        (h ++ [OpRecord x]) sm g av)
| step_sampler_logs x m tp w h sm g av :
    step timeout (mkSys m (S_Failed x) tp w h sm g av)
                 (mkSys m S_Sleep tp w h sm g av)
| step_sampler_wakes m tp w h sm g av :
    step timeout (mkSys m S_Sleep tp w h sm g av)
                 (mkSys m S_Read tp w h sm g av)
| step_gate_open m sp w h sm g av :
    step timeout (mkSys m sp T_Gate w h sm g av)
                 (mkSys m sp T_Take w h sm (S g) av)
| step_gate_closed m sp w h sm g av :
    step timeout (mkSys m sp T_Gate w h sm g av)
                 (mkSys m sp T_Sleep w h sm g av)
| step_telemetry_takes sp w h sm g av :
    step timeout (mkSys None sp T_Take w h sm g av)
                 (mkSys (Some SensorDataTask) sp T_Critical w h sm g av)
| step_telemetry_times_out n holder sp w h sm g av :
    timeout = ticks n ->
    step timeout (mkSys (Some holder) sp T_Take w h sm g av)
                 (mkSys (Some holder) sp T_Failed w h sm g av)
| step_telemetry_drains m sp w h sm g av :
    step timeout (mkSys m sp T_Critical w h sm g av)
                 (mkSys None sp (T_Send (fst (drainAverage f0 fdiv of_int w)))
                        (snd (drainAverage f0 fdiv of_int w))
                        (h ++ [OpDrain]) sm g av)
| step_telemetry_uses_zero m sp w h sm g av :
    step timeout (mkSys m sp T_Failed w h sm g av)
                 (mkSys m sp (T_Send f0) w h sm g av)
| step_telemetry_sends a m sp w h sm g av :
    step timeout (mkSys m sp (T_Send a) w h sm g av)
                 (mkSys m sp T_Sleep w h sm g (av ++ [a]))
| step_telemetry_wakes m sp w h sm g av :
    step timeout (mkSys m sp T_Sleep w h sm g av)
                 (mkSys m sp T_Gate w h sm g av).

(** The states the system can reach from its start. *)
Definition reachable (timeout : TickType) (s : Sys) : Prop :=
  rtc (step timeout) sys_init s.

(** The samples a history has recorded, and the drains it counts. *)
Fixpoint recorded (h : list (WindOp (F := F))) : list F :=
  match h with
  | [] => []
  | OpRecord x :: h' => x :: recorded h'
  | OpDrain :: h' => recorded h'
  end.

Fixpoint drains (h : list (WindOp (F := F))) : nat :=
  match h with
  | [] => O
  | OpRecord _ :: h' => drains h'
  | OpDrain :: h' => S (drains h')
  end.

(** The sample a sampler holds between the read and the end of its
    critical section. *)
Definition in_hand (pc : SamplerPc) : list F :=
  match pc with
  | S_Take x | S_Critical x => [x]
  | _ => []
  end.

(** A cycle that has passed the gate and not yet drained. *)
Definition about_to_drain (pc : TelemetryPc) : nat :=
  match pc with
  | T_Take | T_Critical => 1%nat
  | _ => O
  end.

(** The average a cycle holds before it sends it. *)
Definition in_flight (pc : TelemetryPc) : list F :=
  match pc with
  | T_Send a => [a]
  | _ => []
  end.

(** The task whose program counter is inside a critical section. *)
Definition in_critical (sp : SamplerPc) (tp : TelemetryPc) : option Task :=
  match sp, tp with
  | S_Critical _, _ => Some WindSensorTask
  | _, T_Critical => Some SensorDataTask
  | _, _ => None
  end.

Definition sampler_failed (pc : SamplerPc) : bool :=
  match pc with S_Failed _ => true | _ => false end.

Definition telemetry_failed (pc : TelemetryPc) : bool :=
  match pc with T_Failed => true | _ => false end.

(** What holds in every state reachable under [portMAX_DELAY]. *)
Record invariant (s : Sys) : Prop := mkInvariant {
  inv_holder : mutexHolder s = in_critical (samplerPc s) (telemetryPc s);
  inv_exclusive :
    (exists x, samplerPc s = S_Critical x) -> telemetryPc s <> T_Critical;
  inv_sampler : sampler_failed (samplerPc s) = false;
  inv_telemetry : telemetry_failed (telemetryPc s) = false;
  inv_samples : sampled s = recorded (history s) ++ in_hand (samplerPc s);
  inv_drains :
    gatePasses s = (drains (history s) + about_to_drain (telemetryPc s))%nat;
  inv_data :
    windData s = snd (run_wind f0 fadd fdiv of_int (history s) (windData_init f0));
  inv_averages :
    averages s ++ in_flight (telemetryPc s) =
    fst (run_wind f0 fadd fdiv of_int (history s) (windData_init f0))
}.

End Tasks.

(* ===================================================================== *)
(** ** The vocabulary of the properties *)

(** Readings delivered by [analogRead] have the type [uint16_t]. *)
Definition analog_reading (raw : Z) : Prop := 0 <= raw <= 65535.

(** A member of the document carries a number. *)
Definition has_number (doc : gmap string JsonValue) (key : string) : bool :=
  match doc !! key with
  | Some (JInt _) | Some (JDouble _) => true
  | _ => false
  end.

(** The gate of a cycle: configured, and the station link is up. *)
Definition gate_open (mode : DeviceMode) (r : Readings) : bool :=
  (mode =? MODE_CONFIGURED) && wifiUp r 0%nat.

(** The number of times the loop reads the radio's status, when the
    first read has index [n0] and [delays_left] waits of 250 ms remain
    before the timeout: it stops at the first read that finds the link
    up, and otherwise with the read after the last wait. *)
Fixpoint loop_reads (up : nat -> bool) (n0 delays_left : nat) : nat :=
  if up n0 then 1%nat
  else match delays_left with
       | O => 1%nat
       | S k => S (loop_reads up (S n0) k)
       end.

(** Whether the status read that follows the loop finds the link up. *)
Definition link_after (up : nat -> bool) (n0 : nat) (timeout : Z) : bool :=
  up (n0 + loop_reads up n0 (Z.to_nat (timeout / 250)))%nat.

(** The namespace after saveConfigurationToNVS and after
    clearConfigurationInNVS have written to it. *)
Definition saved_flash (ssid pass user server : string)
  (m : gmap string NvsValue) : gmap string NvsValue :=
  <[NVS_KEY_MODE := NvsUInt MODE_CONFIGURED]>
    (<[NVS_KEY_SERVER := NvsString server]>
       (<[NVS_KEY_USER := NvsString user]>
          (<[NVS_KEY_PASS := NvsString pass]>
             (<[NVS_KEY_SSID := NvsString ssid]> m)))).

Definition cleared_flash (m : gmap string NvsValue) : gmap string NvsValue :=
  delete NVS_KEY_SERVER
    (delete NVS_KEY_USER
       (delete NVS_KEY_PASS
          (delete NVS_KEY_SSID
             (<[NVS_KEY_MODE := NvsUInt MODE_UNCONFIGURED]> m)))).

(** The namespace holds a configuration: the four credentials and the
    mode Configured. *)
Definition holds_config (m : gmap string NvsValue)
  (ssid pass user server : string) : Prop :=
  m !! NVS_KEY_SSID = Some (NvsString ssid) /\
  m !! NVS_KEY_PASS = Some (NvsString pass) /\
  m !! NVS_KEY_USER = Some (NvsString user) /\
  m !! NVS_KEY_SERVER = Some (NvsString server) /\
  m !! NVS_KEY_MODE = Some (NvsUInt MODE_CONFIGURED).

(** The namespace holds no configuration: the mode is Unconfigured and
    the four credentials are gone. *)
Definition holds_nothing (m : gmap string NvsValue) : Prop :=
  m !! NVS_KEY_MODE = Some (NvsUInt MODE_UNCONFIGURED) /\
  m !! NVS_KEY_SSID = None /\
  m !! NVS_KEY_PASS = None /\
  m !! NVS_KEY_USER = None /\
  m !! NVS_KEY_SERVER = None.

(** The radio and the portal in the two modes of the device. *)
Definition in_portal (d : Device) : Prop :=
  currentDeviceMode d = MODE_UNCONFIGURED /\ wifiMode d = WIFI_AP /\
  serverRunning d = true.

Definition in_station (d : Device) : Prop :=
  currentDeviceMode d = MODE_CONFIGURED /\ wifiMode d = WIFI_STA.

Definition credentials (d : Device) : string * string * string * string :=
  (wifiSSID d, wifiPass d, userName d, serverAddress d).

(** A form with all four fields. *)
Definition complete_form (ssid pass user server : string) : ConnectForm :=
  mkForm (Some ssid) (Some pass) (Some user) (Some server).

(* ===================================================================== *)
(** ** Stand-ins for libm and concrete surroundings, on which the firmware is run *)

(** The exponential series, by Horner's scheme from term [k] on. *)
Fixpoint exp_horner (n : nat) (k x : float) : float :=
  match n with
  | O => 1%float
  | S n' => (1 + x / k * exp_horner n' (k + 1) x)%float
  end.

Definition exp_series (x : float) : float := exp_horner 24 1%float x.

(** Rounding to the nearest integer, halves away from zero, as C's
    [round]: below [2^52] adding and subtracting [2^52] yields a
    neighbouring integer, from which the floor and then the rounded
    value follow; from [2^52] on every [double] is an integer. *)
Definition round_half_away (x : float) : float :=
  let a := abs x in
  if (a <? 4503599627370496)%float then
    let n := (a + 4503599627370496 - 4503599627370496)%float in
    let fl := if (a <? n)%float then (n - 1)%float else n in
    let r := if (0.5 <=? a - fl)%float then (fl + 1)%float else fl in
    if (x <? 0)%float then (- r)%float else r
  else x.

(** A cycle's surroundings with the sensor values of a mild day. *)
Definition mild_day (up : bool) (temp : float) (raw : Z) : Readings :=
  {| wifiUp := fun _ => up; stationMac := "AA:BB:CC:DD:EE:FF";
     rawRainAnalog := 2250; mutexTaken := true;
     bmeTemperature := temp; bmePressure := 985.3%float;
     bmeHumidity := 0.5%float; photoAnalog := raw;
     postResponseCode := 200 |}.

(** The accumulator after the samples 2, 4 and 6 m/s, with [double]
    standing in for [float]. *)
Definition three_samples : WindData (F := float) :=
  record PrimFloat.add 6.0%float
    (record PrimFloat.add 4.0%float
       (record PrimFloat.add 2.0%float (windData_init 0%float))).

(** The accumulator over exact rationals: the scenario of the
    specification, samples 2, 4 and 6 m/s followed by two drains. *)
Definition scenario_ops : list (WindOp (F := Q)) :=
  [OpRecord 2%Q; OpRecord 4%Q; OpRecord 6%Q; OpDrain; OpDrain].

Definition run_wind_Q : list WindOp -> WindData -> list Q * WindData :=
  run_wind 0%Q Qplus Qdiv inject_Z.

(** Surroundings in which the access point and mDNS start, the server
    answers 200, the radio answers [up] and the flash store [flash]. *)
Definition surroundings (up flash : nat -> bool) : Env :=
  {| wifiConnected := up; prefsBeginOk := flash;
     softAPOk := fun _ => true; mdnsBeginOk := fun _ => true;
     httpCode := fun _ => 200; macAddress := "AA:BB:CC:DD:EE:FF" |}.

(** The device in its portal after a first start on an empty flash. *)
Definition portal_device : Device :=
  match setup (surroundings (fun _ => true) (fun _ => true))
          (power_on {[ NVS_KEY_MODE := NvsUInt MODE_UNCONFIGURED ]}) with
  | Running _ d => d
  | Restarted d => d
  end.

(** The device in station mode after a start on a stored configuration
    with the link up. *)
Definition station_device : Device :=
  match setup (surroundings (fun _ => true) (fun _ => true))
          (power_on (saved_flash "home" "secret" "alice" "10.0.0.7:5000" ∅)) with
  | Running _ d => d
  | Restarted d => d
  end.

(** A run of the two tasks over exact rationals: a sample of 2 m/s is
    recorded while the telemetry task waits at the mutex, which it then
    takes. *)
Definition sys_after_record : Sys (F := Q) :=
  mkSys (Some SensorDataTask) S_Sleep T_Critical
    (mkWindData (0 + 2)%Q (wrap32 (0 + 1))) [OpRecord 2%Q] [2%Q] 1%nat [].

(* ===================================================================== *)
(** ** The endpoints *)

(** data_sender.cpp, lines 85-86: the endpoint that sendMacAddress
    builds. *)
Definition registrationEndpoint (server user mac : string) : string :=
  String_replace "<mac_address>" mac
    (String_replace "<username>" user
       (String.append "http://" (String.append server apiRegisterPath))).

(* ===================================================================== *)
(** ** Runs of the device and further vocabulary *)

(** What happens to the running device, one thing at a time: a pass of
    [loop], with the form that the portal receives in it, if any, or a
    debounced press of the button. *)
Inductive Stimulus : Type :=
| Pass (submitted : option ConnectForm)
| Press.

Definition react (s : Stimulus) : M unit :=
  match s with
  | Pass submitted => loop submitted
  | Press => buttonTask_pressed
  end.

Fixpoint run_stimuli (stimuli : list Stimulus) : M unit :=
  match stimuli with
  | [] => mret tt
  | s :: rest => react s;; run_stimuli rest
  end.

(** The life of the device from a reset: the start and, unless the
    start parks the device, what happens to it afterwards.  The result
    tells whether the device got past its start. *)
Definition lifetime (mounted : bool) (stimuli : list Stimulus) : M bool :=
  started ← setup_from_reset mounted;
  if (started : bool) then run_stimuli stimuli;; mret true else mret false.

(** The mode and the role of the radio agree. *)
Definition consistent (d : Device) : Prop := in_portal d \/ in_station d.

(** What loadConfigurationFromNVS would read from the namespace. *)
Definition stored_mode (m : gmap string NvsValue) : Z :=
  lookup_uint NVS_KEY_MODE MODE_UNCONFIGURED m.

Definition stored_credentials (m : gmap string NvsValue)
  : string * string * string * string :=
  (lookup_string NVS_KEY_SSID "" m, lookup_string NVS_KEY_PASS "" m,
   lookup_string NVS_KEY_USER "defaultUser" m,
   lookup_string NVS_KEY_SERVER "192.168.50.23:5000" m).

(** The flash mirrors the device: in its portal the device holds no
    network name and no passphrase and the flash holds no
    configuration; in station mode the flash stores the mode Configured
    and the credentials that the device has in memory. *)
Definition mirrored (d : Device) : Prop :=
  (in_portal d /\ holds_nothing (preferences d) /\
   wifiSSID d = "" /\ wifiPass d = "") \/
  (in_station d /\ stored_mode (preferences d) = MODE_CONFIGURED /\
   stored_credentials (preferences d) = credentials d).

(** The flash store opens whenever it is asked to. *)
Definition flash_reliable (env : Env) : Prop :=
  forall k, prefsBeginOk env k = true.

(** A form that lacks one of its four fields. *)
Definition incomplete (form : ConnectForm) : Prop :=
  arg_ssid form = None \/ arg_pass form = None \/
  arg_username form = None \/ arg_serveraddr form = None.

(** The five keys of the configuration. *)
Definition config_keys : list string :=
  [NVS_KEY_SSID; NVS_KEY_PASS; NVS_KEY_USER; NVS_KEY_SERVER; NVS_KEY_MODE].

(** The six members that a telemetry document can have. *)
Definition payload_keys : list string :=
  ["temperature"; "pressure"; "humidity"; "sunshine"; "wind_speed";
   "precipitation"].

(** The string has no occurrence of the character. *)
Fixpoint free_of (c : Ascii.ascii) (s : string) : bool :=
  match s with
  | EmptyString => true
  | String a rest => negb (Ascii.eqb a c) && free_of c rest
  end.

(** The number of polls before the one that first finds the link up,
    among the [k] polls from index [n0] on. *)
Fixpoint first_up (up : nat -> bool) (n0 k : nat) : option nat :=
  match k with
  | O => None
  | S k' =>
      if up n0 then Some O
      else match first_up up (S n0) k' with
           | Some j => Some (S j)
           | None => None
           end
  end.

(** The HTTP requests among events. *)
Definition is_request (e : Event) : bool :=
  match e with
  | EvHttpGet _ | EvHttpPost _ _ => true
  | _ => false
  end.

(** The two tasks are not both inside their critical sections. *)
Definition exclusive {F : Type} (s : Sys (F := F)) : Prop :=
  match samplerPc s, telemetryPc s with
  | S_Critical _, T_Critical => False
  | _, _ => True
  end.

(** The value of [currentWindSpeedms] for a reading (data_sender.cpp,
    line 125). *)
Definition currentWindSpeedms {F : Type} (fdiv : F -> F -> F) (of_int : Z -> F)
  (windSpeedAnalog : Z) : F :=
  fdiv (of_int (windSpeedCentimetres windSpeedAnalog)) (of_int 100).

(** The accumulator after as many passes of windSensorTaskFunction as
    there are readings, each with the mutex. *)
Definition sampled_through {F : Type} (fadd fdiv : F -> F -> F)
  (of_int : Z -> F) (readings : list Z) (w : WindData) : WindData :=
  fold_left
    (fun w raw => snd (windSensorTaskFunction_cycle fadd fdiv of_int raw true w))
    readings w.

(** The state of the two tasks when the sampler's block time of
    [ticks n] has expired while the telemetry task was inside its
    critical section. *)
Definition sys_after_timeout : Sys (F := Q) :=
  mkSys (Some SensorDataTask) (S_Failed 2%Q) T_Critical
    (windData_init 0%Q) [] [2%Q] 1%nat [].

(* ##################################################################### *)
(** * Part II: properties *)

(* ===================================================================== *)
(** ** Symbolic execution of the device code *)

(** Unfolds the monad, the primitive actions and the accessors of the
    device record, leaving the calls of the firmware's own functions
    and the operations on the flash map in place. *)
Ltac exec :=
  cbn [blinkLedInfo];
  cbv beta match zeta delta
    [negb mret M_ret mbind M_bind modify gets ask emit Serial_print setLedColor
     delay millis ESP_restart WiFi_connected WiFi_disconnect
     WiFi_softAPdisconnect WiFi_softAP MDNS_begin
     http_response blinkLedError preferences_begin
     preferences_getString preferences_getUInt preferences_isKey
     preferences_putString preferences_putUInt preferences_remove
     setupWebServer stopWebServerAndMDNS startWifiScan
     set_wifiSSID set_wifiPass set_userName set_serverAddress
     set_currentDeviceMode set_lastDataSendTime set_preferences set_wifiMode
     set_serverRunning set_mdnsRunning set_clock set_statusReads
     set_beginCalls set_softAPCalls set_mdnsCalls set_httpCalls set_trace
     wifiSSID wifiPass userName serverAddress currentDeviceMode
     lastDataSendTime preferences wifiMode serverRunning mdnsRunning clock
     statusReads beginCalls softAPCalls mdnsCalls httpCalls trace].

Tactic Notation "exec" "in" hyp(H) :=
  cbn [blinkLedInfo] in H;
  cbv beta match zeta delta
    [negb mret M_ret mbind M_bind modify gets ask emit Serial_print setLedColor
     delay millis ESP_restart WiFi_connected WiFi_disconnect
     WiFi_softAPdisconnect WiFi_softAP MDNS_begin
     http_response blinkLedError preferences_begin
     preferences_getString preferences_getUInt preferences_isKey
     preferences_putString preferences_putUInt preferences_remove
     setupWebServer stopWebServerAndMDNS startWifiScan
     set_wifiSSID set_wifiPass set_userName set_serverAddress
     set_currentDeviceMode set_lastDataSendTime set_preferences set_wifiMode
     set_serverRunning set_mdnsRunning set_clock set_statusReads
     set_beginCalls set_softAPCalls set_mdnsCalls set_httpCalls set_trace
     wifiSSID wifiPass userName serverAddress currentDeviceMode
     lastDataSendTime preferences wifiMode serverRunning mdnsRunning clock
     statusReads beginCalls softAPCalls mdnsCalls httpCalls trace] in H.

(* ===================================================================== *)
(** ** Machine integers and the Arduino helpers *)

Lemma wrap32_small z : INT_MIN <= z <= INT_MAX -> wrap32 z = z.
Proof.
  unfold wrap32, INT_MIN, INT_MAX. intros Hz.
  rewrite Z.mod_small by lia. lia.
Qed.

Lemma wrap32_range z : INT_MIN <= wrap32 z <= INT_MAX.
Proof.
  unfold wrap32, INT_MIN, INT_MAX.
  pose proof (Z.mod_pos_bound (z + 2147483648) 4294967296). lia.
Qed.

(** Without overflow [map] is the truncated linear interpolation. *)
Lemma map_exact x in_min in_max out_min out_max :
  in_max - in_min <> 0 ->
  INT_MIN <= in_max - in_min <= INT_MAX ->
  INT_MIN <= out_max - out_min <= INT_MAX ->
  INT_MIN <= x - in_min <= INT_MAX ->
  INT_MIN <= (x - in_min) * (out_max - out_min) <= INT_MAX ->
  INT_MIN <= Z.quot ((x - in_min) * (out_max - out_min)) (in_max - in_min)
    <= INT_MAX ->
  INT_MIN <= Z.quot ((x - in_min) * (out_max - out_min)) (in_max - in_min)
             + out_min <= INT_MAX ->
  Arduino.map x in_min in_max out_min out_max =
  Z.quot ((x - in_min) * (out_max - out_min)) (in_max - in_min) + out_min.
Proof.
  intros Hrun H1 H2 H3 H4 H5 H6. unfold Arduino.map.
  rewrite (wrap32_small (in_max - in_min)) by assumption.
  destruct (Z.eqb_spec (in_max - in_min) 0) as [E | _]; [contradiction |].
  rewrite (wrap32_small (out_max - out_min)) by assumption.
  rewrite (wrap32_small (x - in_min)) by assumption.
  rewrite (wrap32_small ((x - in_min) * (out_max - out_min))) by assumption.
  rewrite (wrap32_small (Z.quot _ _)) by assumption.
  now rewrite wrap32_small by assumption.
Qed.

Lemma constrain_range amt low high :
  low <= high -> low <= Arduino.constrain amt low high <= high.
Proof.
  intros Hlh. unfold Arduino.constrain.
  destruct (Z.ltb_spec amt low); [lia |].
  rewrite Z.gtb_ltb. destruct (Z.ltb_spec high amt); lia.
Qed.

Lemma constrain_mono a b low high :
  a <= b -> Arduino.constrain a low high <= Arduino.constrain b low high \/ high < low.
Proof.
  intros Hab. unfold Arduino.constrain.
  destruct (Z.ltb_spec a low), (Z.ltb_spec b low);
    rewrite ?Z.gtb_ltb;
    destruct (Z.ltb_spec high a), (Z.ltb_spec high b); lia.
Qed.

(** The rain mapping on every analog reading, before the clamp. *)
Lemma rain_map_exact raw :
  analog_reading raw ->
  Arduino.map raw WET_THRESHOLD DRY_THRESHOLD 100 0 =
  Z.quot ((raw - 500) * -100) 3500 + 100.
Proof.
  unfold analog_reading, WET_THRESHOLD, DRY_THRESHOLD. intros Hr.
  rewrite map_exact
    by (unfold INT_MIN, INT_MAX; Z.quot_rem_to_equations; lia).
  reflexivity.
Qed.

(** The light mapping on every analog reading, before the clamp. *)
Lemma light_map_exact raw :
  analog_reading raw ->
  Arduino.map raw BRIGHT_THRESHOLD DARK_THRESHOLD 100 0 =
  Z.quot ((raw - 3000) * -100) (-2500) + 100.
Proof.
  unfold analog_reading, BRIGHT_THRESHOLD, DARK_THRESHOLD. intros Hr.
  rewrite map_exact
    by (unfold INT_MIN, INT_MAX; Z.quot_rem_to_equations; lia).
  reflexivity.
Qed.

Lemma brightness_range raw : 0 <= brightnessPercentage raw <= 100.
Proof. unfold brightnessPercentage. apply constrain_range. lia. Qed.

Lemma brightness_monotone r1 r2 :
  analog_reading r1 -> analog_reading r2 -> r1 <= r2 ->
  brightnessPercentage r1 <= brightnessPercentage r2.
Proof.
  intros H1 H2 Hle. unfold brightnessPercentage.
  rewrite !light_map_exact by assumption.
  destruct (constrain_mono
              (Z.quot ((r1 - 3000) * -100) (-2500) + 100)
              (Z.quot ((r2 - 3000) * -100) (-2500) + 100) 0 100) as [H | H];
    [| exact H | lia].
  Z.quot_rem_to_equations. lia.
Qed.

(** C5.  For every raw precipitation reading the reported percentage
    lies in [0,100]; the wet threshold gives 100 and the dry threshold
    gives 0; between the thresholds the percentage is the inverse-linear
    interpolation [100 - (raw - wet) * 100 / (dry - wet)] (hence
    antitone); readings at or below the wet threshold give 100 and
    readings at or above the dry threshold give 0. *)
Theorem precipitation_mapping :
  (forall raw, 0 <= precipitationPercentage raw <= 100) /\
  precipitationPercentage WET_THRESHOLD = 100 /\
  precipitationPercentage DRY_THRESHOLD = 0 /\
  (forall raw, WET_THRESHOLD <= raw <= DRY_THRESHOLD ->
     precipitationPercentage raw =
     100 - (raw - WET_THRESHOLD) * 100 / (DRY_THRESHOLD - WET_THRESHOLD)) /\
  (forall r1 r2, analog_reading r1 -> analog_reading r2 -> r1 <= r2 ->
     precipitationPercentage r2 <= precipitationPercentage r1) /\
  (forall raw, analog_reading raw -> raw <= WET_THRESHOLD ->
     precipitationPercentage raw = 100) /\
  (forall raw, analog_reading raw -> DRY_THRESHOLD <= raw ->
     precipitationPercentage raw = 0).
Proof.
  split; [| split; [| split; [| split; [| split; [| split]]]]].
  - intros raw. unfold precipitationPercentage.
    apply constrain_range. lia.
  - reflexivity.
  - reflexivity.
  - intros raw Hr. unfold precipitationPercentage.
    unfold WET_THRESHOLD, DRY_THRESHOLD in Hr.
    rewrite rain_map_exact by (unfold analog_reading; lia).
    unfold Arduino.constrain, WET_THRESHOLD, DRY_THRESHOLD.
    change (4000 - 500) with 3500.
    destruct (Z.ltb_spec (Z.quot ((raw - 500) * -100) 3500 + 100) 0);
      rewrite ?Z.gtb_ltb;
      try destruct (Z.ltb_spec 100 (Z.quot ((raw - 500) * -100) 3500 + 100));
      Z.quot_rem_to_equations; Z.div_mod_to_equations; lia.
  - intros r1 r2 H1 H2 Hle. unfold precipitationPercentage.
    rewrite !rain_map_exact by assumption.
    destruct (constrain_mono
                (Z.quot ((r2 - 500) * -100) 3500 + 100)
                (Z.quot ((r1 - 500) * -100) 3500 + 100) 0 100) as [H | H];
      [| exact H | lia].
    Z.quot_rem_to_equations. lia.
  - intros raw Hr Hw. unfold precipitationPercentage.
    rewrite rain_map_exact by assumption.
    unfold WET_THRESHOLD in Hw. unfold analog_reading in Hr.
    unfold Arduino.constrain.
    destruct (Z.ltb_spec (Z.quot ((raw - 500) * -100) 3500 + 100) 0);
      rewrite ?Z.gtb_ltb;
      try destruct (Z.ltb_spec 100 (Z.quot ((raw - 500) * -100) 3500 + 100));
      Z.quot_rem_to_equations; lia.
  - intros raw Hr Hd. unfold precipitationPercentage.
    rewrite rain_map_exact by assumption.
    unfold DRY_THRESHOLD in Hd. unfold analog_reading in Hr.
    unfold Arduino.constrain.
    destruct (Z.ltb_spec (Z.quot ((raw - 500) * -100) 3500 + 100) 0);
      rewrite ?Z.gtb_ltb;
      try destruct (Z.ltb_spec 100 (Z.quot ((raw - 500) * -100) 3500 + 100));
      Z.quot_rem_to_equations; lia.
Qed.

(** A reading in the middle of the range, at which the interpolation
    and the clamps of [precipitation_mapping] are exercised. *)
Lemma precipitation_mapping_witness :
  precipitationPercentage 2250 = 50 /\
  precipitationPercentage 4095 <= precipitationPercentage 7 /\
  precipitationPercentage 7 = 100 /\
  precipitationPercentage 4095 = 0.
Proof.
  destruct precipitation_mapping as (_ & _ & _ & Hmid & Hmono & Hwet & Hdry).
  split; [| split; [| split]].
  - rewrite (Hmid 2250); [reflexivity | unfold WET_THRESHOLD, DRY_THRESHOLD; lia].
  - apply Hmono; unfold analog_reading; lia.
  - apply Hwet; [unfold analog_reading | unfold WET_THRESHOLD]; lia.
  - apply Hdry; [unfold analog_reading | unfold DRY_THRESHOLD]; lia.
Defined.

(* ===================================================================== *)
(** ** The wind accumulator *)

Section WindAccumulatorFacts.

Context {F : Type}.
Variable f0 : F.
Variable fadd : F -> F -> F.
Variable fdiv : F -> F -> F.
Variable of_int : Z -> F.

Lemma holds_init : holds f0 fadd (windData_init f0) [].
Proof. split; reflexivity. Qed.

Lemma holds_record x w pending :
  Z.of_nat (length pending) + 1 <= INT_MAX ->
  holds f0 fadd w pending -> holds f0 fadd (record fadd x w) (pending ++ [x]).
Proof.
  intros Hfit [Hsum Hcnt]. split; simpl.
  - rewrite fold_left_app. simpl. now rewrite Hsum.
  - rewrite Hcnt, length_app. simpl.
    rewrite wrap32_small by (unfold INT_MIN; lia). lia.
Qed.

Lemma drain_of_holds w pending :
  holds f0 fadd w pending ->
  drainAverage f0 fdiv of_int w =
  (mean f0 fadd fdiv of_int pending, windData_init f0).
Proof.
  intros [Hsum Hcnt]. unfold drainAverage, windData_init. f_equal.
  rewrite Hcnt, Hsum. destruct pending as [| x xs]; [reflexivity |].
  simpl length. rewrite Z.gtb_ltb.
  destruct (Z.ltb_spec 0 (Z.of_nat (S (length xs)))); [reflexivity | lia].
Qed.

(** Run from an accumulator that holds the pending samples, a history
    whose batches fit returns the means of its batches and ends holding
    the samples still pending. *)
Lemma run_wind_holds ops : forall w pending,
  holds f0 fadd w pending ->
  batches_fit ops (Z.of_nat (length pending)) ->
  fst (run_wind f0 fadd fdiv of_int ops w) =
    drain_means f0 fadd fdiv of_int ops pending /\
  holds f0 fadd (snd (run_wind f0 fadd fdiv of_int ops w))
    (pending_after ops pending).
Proof.
  induction ops as [| [x |] ops IH]; intros w pending Hw Hfit.
  - split; [reflexivity | exact Hw].
  - destruct Hfit as [Hone Hrest]. simpl.
    apply IH.
    + now apply holds_record.
    + rewrite length_app. simpl.
      replace (Z.of_nat (length pending + 1))
        with (Z.of_nat (length pending) + 1) by lia.
      exact Hrest.
  - simpl in Hfit. cbn [run_wind drain_means pending_after].
    rewrite (drain_of_holds w pending Hw). cbn [fst snd].
    destruct (IH (windData_init f0) [] holds_init Hfit) as [Hout Hend].
    split; [now rewrite Hout | exact Hend].
Qed.

(** C1.  For every history of [record] and [drainAverage] on the
    accumulator, starting from its initial state and with no batch
    exceeding the range of the [int] counter, each drain returns the
    mean of exactly the samples recorded since the previous drain, and
    [0.0] when there were none; every drain leaves the sum and the
    count at zero, so a drain that follows a drain returns [0.0]. *)
Theorem wind_drain_returns_batch_mean :
  (forall ops, batches_fit ops 0 ->
     fst (run_wind f0 fadd fdiv of_int ops (windData_init f0)) =
     drain_means f0 fadd fdiv of_int ops []) /\
  mean f0 fadd fdiv of_int [] = f0 /\
  (forall w, snd (drainAverage f0 fdiv of_int w) =
             {| totalWindSpeedSum := f0; windReadingCount := 0 |}) /\
  (forall w, fst (drainAverage f0 fdiv of_int
                    (snd (drainAverage f0 fdiv of_int w))) = f0) /\
  fst (drainAverage f0 fdiv of_int (windData_init f0)) = f0.
Proof.
  split; [| split; [| split; [| split]]].
  - intros ops Hfit.
    now destruct (run_wind_holds ops (windData_init f0) [] holds_init Hfit).
  - reflexivity.
  - intros w. reflexivity.
  - intros w. reflexivity.
  - reflexivity.
Qed.

End WindAccumulatorFacts.

Lemma wind_drain_returns_batch_mean_witness :
  batches_fit scenario_ops 0 /\
  fst (run_wind_Q scenario_ops (windData_init 0%Q)) =
  drain_means 0%Q Qplus Qdiv inject_Z scenario_ops [].
Proof.
  assert (Hfit : batches_fit scenario_ops 0).
  { simpl. unfold INT_MAX. repeat split; lia. }
  split; [exact Hfit |].
  exact (proj1 (wind_drain_returns_batch_mean 0%Q Qplus Qdiv inject_Z)
               scenario_ops Hfit).
Defined.

Example scenario_average :
  map Qred (fst (run_wind_Q scenario_ops (windData_init 0%Q))) = [4%Q; 0%Q].
Proof. reflexivity. Qed.

(* ===================================================================== *)
(** ** The telemetry task *)

Example round_half_away_examples :
  round_half_away 2.5%float = 3%float /\
  round_half_away (-2.5)%float = (-3)%float /\
  round_half_away 101325.49%float = 101325%float /\
  round_half_away 0.4%float = 0%float /\
  is_nan (round_half_away nan) = true.
Proof. repeat split; reflexivity. Qed.

Section TelemetryFacts.

Variable fexp : float -> float.
Variable fround : float -> float.
Context {F : Type}.
Variable f0 : F.
Variable fadd : F -> F -> F.
Variable fdiv : F -> F -> F.
Variable of_int : Z -> F.
Variable to_double : F -> float.

Lemma reduceToMSL_nan_pressure p t h :
  is_nan p = true -> reduceToMSL fexp p t h = nan.
Proof. intros Hp. unfold reduceToMSL. now rewrite Hp. Qed.

Lemma reduceToMSL_nan_temperature p t h :
  is_nan t = true -> reduceToMSL fexp p t h = nan.
Proof. intros Ht. unfold reduceToMSL. now rewrite Ht, orb_true_r. Qed.

(** C3.  [reduceToMSL] returns NaN whenever the station pressure or
    the station temperature is NaN, at every altitude; on other inputs
    it evaluates [P * 100 * exp (g M h / (R (t + 273.15))) / 100] in
    [double] arithmetic; whenever [exp] returns 1 for the exponent taken
    at altitude 0, the result is [P * 100 * 1 / 100]; and with
    [exp 0 = 1] the call [reduceToMSL(1000.0, 15.0, 0.0)] yields
    1000.0. *)
Theorem reduceToMSL_nan_guard_and_formula :
  (forall p t h, is_nan p = true \/ is_nan t = true ->
     reduceToMSL fexp p t h = nan /\ is_nan (reduceToMSL fexp p t h) = true) /\
  (forall p t h, is_nan p = false -> is_nan t = false ->
     reduceToMSL fexp p t h =
     (p * 100.0 *
      fexp ((G_CONST * MOLAR_MASS_AIR * h) / (UNIV_GAS_CONST * (t + 273.15)))
      / 100.0)%float) /\
  (forall p t, is_nan p = false -> is_nan t = false ->
     fexp ((G_CONST * MOLAR_MASS_AIR * 0) / (UNIV_GAS_CONST * (t + 273.15)))%float
       = 1%float ->
     reduceToMSL fexp p t 0%float = (p * 100.0 * 1 / 100.0)%float) /\
  (fexp 0%float = 1%float ->
     reduceToMSL fexp 1000.0%float 15.0%float 0.0%float = 1000.0%float).
Proof.
  split; [| split; [| split]].
  - intros p t h [Hp | Ht].
    + rewrite reduceToMSL_nan_pressure by assumption. split; reflexivity.
    + rewrite reduceToMSL_nan_temperature by assumption. split; reflexivity.
  - intros p t h Hp Ht. unfold reduceToMSL. rewrite Hp, Ht. reflexivity.
  - intros p t Hp Ht Hexp. unfold reduceToMSL. rewrite Hp, Ht. cbn [orb].
    now rewrite Hexp.
  - intros Hexp. unfold reduceToMSL.
    change (is_nan 1000.0%float || is_nan 15.0%float) with false. cbv iota.
    change ((G_CONST * MOLAR_MASS_AIR * 0.0) /
            (UNIV_GAS_CONST * (15.0 + 273.15)))%float with 0%float.
    rewrite Hexp. reflexivity.
Qed.

Lemma payload_pressure temp pressure humidity analogValue brightness avg precip :
  buildPayload fexp fround to_double temp pressure humidity analogValue
    brightness avg precip !! "pressure" =
  if negb (is_nan (reduceToMSL fexp pressure temp STATION_ALTITUDE_METERS))
  then Some (JDouble (round2 fround
               (reduceToMSL fexp pressure temp STATION_ALTITUDE_METERS)))
  else if negb (is_nan pressure) then Some (JDouble (round2 fround pressure))
       else None.
Proof.
  unfold buildPayload.
  rewrite lookup_insert_ne by discriminate.
  rewrite lookup_insert_ne by discriminate.
  assert (Hsun : forall (v : JsonValue) (doc : gmap string JsonValue),
             <["sunshine" := v]> doc !! "pressure" = doc !! "pressure").
  { intros v doc. now rewrite lookup_insert_ne by discriminate. }
  assert (Hhum : forall (v : JsonValue) (doc : gmap string JsonValue),
             <["humidity" := v]> doc !! "pressure" = doc !! "pressure").
  { intros v doc. now rewrite lookup_insert_ne by discriminate. }
  assert (Htmp : forall (v : JsonValue) (doc : gmap string JsonValue),
             <["temperature" := v]> doc !! "pressure" = doc !! "pressure").
  { intros v doc. now rewrite lookup_insert_ne by discriminate. }
  destruct (negb (analogValue =? -1)); rewrite Hsun;
    destruct (negb (is_nan humidity)); rewrite ?Hhum;
    destruct (negb (is_nan (reduceToMSL fexp pressure temp STATION_ALTITUDE_METERS)));
    rewrite ?lookup_insert_eq; try reflexivity;
    destruct (negb (is_nan pressure));
    rewrite ?lookup_insert_eq; try reflexivity;
    destruct (negb (is_nan temp)); rewrite ?Htmp; apply lookup_empty.
Qed.

Lemma payload_sunshine temp pressure humidity analogValue brightness avg precip :
  buildPayload fexp fround to_double temp pressure humidity analogValue
    brightness avg precip !! "sunshine" =
  Some (if analogValue =? -1 then JNull else JInt brightness).
Proof.
  unfold buildPayload.
  rewrite lookup_insert_ne by discriminate.
  rewrite lookup_insert_ne by discriminate.
  destruct (analogValue =? -1); cbn [negb]; apply lookup_insert_eq.
Qed.

(** C4.  In the document of a cycle: when the sea-level reduction is
    NaN (as it is when the temperature is NaN) and the raw station
    pressure is a number, the pressure member is the raw station
    pressure, rounded to two places like every pressure; when both are
    NaN (as they are when the environmental sensor failed to
    initialise) the document has no pressure key; otherwise the member
    is the reduced pressure. *)
Theorem pressure_member_fallback
  temp pressure humidity analogValue brightness avg precip :
  let doc := buildPayload fexp fround to_double temp pressure humidity
               analogValue brightness avg precip in
  let reduced := reduceToMSL fexp pressure temp STATION_ALTITUDE_METERS in
  (is_nan reduced = true -> is_nan pressure = false ->
     doc !! "pressure" = Some (JDouble (round2 fround pressure))) /\
  (is_nan temp = true -> is_nan pressure = false ->
     doc !! "pressure" = Some (JDouble (round2 fround pressure))) /\
  (is_nan reduced = true -> is_nan pressure = true ->
     doc !! "pressure" = None) /\
  (is_nan reduced = false ->
     doc !! "pressure" = Some (JDouble (round2 fround reduced))) /\
  (forall r w,
     cyclePayload fexp fround f0 fdiv of_int to_double false r w !! "pressure"
     = None).
Proof.
  cbv zeta. rewrite payload_pressure.
  split; [| split; [| split; [| split]]].
  - intros Hr Hp. now rewrite Hr, Hp.
  - intros Ht Hp.
    rewrite (reduceToMSL_nan_temperature pressure temp _ Ht), Hp. reflexivity.
  - intros Hr Hp. now rewrite Hr, Hp.
  - intros Hr. now rewrite Hr.
  - intros r w. unfold cyclePayload. rewrite payload_pressure. reflexivity.
Qed.


End TelemetryFacts.

Section TelemetryGate.

Variable fexp : float -> float.
Variable fround : float -> float.
Context {F : Type}.
Variable f0 : F.
Variable fdiv : F -> F -> F.
Variable of_int : Z -> F.
Variable to_double : F -> float.

Local Abbreviation cycle := (sensorTaskFunction_cycle fexp fround f0 fdiv of_int to_double).

Lemma closed_gate_cycle mode server bmeSensorOk r (w : WindData (F := F)) :
  gate_open mode r = false ->
  cycle mode server bmeSensorOk r w =
  ([EvSerial "Sensor Task: Skipping data send (not configured or not connected to WiFi).";
    EvTaskDelay DATA_SEND_INTERVAL], w).
Proof.
  unfold gate_open, sensorTaskFunction_cycle. intros Hgate. now rewrite Hgate.
Qed.

Lemma open_gate_cycle_posts mode server bmeSensorOk r (w : WindData (F := F)) :
  gate_open mode r = true ->
  existsb is_action (fst (cycle mode server bmeSensorOk r w)) = true.
Proof.
  unfold gate_open, sensorTaskFunction_cycle. intros Hgate. now rewrite Hgate.
Qed.

(** C8.  In a telemetry cycle in which the device mode is not
    Configured or the station link is not connected, the task only
    prints its skip message and waits for the next interval: it reads no
    sensor, leaves the wind accumulator as it is, and posts nothing.
    Conversely, a cycle that reads, drains or transmits found the
    device Configured and the link up. *)
Theorem telemetry_gate_closed_is_noop
  mode server bmeSensorOk r (w : WindData (F := F)) :
  (mode <> MODE_CONFIGURED \/ wifiUp r 0%nat = false ->
     cycle mode server bmeSensorOk r w =
       ([EvSerial "Sensor Task: Skipping data send (not configured or not connected to WiFi).";
         EvTaskDelay DATA_SEND_INTERVAL], w) /\
     existsb is_action (fst (cycle mode server bmeSensorOk r w)) = false /\
     snd (cycle mode server bmeSensorOk r w) = w) /\
  (existsb is_action (fst (cycle mode server bmeSensorOk r w)) = true ->
     mode = MODE_CONFIGURED /\ wifiUp r 0%nat = true).
Proof.
  split.
  - intros Hclosed.
    assert (Hgate : gate_open mode r = false).
    { unfold gate_open. destruct Hclosed as [Hmode | Hlink].
      - destruct (Z.eqb_spec mode MODE_CONFIGURED); [contradiction | reflexivity].
      - rewrite Hlink. apply andb_false_r. }
    rewrite (closed_gate_cycle _ server bmeSensorOk _ w Hgate).
    repeat split.
  - intros Hact. destruct (gate_open mode r) eqn:Hgate.
    + unfold gate_open in Hgate. apply andb_prop in Hgate as [Hm Hl].
      split; [now apply Z.eqb_eq | exact Hl].
    + rewrite (closed_gate_cycle _ server bmeSensorOk _ w Hgate) in Hact.
      discriminate Hact.
Qed.

End TelemetryGate.

Lemma reduceToMSL_nan_guard_and_formula_witness :
  reduceToMSL exp_series 1000.0%float 15.0%float 0.0%float = 1000.0%float /\
  reduceToMSL exp_series nan 15.0%float 262.0%float = nan /\
  reduceToMSL exp_series 985.3%float 15.0%float 0%float
    = (985.3 * 100.0 * 1 / 100.0)%float.
Proof.
  destruct (reduceToMSL_nan_guard_and_formula exp_series)
    as (Hnan & _ & Hzero & Hex).
  split; [| split].
  - apply Hex. reflexivity.
  - apply Hnan. left. reflexivity.
  - apply Hzero; reflexivity.
Defined.

Lemma pressure_member_fallback_witness :
  buildPayload exp_series round_half_away (fun x : float => x)
    nan 985.3%float 0.5%float 1200 28 2.0%float 50 !! "pressure"
  = Some (JDouble (round2 round_half_away 985.3%float)) /\
  buildPayload exp_series round_half_away (fun x : float => x)
    nan nan nan 1200 28 2.0%float 50 !! "pressure" = None /\
  buildPayload exp_series round_half_away (fun x : float => x)
    15.0%float 985.3%float 0.5%float 1200 28 2.0%float 50 !! "pressure"
  = Some (JDouble (round2 round_half_away
            (reduceToMSL exp_series 985.3%float 15.0%float
               STATION_ALTITUDE_METERS))).
Proof.
  split; [| split].
  - apply (pressure_member_fallback exp_series round_half_away
             0%float PrimFloat.div (fun z => double_of_int z) (fun x : float => x));
      reflexivity.
  - apply (pressure_member_fallback exp_series round_half_away
             0%float PrimFloat.div (fun z => double_of_int z) (fun x : float => x));
      reflexivity.
  - apply (pressure_member_fallback exp_series round_half_away
             0%float PrimFloat.div (fun z => double_of_int z) (fun x : float => x)).
    vm_compute. reflexivity.
Defined.

Example reduced_pressure_of_mild_day :
  round2 round_half_away
    (reduceToMSL exp_series 985.3%float 15.0%float STATION_ALTITUDE_METERS)
  = 1016.39%float.
Proof. vm_compute. reflexivity. Qed.

(** The scenario of the specification: the samples 2, 4 and 6 m/s are
    reported as 14.4 km/h; with them go the readings of the mild day. *)
Example mild_day_document :
  let doc := cyclePayload exp_series round_half_away 0%float PrimFloat.div
               double_of_int (fun x : float => x) true
               (mild_day true 15.0%float 1750) three_samples in
  doc !! "wind_speed" = Some (JDouble 14.4%float) /\
  doc !! "temperature" = Some (JDouble 15%float) /\
  doc !! "pressure" = Some (JDouble 1016.39%float) /\
  doc !! "humidity" = Some (JDouble 0.5%float) /\
  doc !! "sunshine" = Some (JInt 50) /\
  doc !! "precipitation" = Some (JDouble 50%float) /\
  dataEndpoint "192.168.50.200:5000" "AA:BB:CC:DD:EE:FF"
    = "http://192.168.50.200:5000/AA:BB:CC:DD:EE:FF/data".
Proof. vm_compute. repeat split. Qed.


Lemma telemetry_gate_closed_is_noop_witness :
  existsb is_action
    (fst (sensorTaskFunction_cycle exp_series round_half_away 0%float PrimFloat.div
            double_of_int (fun x : float => x)
            MODE_UNCONFIGURED "192.168.50.200:5000" true
            (mild_day true 15.0%float 1750)
            (mkWindData 12.0%float 3))) = false /\
  snd (sensorTaskFunction_cycle exp_series round_half_away 0%float PrimFloat.div
         double_of_int (fun x : float => x)
         MODE_CONFIGURED "192.168.50.200:5000" true
         (mild_day false 15.0%float 1750)
         (mkWindData 12.0%float 3)) = mkWindData 12.0%float 3.
Proof.
  split.
  - apply (telemetry_gate_closed_is_noop exp_series round_half_away 0%float
             PrimFloat.div double_of_int (fun x : float => x)).
    left. unfold MODE_UNCONFIGURED, MODE_CONFIGURED. lia.
  - apply (telemetry_gate_closed_is_noop exp_series round_half_away 0%float
             PrimFloat.div double_of_int (fun x : float => x)).
    right. reflexivity.
Defined.

(* ===================================================================== *)
(** ** The bounded polling loop *)

Lemma loop_reads_bound up n0 k : (1 <= loop_reads up n0 k <= S k)%nat.
Proof.
  revert n0. induction k as [| k IH]; intros n0; simpl.
  - destruct (up n0); lia.
  - destruct (up n0); [lia |]. specialize (IH (S n0)). lia.
Qed.

Lemma elapsed_since c0 c :
  0 <= c - c0 < 4294967296 ->
  wrapU32 (wrapU32 c - wrapU32 c0) = c - c0.
Proof.
  intros Hc. unfold wrapU32.
  rewrite <- Zminus_mod. now apply Z.mod_small.
Qed.

Lemma await_link_step fuel timeout start mark :
  await_link (S fuel) timeout start mark =
  (up ← WiFi_connected;
   if (up : bool) then mret tt
   else
     now ← millis;
     if wrapU32 (now - start) <? timeout then
       delay 250;;
       Serial_print mark;;
       t ← millis;
       setLedColor (if (t / 250) mod 2 =? 0 then blue else black);;
       await_link fuel timeout start mark
     else mret tt).
Proof. reflexivity. Qed.

(** The loop returns, whatever tests beyond those its timeout allows
    it is given: it has read the status [loop_reads] times and waited
    no longer than the timeout, and only the clock, the count of status
    reads and the trace have changed. *)
Lemma await_link_runs mark env : forall delays_left (j : Z) c0 d,
  0 <= j ->
  clock d = c0 + 250 * j ->
  250 * (j + Z.of_nat delays_left) < 4294967296 ->
  exists c tr,
    (forall fuel, (delays_left < fuel)%nat ->
       await_link fuel (250 * (j + Z.of_nat delays_left))
         (wrapU32 c0) mark env d =
       Running tt
         (set_clock c
            (set_statusReads
               (statusReads d + loop_reads (wifiConnected env) (statusReads d) delays_left)
               (set_trace tr d)))) /\
    clock d <= c <= c0 + 250 * (j + Z.of_nat delays_left).
Proof.
  induction delays_left as [| k IH]; intros j c0 d Hj Hclock Hfit.
  - cbn [loop_reads]. destruct d. exec in Hclock. exec.
    destruct (wifiConnected env statusReads0) eqn:Hup.
    + exists clock0, trace0. split; [| lia].
      intros [| fuel] Hfuel; [lia |]. rewrite await_link_step. exec.
      rewrite Hup. exec. do 2 f_equal. lia.
    + exists (c0 + 250 * j), trace0. split; [| lia].
      intros [| fuel] Hfuel; [lia |]. rewrite await_link_step. exec.
      rewrite Hup. exec.
      rewrite Hclock, elapsed_since by lia.
      replace (c0 + 250 * j - c0) with (250 * j) by lia.
      replace (250 * (j + Z.of_nat 0)) with (250 * j) by lia.
      rewrite Z.ltb_irrefl.
      subst. do 2 f_equal. lia.
  - cbn [loop_reads]. destruct d. exec in Hclock. exec.
    destruct (wifiConnected env statusReads0) eqn:Hup.
    + exists clock0, trace0. split; [| lia].
      intros [| fuel] Hfuel; [lia |]. rewrite await_link_step. exec.
      rewrite Hup. exec. do 2 f_equal. lia.
    + set (d' := mkDevice wifiSSID0 wifiPass0 userName0 serverAddress0
                   currentDeviceMode0 lastDataSendTime0 preferences0 wifiMode0
                   serverRunning0 mdnsRunning0 (clock0 + 250) (S statusReads0)
                   beginCalls0 softAPCalls0 mdnsCalls0 httpCalls0
                   ((trace0 ++ [EvSerial mark]) ++
                    [EvLed (if (wrapU32 (clock0 + 250) / 250) mod 2 =? 0
                            then blue else black)])).
      destruct (IH (j + 1) c0 d') as (c & tr & Hrun & Hc).
      * lia.
      * subst d'. exec. lia.
      * lia.
      * exists c, tr. split.
        -- intros [| fuel] Hfuel; [lia |]. rewrite await_link_step. exec.
           rewrite Hup. exec.
           rewrite Hclock, elapsed_since by lia.
           replace (c0 + 250 * j - c0) with (250 * j) by lia.
           destruct (Z.ltb_spec (250 * j) (250 * (j + Z.of_nat (S k))))
             as [_ | Hge]; [| lia].
           exec.
           replace (250 * (j + Z.of_nat (S k)))
             with (250 * (j + 1 + Z.of_nat k)) by lia.
           rewrite <- Hclock. fold d'.
           rewrite (Hrun fuel) by lia. subst d'. exec.
           do 2 f_equal. lia.
        -- subst d'. exec in Hc. lia.
Qed.

(** The two loops of the firmware. *)
Lemma await_link_polls timeout mark env d :
  0 <= timeout < 4294967296 -> timeout mod 250 = 0 ->
  exists c tr,
    await_link (polls timeout) timeout (wrapU32 (clock d)) mark env d =
    Running tt
      (set_clock c
         (set_statusReads
            (statusReads d +
             loop_reads (wifiConnected env) (statusReads d)
               (Z.to_nat (timeout / 250)))
            (set_trace tr d))) /\
    clock d <= c <= clock d + timeout.
Proof.
  intros Ht Hmod.
  assert (Heq : timeout = 250 * (0 + Z.of_nat (Z.to_nat (timeout / 250)))).
  { rewrite Z2Nat.id by (apply Z.div_pos; lia).
    rewrite (Z.div_mod timeout 250) at 1 by lia. lia. }
  destruct (await_link_runs mark env (Z.to_nat (timeout / 250)) 0 (clock d) d)
    as (c & tr & Hrun & Hc); [lia | lia | lia |].
  exists c, tr. split; [| lia].
  rewrite Heq at 2. apply Hrun. unfold polls. lia.
Qed.

(** Replaces the loop in the goal by its result. *)
Ltac run_loop c tr Hc :=
  let Hrun := fresh "Hrun" in
  match goal with
  | |- context [await_link (polls ?t) ?t _ ?m ?env ?d1] =>
      destruct (await_link_polls t m env d1) as (c & tr & Hrun & Hc);
      [lia | reflexivity |];
      exec in Hrun; exec in Hc; rewrite Hrun; clear Hrun; exec
  end.

(* ===================================================================== *)
(** ** What the flash namespace holds *)

Lemma saved_flash_holds ssid pass user server m :
  holds_config (saved_flash ssid pass user server m) ssid pass user server.
Proof.
  unfold holds_config, saved_flash.
  repeat split;
    repeat (rewrite lookup_insert_ne by discriminate);
    apply lookup_insert_eq.
Qed.

Lemma cleared_flash_holds_nothing m : holds_nothing (cleared_flash m).
Proof.
  unfold holds_nothing, cleared_flash.
  repeat split;
    repeat (rewrite lookup_delete_ne by discriminate);
    try apply lookup_delete_eq.
  apply lookup_insert_eq.
Qed.

Lemma nonempty_has_length (s : string) :
  s <> "" -> (0 <? String.length s)%nat = true.
Proof. destruct s; [congruence | reflexivity]. Qed.

Lemma lookup_string_of key def s (m : gmap string NvsValue) :
  m !! key = Some (NvsString s) -> lookup_string key def m = s.
Proof. unfold lookup_string. now intros ->. Qed.

Lemma lookup_string_none key def (m : gmap string NvsValue) :
  m !! key = None -> lookup_string key def m = def.
Proof. unfold lookup_string. now intros ->. Qed.

Lemma lookup_uint_of key def n (m : gmap string NvsValue) :
  m !! key = Some (NvsUInt n) -> lookup_uint key def m = n.
Proof. unfold lookup_uint. now intros ->. Qed.

(* ===================================================================== *)
(** ** The functions, one by one *)

Lemma saveConfigurationToNVS_opens env d :
  prefsBeginOk env (beginCalls d) = true ->
  exists tr,
    saveConfigurationToNVS env d =
    Running tt
      (set_currentDeviceMode MODE_CONFIGURED
         (set_preferences
            (saved_flash (wifiSSID d) (wifiPass d) (userName d)
               (serverAddress d) (preferences d))
            (set_beginCalls (S (beginCalls d)) (set_trace tr d)))).
Proof.
  destruct d. exec. intros Hopen. unfold saveConfigurationToNVS. exec.
  rewrite Hopen. exec. eexists. reflexivity.
Qed.

Lemma saveConfigurationToNVS_fails env d :
  prefsBeginOk env (beginCalls d) = false ->
  exists tr,
    saveConfigurationToNVS env d =
    Running tt (set_beginCalls (S (beginCalls d)) (set_trace tr d)).
Proof.
  destruct d. exec. intros Hopen. unfold saveConfigurationToNVS. exec.
  rewrite Hopen. exec. eexists. reflexivity.
Qed.

Lemma clearConfigurationInNVS_opens env d :
  prefsBeginOk env (beginCalls d) = true ->
  exists tr,
    clearConfigurationInNVS env d =
    Running tt
      (set_wifiPass ""
         (set_wifiSSID ""
            (set_currentDeviceMode MODE_UNCONFIGURED
               (set_preferences (cleared_flash (preferences d))
                  (set_beginCalls (S (beginCalls d)) (set_trace tr d)))))).
Proof.
  destruct d. exec. intros Hopen. unfold clearConfigurationInNVS. exec.
  rewrite Hopen. exec. eexists. reflexivity.
Qed.

Lemma clearConfigurationInNVS_fails env d :
  prefsBeginOk env (beginCalls d) = false ->
  exists tr,
    clearConfigurationInNVS env d =
    Running tt (set_beginCalls (S (beginCalls d)) (set_trace tr d)).
Proof.
  destruct d. exec. intros Hopen. unfold clearConfigurationInNVS. exec.
  rewrite Hopen. exec. eexists. reflexivity.
Qed.

Lemma loadConfigurationFromNVS_opens env d :
  prefsBeginOk env (beginCalls d) = true ->
  let m := preferences d in
  let mode := lookup_uint NVS_KEY_MODE MODE_UNCONFIGURED m in
  exists tr,
    loadConfigurationFromNVS env d =
    if mode =? MODE_CONFIGURED then
      Running (0 <? String.length (lookup_string NVS_KEY_SSID "" m))%nat
        (set_serverAddress (lookup_string NVS_KEY_SERVER "192.168.50.23:5000" m)
           (set_userName (lookup_string NVS_KEY_USER "defaultUser" m)
              (set_wifiPass (lookup_string NVS_KEY_PASS "" m)
                 (set_wifiSSID (lookup_string NVS_KEY_SSID "" m)
                    (set_currentDeviceMode mode
                       (set_beginCalls (S (beginCalls d)) (set_trace tr d)))))))
    else
      Running false
        (set_currentDeviceMode mode
           (set_beginCalls (S (beginCalls d)) (set_trace tr d))).
Proof.
  destruct d. exec. intros Hopen. unfold loadConfigurationFromNVS. exec.
  rewrite Hopen. exec.
  destruct (lookup_uint NVS_KEY_MODE MODE_UNCONFIGURED preferences0 =? MODE_CONFIGURED).
  - exec.
    destruct (0 <? String.length (lookup_string NVS_KEY_SSID "" preferences0))%nat;
      exec; eexists; reflexivity.
  - exec. eexists. reflexivity.
Qed.

Lemma loadConfigurationFromNVS_fails env d :
  prefsBeginOk env (beginCalls d) = false ->
  exists tr,
    loadConfigurationFromNVS env d =
    Running false (set_beginCalls (S (beginCalls d)) (set_trace tr d)).
Proof.
  destruct d. exec. intros Hopen. unfold loadConfigurationFromNVS. exec.
  rewrite Hopen. exec. eexists. reflexivity.
Qed.

(** connectToWiFi always returns, after at most 15 s of polling (and
    0.9 s of blinking when it fails); its result is the status read
    after the loop; it leaves the credentials and the flash alone. *)
Lemma connectToWiFi_runs env d :
  let up := link_after (wifiConnected env) (statusReads d) 15000 in
  exists c n tr lst,
    connectToWiFi env d =
    Running up
      (set_currentDeviceMode (if up then MODE_CONFIGURED else MODE_UNCONFIGURED)
         (set_lastDataSendTime lst
            (set_wifiMode (if up then WIFI_STA else WIFI_MODE_NULL)
               (set_clock c (set_statusReads n (set_trace tr d)))))) /\
    clock d <= c <= clock d + 15900.
Proof.
  destruct d. unfold link_after, connectToWiFi. exec.
  run_loop c tr Hc.
  destruct (wifiConnected env _); exec.
  - do 4 eexists. split; [reflexivity | lia].
  - exists (c + 150 + 150 + 150 + 150 + 150 + 150). do 3 eexists.
    split; [reflexivity | lia].
Qed.

Lemma sendMacAddress_runs env d :
  exists c n h tr,
    sendMacAddress env d =
    Running tt (set_clock c (set_statusReads n (set_httpCalls h (set_trace tr d)))).
Proof.
  destruct d. unfold sendMacAddress. exec.
  destruct (wifiConnected env statusReads0); exec.
  - destruct (0 <? httpCode env httpCalls0); exec.
    + destruct ((httpCode env httpCalls0 =? 200) || (httpCode env httpCalls0 =? 201));
        exec; do 4 eexists; reflexivity.
    + do 4 eexists; reflexivity.
  - do 4 eexists; reflexivity.
Qed.

(** switchToAPMode either brings the access point up or restarts the
    device; it leaves the credentials and the flash alone. *)
Lemma switchToAPMode_runs env d :
  exists c mc mr tr lst,
    switchToAPMode env d =
    if softAPOk env (softAPCalls d) then
      Running tt
        (set_currentDeviceMode MODE_UNCONFIGURED
           (set_lastDataSendTime lst
              (set_mdnsRunning mr
                 (set_mdnsCalls mc
                    (set_softAPCalls (S (softAPCalls d))
                       (set_wifiMode WIFI_AP
                          (set_clock c (set_trace tr d))))))))
    else
      Restarted
        (set_softAPCalls (S (softAPCalls d))
           (set_wifiMode WIFI_AP (set_clock c (set_trace tr d)))).
Proof.
  destruct d. unfold switchToAPMode. exec.
  destruct (softAPOk env softAPCalls0); exec.
  - destruct (mdnsBeginOk env mdnsCalls0); exec.
    + do 5 eexists. reflexivity.
    + do 5 eexists. reflexivity.
  - exists (clock0 + 100 + 150 + 150 + 150 + 150 + 150 + 150 + 5000), mdnsCalls0,
      mdnsRunning0. eexists. exists 0. reflexivity.
Qed.

(** Replace a call in the goal by its result. *)
Ltac run_connect c Hc :=
  let Hrun := fresh "Hrun" in
  let n := fresh "n" in
  let tr := fresh "tr" in
  let lst := fresh "lst" in
  match goal with
  | |- context [connectToWiFi ?env ?d1] =>
      destruct (connectToWiFi_runs env d1) as (c & n & tr & lst & Hrun & Hc);
      unfold link_after in Hrun; exec in Hrun; exec in Hc
  end;
  match type of Hrun with
  | context [wifiConnected ?env ?k] =>
      match goal with
      | H : wifiConnected env k = _ |- _ => rewrite H in Hrun
      end
  end;
  rewrite Hrun; clear Hrun; exec.

Ltac run_sendMac :=
  let Hrun := fresh "Hrun" in
  let c := fresh "c" in
  let n := fresh "n" in
  let h := fresh "h" in
  let tr := fresh "tr" in
  match goal with
  | |- context [sendMacAddress ?env ?d1] =>
      destruct (sendMacAddress_runs env d1) as (c & n & h & tr & Hrun);
      exec in Hrun; rewrite Hrun; clear Hrun; exec
  end.

Ltac run_switchToAP :=
  let Hrun := fresh "Hrun" in
  let c := fresh "c" in
  let mc := fresh "mc" in
  let mr := fresh "mr" in
  let tr := fresh "tr" in
  let lst := fresh "lst" in
  match goal with
  | |- context [switchToAPMode ?env ?d1] =>
      destruct (switchToAPMode_runs env d1) as (c & mc & mr & tr & lst & Hrun);
      exec in Hrun; rewrite Hrun; clear Hrun
  end.

(** The revert to the portal when the flash opens: the namespace is
    wiped, the network name and the passphrase in memory are emptied,
    the user name and the server address stay. *)
Lemma revertToPortal_opens env d :
  prefsBeginOk env (beginCalls d) = true ->
  match revertToPortal env d with
  | Running _ d' =>
      in_portal d' /\ holds_nothing (preferences d') /\
      wifiSSID d' = "" /\ wifiPass d' = "" /\
      userName d' = userName d /\ serverAddress d' = serverAddress d
  | Restarted d' =>
      holds_nothing (preferences d') /\
      wifiSSID d' = "" /\ wifiPass d' = "" /\
      userName d' = userName d /\ serverAddress d' = serverAddress d
  end.
Proof.
  destruct d. exec. intros Hopen.
  unfold revertToPortal, clearConfigurationInNVS. exec.
  rewrite Hopen. exec. run_switchToAP.
  fold (cleared_flash preferences0).
  destruct (softAPOk env softAPCalls0); unfold in_portal; exec;
    repeat split; apply cleared_flash_holds_nothing.
Qed.

(** A connection attempt always returns: its result is the status
    read after the polling loop, it takes no longer than the 15 s of
    polling and the 0.9 s of blinking on failure, and it touches neither
    the credentials nor the flash. *)
Lemma connectToWiFi_bounded env d :
  exists d1,
    connectToWiFi env d =
      Running (link_after (wifiConnected env) (statusReads d) 15000) d1 /\
    clock d <= clock d1 <= clock d + 15900 /\
    credentials d1 = credentials d /\ preferences d1 = preferences d.
Proof.
  destruct (connectToWiFi_runs env d) as (c & n & tr & lst & Hrun & Hc).
  cbv zeta in Hrun. rewrite Hrun. eexists. split; [reflexivity |].
  unfold credentials. destruct d. exec. exec in Hc. repeat split; lia.
Qed.

(** Loading a namespace that holds a configuration with a network name. *)
Lemma load_of_config env d ssid pass user server :
  prefsBeginOk env (beginCalls d) = true ->
  holds_config (preferences d) ssid pass user server ->
  ssid <> "" ->
  exists d',
    loadConfigurationFromNVS env d = Running true d' /\
    credentials d' = (ssid, pass, user, server) /\
    currentDeviceMode d' = MODE_CONFIGURED /\
    preferences d' = preferences d.
Proof.
  intros Hopen (Hs & Hp & Hu & Hv & Hm) Hne.
  destruct (loadConfigurationFromNVS_opens env d Hopen) as [tr Hrun].
  cbv zeta in Hrun.
  rewrite (lookup_uint_of _ _ _ _ Hm), (lookup_string_of _ _ _ _ Hs),
    (lookup_string_of _ _ _ _ Hp), (lookup_string_of _ _ _ _ Hu),
    (lookup_string_of _ _ _ _ Hv), Z.eqb_refl,
    (nonempty_has_length ssid Hne) in Hrun.
  rewrite Hrun. eexists. split; [reflexivity |].
  unfold credentials. destruct d. exec. repeat split.
Qed.

(** Loading a namespace that holds no configuration, or whose mode is
    not Configured, or whose network name is empty, or that does not
    open. *)
Lemma load_refuses env d :
  lookup_uint NVS_KEY_MODE MODE_UNCONFIGURED (preferences d) <> MODE_CONFIGURED \/
  lookup_string NVS_KEY_SSID "" (preferences d) = "" \/
  prefsBeginOk env (beginCalls d) = false ->
  exists d', loadConfigurationFromNVS env d = Running false d'.
Proof.
  intros Hwhy. destruct (prefsBeginOk env (beginCalls d)) eqn:Hopen.
  - destruct (loadConfigurationFromNVS_opens env d Hopen) as [tr Hrun].
    cbv zeta in Hrun. rewrite Hrun.
    destruct (Z.eqb_spec
                (lookup_uint NVS_KEY_MODE MODE_UNCONFIGURED (preferences d))
                MODE_CONFIGURED) as [Hmode | Hmode].
    + destruct Hwhy as [Hm | [Hs | Hb]]; [contradiction | | discriminate].
      rewrite Hs. eexists. reflexivity.
    + eexists. reflexivity.
  - destruct (loadConfigurationFromNVS_fails env d Hopen) as [tr Hrun].
    rewrite Hrun. eexists. reflexivity.
Qed.

(* ===================================================================== *)
(** ** The connectivity state machine *)

Lemma portal_connects env d ssid pass user server :
  prefsBeginOk env (beginCalls d) = true ->
  currentDeviceMode d = MODE_UNCONFIGURED ->
  link_after (wifiConnected env) (statusReads d) 15000 = true ->
  exists d',
    loop (Some (complete_form ssid pass user server)) env d = Running tt d' /\
    in_station d' /\
    holds_config (preferences d') ssid pass user server /\
    credentials d' = (ssid, pass, user, server).
Proof.
  destruct d. unfold link_after. exec. intros Hopen Hmode Hlink. subst.
  unfold loop, handleConnect, connectOrRevert, complete_form, arg_ssid,
    arg_pass, arg_username, arg_serveraddr.
  exec. rewrite Z.eqb_refl. exec.
  run_connect c Hc.
  unfold saveConfigurationToNVS. exec. rewrite Hopen. exec.
  run_sendMac.
  eexists. split; [reflexivity |].
  unfold in_station, credentials. exec.
  split; [split; reflexivity |].
  split; [apply saved_flash_holds | reflexivity].
Qed.

Lemma portal_fails env d ssid pass user server :
  prefsBeginOk env (beginCalls d) = true ->
  currentDeviceMode d = MODE_UNCONFIGURED ->
  link_after (wifiConnected env) (statusReads d) 15000 = false ->
  match loop (Some (complete_form ssid pass user server)) env d with
  | Running _ d' => in_portal d' /\ holds_nothing (preferences d')
  | Restarted d' => holds_nothing (preferences d')
  end.
Proof.
  destruct d. unfold link_after. exec. intros Hopen Hmode Hlink. subst.
  unfold loop, handleConnect, connectOrRevert, complete_form, arg_ssid,
    arg_pass, arg_username, arg_serveraddr.
  exec. rewrite Z.eqb_refl. exec.
  run_connect c Hc.
  match goal with
  | |- context [revertToPortal env ?d1] =>
      pose proof (revertToPortal_opens env d1 Hopen) as Hrev;
      destruct (revertToPortal env d1) as [[] d' | d']
  end.
  - exec. unfold in_portal in *. destruct d'. exec. exec in Hrev. tauto.
  - tauto.
Qed.

Lemma reconnect_fails env d :
  prefsBeginOk env (beginCalls d) = true ->
  currentDeviceMode d = MODE_CONFIGURED ->
  wifiConnected env (statusReads d) = false ->
  link_after (wifiConnected env) (S (statusReads d)) 10000 = false ->
  match loop None env d with
  | Running _ d' =>
      in_portal d' /\ holds_nothing (preferences d') /\
      wifiSSID d' = "" /\ wifiPass d' = "" /\
      userName d' = userName d /\ serverAddress d' = serverAddress d
  | Restarted d' => holds_nothing (preferences d')
  end.
Proof.
  destruct d. unfold link_after. exec. intros Hopen Hmode Hlost Hlink. subst.
  unfold loop, checkAndReconnectWiFi, reconnectOrRevert. exec.
  change (MODE_CONFIGURED =? MODE_UNCONFIGURED) with false. exec.
  rewrite !Z.eqb_refl. exec. rewrite ?Z.eqb_refl. exec.
  rewrite Hlost. exec.
  run_loop c tr Hc. rewrite Hlink. exec.
  match goal with
  | |- context [revertToPortal env ?d1] =>
      pose proof (revertToPortal_opens env d1 Hopen) as Hrev;
      destruct (revertToPortal env d1) as [[] d' | d']
  end.
  - exec. unfold in_portal in *. destruct d'. exec. exec in Hrev. tauto.
  - tauto.
Qed.

Lemma reconnect_succeeds env d :
  currentDeviceMode d = MODE_CONFIGURED ->
  wifiConnected env (statusReads d) = false ->
  link_after (wifiConnected env) (S (statusReads d)) 10000 = true ->
  exists d',
    loop None env d = Running tt d' /\
    currentDeviceMode d' = MODE_CONFIGURED /\ wifiMode d' = wifiMode d /\
    credentials d' = credentials d /\ preferences d' = preferences d.
Proof.
  destruct d. unfold link_after. exec. intros Hmode Hlost Hlink. subst.
  unfold loop, checkAndReconnectWiFi, reconnectOrRevert. exec.
  change (MODE_CONFIGURED =? MODE_UNCONFIGURED) with false. exec.
  rewrite !Z.eqb_refl. exec. rewrite ?Z.eqb_refl. exec.
  rewrite Hlost. exec.
  run_loop c tr Hc. rewrite Hlink. exec.
  eexists. split; [reflexivity |]. unfold credentials. exec. repeat split.
Qed.

(** C2, as the code has it.  Provided the flash store opens when the
    transition writes to it: from Unconfigured, a submitted form whose
    connection attempt finds the link up within the 15 s of polling
    takes the device to Configured in the station role and stores the
    four credentials with the mode Configured, while a failed attempt
    leaves the device Unconfigured with the portal running and the
    stored configuration wiped; from Configured, a lost link followed by
    a reconnect that fails within its 10 s wipes the stored
    configuration and returns the device to Unconfigured with the portal
    running, while a successful reconnect keeps the device Configured
    with the credentials in memory and in flash untouched.  Where the
    access point cannot be started the device restarts, with the stored
    configuration wiped all the same.  Every connection attempt returns
    within 15.9 s. *)
Theorem connectivity_transitions env d :
  prefsBeginOk env (beginCalls d) = true ->
  (exists d1,
     connectToWiFi env d =
       Running (link_after (wifiConnected env) (statusReads d) 15000) d1 /\
     clock d <= clock d1 <= clock d + 15900) /\
  (forall ssid pass user server,
     currentDeviceMode d = MODE_UNCONFIGURED ->
     (link_after (wifiConnected env) (statusReads d) 15000 = true ->
        exists d',
          loop (Some (complete_form ssid pass user server)) env d
            = Running tt d' /\
          in_station d' /\
          holds_config (preferences d') ssid pass user server /\
          credentials d' = (ssid, pass, user, server)) /\
     (link_after (wifiConnected env) (statusReads d) 15000 = false ->
        match loop (Some (complete_form ssid pass user server)) env d with
        | Running _ d' => in_portal d' /\ holds_nothing (preferences d')
        | Restarted d' => holds_nothing (preferences d')
        end)) /\
  (currentDeviceMode d = MODE_CONFIGURED ->
   wifiConnected env (statusReads d) = false ->
     (link_after (wifiConnected env) (S (statusReads d)) 10000 = false ->
        match loop None env d with
        | Running _ d' => in_portal d' /\ holds_nothing (preferences d')
        | Restarted d' => holds_nothing (preferences d')
        end) /\
     (link_after (wifiConnected env) (S (statusReads d)) 10000 = true ->
        exists d',
          loop None env d = Running tt d' /\
          currentDeviceMode d' = MODE_CONFIGURED /\ wifiMode d' = wifiMode d /\
          credentials d' = credentials d /\ preferences d' = preferences d)).
Proof.
  intros Hopen. split; [| split].
  - destruct (connectToWiFi_bounded env d) as (d1 & Hrun & Hc & _).
    exists d1. split; assumption.
  - intros ssid pass user server Hmode. split; intros Hlink.
    + now apply portal_connects.
    + now apply portal_fails.
  - intros Hmode Hlost. split; intros Hlink.
    + pose proof (reconnect_fails env d Hopen Hmode Hlost Hlink) as H.
      destruct (loop None env d) as [[] d' | d']; tauto.
    + now apply reconnect_succeeds.
Qed.

(** C7, as the code has it.  Whenever the device reverts to
    Unconfigured and the flash store opens, the persisted configuration
    is erased and, of the credentials in memory, the network name and
    the passphrase are emptied while the user name and the server
    address keep their values: so it is in clearConfigurationInNVS
    itself, in the revert sequence that every path back to the portal
    runs, after a press of the button in Configured mode, and after a
    failed reconnect. *)
Theorem revert_empties_ssid_and_pass_only env d :
  prefsBeginOk env (beginCalls d) = true ->
  (exists d',
     clearConfigurationInNVS env d = Running tt d' /\
     currentDeviceMode d' = MODE_UNCONFIGURED /\
     holds_nothing (preferences d') /\
     wifiSSID d' = "" /\ wifiPass d' = "" /\
     userName d' = userName d /\ serverAddress d' = serverAddress d) /\
  match revertToPortal env d with
  | Running _ d' =>
      in_portal d' /\ holds_nothing (preferences d') /\
      wifiSSID d' = "" /\ wifiPass d' = "" /\
      userName d' = userName d /\ serverAddress d' = serverAddress d
  | Restarted d' =>
      holds_nothing (preferences d') /\
      wifiSSID d' = "" /\ wifiPass d' = "" /\
      userName d' = userName d /\ serverAddress d' = serverAddress d
  end /\
  (currentDeviceMode d = MODE_CONFIGURED ->
   match buttonTask_pressed env d with
   | Running _ d' =>
       in_portal d' /\ holds_nothing (preferences d') /\
       wifiSSID d' = "" /\ wifiPass d' = "" /\
       userName d' = userName d /\ serverAddress d' = serverAddress d
   | Restarted d' => holds_nothing (preferences d')
   end) /\
  (currentDeviceMode d = MODE_CONFIGURED ->
   wifiConnected env (statusReads d) = false ->
   link_after (wifiConnected env) (S (statusReads d)) 10000 = false ->
   match loop None env d with
   | Running _ d' =>
       in_portal d' /\ holds_nothing (preferences d') /\
       wifiSSID d' = "" /\ wifiPass d' = "" /\
       userName d' = userName d /\ serverAddress d' = serverAddress d
   | Restarted d' => holds_nothing (preferences d')
   end).
Proof.
  intros Hopen. split; [| split; [| split]].
  - destruct (clearConfigurationInNVS_opens env d Hopen) as [tr Hrun].
    rewrite Hrun. eexists. split; [reflexivity |].
    destruct d. exec. repeat split; apply cleared_flash_holds_nothing.
  - now apply revertToPortal_opens.
  - intros Hmode. unfold buttonTask_pressed.
    destruct d. exec in Hmode. exec in Hopen. subst. exec.
    rewrite Z.eqb_refl. exec.
    match goal with
    | |- context [revertToPortal env ?d1] =>
        pose proof (revertToPortal_opens env d1 Hopen) as Hrev;
        destruct (revertToPortal env d1) as [[] d' | d']
    end; exec in Hrev; tauto.
  - now apply reconnect_fails.
Qed.

(** C9, as the code has it.  If saveConfigurationToNVS opens the
    store while [wifiSSID] is non-empty, a later
    loadConfigurationFromNVS that opens the store returns true and
    restores exactly the saved network name, passphrase, user name and
    server address, with the mode Configured; after a
    clearConfigurationInNVS that opened the store, a later
    loadConfigurationFromNVS returns false; and it returns false
    whenever the stored mode is not Configured, the stored network name
    is empty or missing, or the store does not open. *)
Theorem flash_round_trip :
  (forall env d, prefsBeginOk env (beginCalls d) = true -> wifiSSID d <> "" ->
     exists d1,
       saveConfigurationToNVS env d = Running tt d1 /\
       currentDeviceMode d1 = MODE_CONFIGURED /\
       forall env' d',
         preferences d' = preferences d1 ->
         prefsBeginOk env' (beginCalls d') = true ->
         exists d2,
           loadConfigurationFromNVS env' d' = Running true d2 /\
           credentials d2 = credentials d /\
           currentDeviceMode d2 = MODE_CONFIGURED) /\
  (forall env d, prefsBeginOk env (beginCalls d) = true ->
     exists d1,
       clearConfigurationInNVS env d = Running tt d1 /\
       forall env' d',
         preferences d' = preferences d1 ->
         exists d2, loadConfigurationFromNVS env' d' = Running false d2) /\
  (forall env d,
     lookup_uint NVS_KEY_MODE MODE_UNCONFIGURED (preferences d) <> MODE_CONFIGURED \/
     lookup_string NVS_KEY_SSID "" (preferences d) = "" \/
     prefsBeginOk env (beginCalls d) = false ->
     exists d2, loadConfigurationFromNVS env d = Running false d2).
Proof.
  split; [| split].
  - intros env d Hopen Hne.
    destruct (saveConfigurationToNVS_opens env d Hopen) as [tr Hrun].
    rewrite Hrun. eexists. split; [reflexivity |].
    split; [destruct d; reflexivity |].
    intros env' d' Hsame Hopen'.
    destruct (load_of_config env' d' (wifiSSID d) (wifiPass d) (userName d)
                (serverAddress d) Hopen') as (d2 & Hload & Hcred & Hmode & _).
    + rewrite Hsame. destruct d. exec. apply saved_flash_holds.
    + exact Hne.
    + exists d2. repeat split; assumption.
  - intros env d Hopen.
    destruct (clearConfigurationInNVS_opens env d Hopen) as [tr Hrun].
    rewrite Hrun. eexists. split; [reflexivity |].
    intros env' d' Hsame. apply load_refuses. left.
    rewrite Hsame. destruct d. exec.
    destruct (cleared_flash_holds_nothing preferences0) as [Hm _].
    rewrite (lookup_uint_of _ _ _ _ Hm). discriminate.
  - exact load_refuses.
Qed.

(* ===================================================================== *)
(** ** The state machine on concrete runs *)

Example portal_device_in_portal :
  currentDeviceMode portal_device = MODE_UNCONFIGURED /\
  wifiMode portal_device = WIFI_AP /\ serverRunning portal_device = true /\
  beginCalls portal_device = 2%nat /\ statusReads portal_device = 0%nat.
Proof. vm_compute. repeat split. Qed.

Example station_device_in_station :
  currentDeviceMode station_device = MODE_CONFIGURED /\
  wifiMode station_device = WIFI_STA /\
  credentials station_device = ("home", "secret", "alice", "10.0.0.7:5000") /\
  beginCalls station_device = 1%nat /\ statusReads station_device = 3%nat.
Proof. vm_compute. repeat split. Qed.

(** A form is submitted to the portal and the link comes up, but the
    flash store does not open for the save: the device is Configured
    and in the station role, and the flash holds no credentials. *)
Lemma configured_but_nothing_persisted :
  currentDeviceMode portal_device = MODE_UNCONFIGURED /\
  link_after (fun _ => true) (statusReads portal_device) 15000 = true /\
  match loop (Some (complete_form "home" "secret" "alice" "10.0.0.7:5000"))
          (surroundings (fun _ => true) (fun k => (k <? 2)%nat))
          portal_device with
  | Running _ d' =>
      currentDeviceMode d' = MODE_CONFIGURED /\ wifiMode d' = WIFI_STA /\
      preferences d' !! NVS_KEY_SSID = None /\
      preferences d' !! NVS_KEY_PASS = None /\
      preferences d' !! NVS_KEY_MODE = Some (NvsUInt MODE_UNCONFIGURED)
  | Restarted _ => False
  end.
Proof. vm_compute. repeat split. Qed.

Lemma connectivity_transitions_witness :
  (exists d',
     loop (Some (complete_form "home" "secret" "alice" "10.0.0.7:5000"))
       (surroundings (fun _ => true) (fun _ => true)) portal_device
       = Running tt d' /\
     in_station d' /\
     holds_config (preferences d') "home" "secret" "alice" "10.0.0.7:5000" /\
     credentials d' = ("home", "secret", "alice", "10.0.0.7:5000")) /\
  (exists d',
     loop None (surroundings (fun k => negb (k =? 3)%nat) (fun _ => true))
       station_device = Running tt d' /\
     currentDeviceMode d' = MODE_CONFIGURED /\
     wifiMode d' = wifiMode station_device /\
     credentials d' = credentials station_device /\
     preferences d' = preferences station_device).
Proof.
  split.
  - destruct (connectivity_transitions
                (surroundings (fun _ => true) (fun _ => true)) portal_device)
      as (_ & Hportal & _); [vm_compute; reflexivity |].
    destruct (Hportal "home" "secret" "alice" "10.0.0.7:5000") as [Hup _];
      [vm_compute; reflexivity |].
    apply Hup. vm_compute. reflexivity.
  - destruct (connectivity_transitions
                (surroundings (fun k => negb (k =? 3)%nat) (fun _ => true))
                station_device)
      as (_ & _ & Hstation); [vm_compute; reflexivity |].
    destruct Hstation as [_ Hup]; [vm_compute; reflexivity .. |].
    apply Hup. vm_compute. reflexivity.
Defined.

(** The link of the station device is lost and the reconnect fails,
    with the flash store opening: the device is back in its portal, the
    network name and the passphrase are empty, and the user name and
    the server address are still in memory. *)
Lemma user_and_server_survive_revert :
  currentDeviceMode station_device = MODE_CONFIGURED /\
  match loop None (surroundings (fun k => (k <? 3)%nat) (fun _ => true))
          station_device with
  | Running _ d' =>
      currentDeviceMode d' = MODE_UNCONFIGURED /\ wifiMode d' = WIFI_AP /\
      wifiSSID d' = "" /\ wifiPass d' = "" /\
      userName d' = "alice" /\ serverAddress d' = "10.0.0.7:5000"
  | Restarted _ => False
  end.
Proof. vm_compute. repeat split. Qed.

Lemma revert_empties_ssid_and_pass_only_witness :
  match loop None (surroundings (fun k => (k <? 3)%nat) (fun _ => true))
          station_device with
  | Running _ d' =>
      in_portal d' /\ holds_nothing (preferences d') /\
      wifiSSID d' = "" /\ wifiPass d' = "" /\
      userName d' = userName station_device /\
      serverAddress d' = serverAddress station_device
  | Restarted d' => holds_nothing (preferences d')
  end.
Proof.
  destruct (revert_empties_ssid_and_pass_only
              (surroundings (fun k => (k <? 3)%nat) (fun _ => true))
              station_device) as (_ & _ & _ & Hlost);
    [vm_compute; reflexivity |].
  apply Hlost; vm_compute; reflexivity.
Defined.

(** A stored configuration survives a clearConfigurationInNVS for
    which the flash store does not open, and the load that follows, for
    which it opens, returns true; and after a save that opened the
    store, a load for which it does not open returns false. *)
Lemma load_true_after_clear_load_false_after_save :
  match clearConfigurationInNVS
          (surroundings (fun _ => true) (fun k => negb (k =? 1)%nat))
          station_device with
  | Running _ d1 =>
      match loadConfigurationFromNVS
              (surroundings (fun _ => true) (fun k => negb (k =? 1)%nat)) d1 with
      | Running b d2 => b = true /\ wifiSSID d2 = "home"
      | Restarted _ => False
      end
  | Restarted _ => False
  end /\
  match saveConfigurationToNVS
          (surroundings (fun _ => true) (fun k => (k =? 1)%nat))
          station_device with
  | Running _ d1 =>
      wifiSSID d1 = "home" /\
      preferences d1 !! NVS_KEY_SSID = Some (NvsString "home") /\
      match loadConfigurationFromNVS
              (surroundings (fun _ => true) (fun k => (k =? 1)%nat)) d1 with
      | Running b _ => b = false
      | Restarted _ => False
      end
  | Restarted _ => False
  end.
Proof. vm_compute. repeat split. Qed.

Lemma flash_round_trip_witness :
  (exists d1,
     saveConfigurationToNVS (surroundings (fun _ => true) (fun _ => true))
       station_device = Running tt d1 /\
     currentDeviceMode d1 = MODE_CONFIGURED /\
     forall env' d',
       preferences d' = preferences d1 ->
       prefsBeginOk env' (beginCalls d') = true ->
       exists d2,
         loadConfigurationFromNVS env' d' = Running true d2 /\
         credentials d2 = credentials station_device /\
         currentDeviceMode d2 = MODE_CONFIGURED) /\
  (exists d2,
     loadConfigurationFromNVS (surroundings (fun _ => true) (fun _ => true))
       portal_device = Running false d2).
Proof.
  destruct flash_round_trip as (Hsave & _ & Hload).
  split.
  - apply Hsave; [vm_compute; reflexivity | vm_compute; discriminate].
  - apply Hload. left. vm_compute. discriminate.
Defined.

(* ===================================================================== *)
(** ** The two tasks under the mutex *)

Section TasksFacts.

Context {F : Type}.
Variable f0 : F.
Variable fadd : F -> F -> F.
Variable fdiv : F -> F -> F.
Variable of_int : Z -> F.

Local Abbreviation run := (run_wind f0 fadd fdiv of_int).
Local Abbreviation drain := (drainAverage f0 fdiv of_int).
Local Abbreviation stepF := (step f0 fadd fdiv of_int).
Local Abbreviation inv := (invariant f0 fadd fdiv of_int).

Lemma run_wind_snoc_record h : forall x w,
  run (h ++ [OpRecord x]) w = (fst (run h w), record fadd x (snd (run h w))).
Proof.
  induction h as [| [y |] h IH]; intros x w; cbn [app run_wind fst snd].
  - reflexivity.
  - apply IH.
  - now rewrite IH.
Qed.

Lemma run_wind_snoc_drain h : forall w,
  run (h ++ [OpDrain]) w =
  (fst (run h w) ++ [fst (drain (snd (run h w)))],
   snd (drain (snd (run h w)))).
Proof.
  induction h as [| [y |] h IH]; intros w; cbn [app run_wind fst snd].
  - reflexivity.
  - apply IH.
  - now rewrite IH.
Qed.

Lemma recorded_snoc_record (h : list (WindOp (F := F))) x :
  recorded (h ++ [OpRecord x]) = recorded h ++ [x].
Proof.
  induction h as [| [y |] h IH]; cbn [app recorded]; [reflexivity | | exact IH].
  now rewrite IH.
Qed.

Lemma recorded_snoc_drain (h : list (WindOp (F := F))) :
  recorded (h ++ [OpDrain]) = recorded h.
Proof.
  induction h as [| [y |] h IH]; cbn [app recorded]; [reflexivity | | exact IH].
  now rewrite IH.
Qed.

Lemma drains_snoc_record (h : list (WindOp (F := F))) x :
  drains (h ++ [OpRecord x]) = drains h.
Proof.
  induction h as [| [y |] h IH]; cbn [app drains]; [reflexivity | exact IH |].
  now rewrite IH.
Qed.

Lemma drains_snoc_drain (h : list (WindOp (F := F))) :
  drains (h ++ [OpDrain]) = S (drains h).
Proof.
  induction h as [| [y |] h IH]; cbn [app drains]; [reflexivity | exact IH |].
  now rewrite IH.
Qed.

Lemma invariant_init : inv (sys_init f0).
Proof. constructor; cbn; try reflexivity. intros [x Hx]. discriminate Hx. Qed.

(** Every step taken under [portMAX_DELAY] preserves the invariant. *)
Lemma invariant_step s s' :
  inv s -> stepF portMAX_DELAY s s' -> inv s'.
Proof.
  intros [Hh Hx Hs Ht Hsm Hd Hw Ha] Hstep.
  inversion Hstep; subst; cbn in *; try discriminate;
    constructor; cbn;
    rewrite ?run_wind_snoc_record, ?run_wind_snoc_drain,
      ?recorded_snoc_record, ?recorded_snoc_drain,
      ?drains_snoc_record, ?drains_snoc_drain; cbn [fst snd];
    try assumption; try reflexivity;
    try (intros [y Hy]; discriminate Hy);
    try (destruct tp; cbn in *; congruence);
    try (destruct sp; cbn in *; congruence);
    try (rewrite Hsm; rewrite <- ?app_assoc; cbn; now rewrite ?app_nil_r);
    try (rewrite Hd; lia);
    try (now rewrite Hw);
    try (rewrite <- Ha, <- ?app_assoc; cbn; now rewrite ?app_nil_r);
    try (intros [y ->]; cbn in Hh; discriminate Hh);
    try (destruct tp; try reflexivity; exfalso; eapply Hx; eauto; fail);
    try (destruct sp; try reflexivity; exfalso; eapply Hx; eauto; fail).
  rewrite app_nil_r in Ha. subst. reflexivity.
Qed.

Lemma invariant_reachable s : reachable f0 fadd fdiv of_int portMAX_DELAY s -> inv s.
Proof.
  unfold reachable. revert s. apply rtc_ind_r.
  - apply invariant_init.
  - intros y z _ Hstep Hy. eapply invariant_step; eassumption.
Qed.

(** Under the invariant some task can always take a step: a task that
    waits for the mutex waits for a holder that is inside its critical
    section and leaves it with its next step. *)
Lemma invariant_progress s : inv s -> exists s', stepF portMAX_DELAY s s'.
Proof.
  intros [Hh _ _ _ _ _ _ _].
  destruct s as [m sp tp w h sm g av]. cbn in *.
  destruct sp as [| x | x | x |].
  - eexists. apply (step_read f0 fadd fdiv of_int portMAX_DELAY f0).
  - destruct tp; cbn in Hh; subst m;
      try (eexists; apply step_sampler_takes).
    eexists. apply step_telemetry_drains.
  - eexists. apply step_sampler_records.
  - eexists. apply step_sampler_logs.
  - eexists. apply step_sampler_wakes.
Qed.


(** With a finite block time the branch is reachable: the sampler
    arrives at the mutex while the telemetry task holds it, and the
    block time expires. *)
Lemma finite_block_time_can_fail n x :
  exists s,
    reachable f0 fadd fdiv of_int (ticks n) s /\
    sampler_failed (samplerPc s) = true /\
    sampled s = [x] /\ recorded (history s) = [].
Proof.
  eexists. split.
  - unfold reachable, sys_init.
    eapply rtc_l; [apply step_gate_open |].
    eapply rtc_l; [apply step_telemetry_takes |].
    eapply rtc_l; [apply (step_read f0 fadd fdiv of_int (ticks n) x) |].
    eapply rtc_l; [eapply step_sampler_times_out; reflexivity |].
    apply rtc_refl.
  - repeat split.
Qed.

End TasksFacts.

Lemma sys_after_record_reachable :
  reachable 0%Q Qplus Qdiv inject_Z portMAX_DELAY sys_after_record.
Proof.
  unfold reachable, sys_init, sys_after_record.
  eapply rtc_l; [apply (step_read 0%Q Qplus Qdiv inject_Z portMAX_DELAY 2%Q) |].
  eapply rtc_l; [apply step_sampler_takes |].
  eapply rtc_l; [apply step_gate_open |].
  eapply rtc_l; [apply step_sampler_records |].
  eapply rtc_l; [apply step_telemetry_takes |].
  apply rtc_refl.
Qed.


(* ===================================================================== *)
(** ** The wind sample *)

(** The wind mapping on every analog reading, before the clamp. *)
Lemma wind_map_exact raw :
  analog_reading raw ->
  Arduino.map raw 0 1023 0 3240 = Z.quot (raw * 3240) 1023.
Proof.
  unfold analog_reading. intros Hr.
  rewrite map_exact
    by (unfold INT_MIN, INT_MAX; Z.quot_rem_to_equations; lia).
  rewrite Z.sub_0_r, Z.add_0_r. reflexivity.
Qed.

(** X1.  The wind sample in hundredths of a metre per second: it lies
    in [0,3240] for every reading; the readings 0 and 1023 give 0 and
    3240; from 0 to 1023 it is the truncated linear interpolation
    [raw * 3240 / 1023]; every analog reading from 1023 on (the
    converter delivers up to 4095 and more) is reported as 3240; and
    the sample never decreases when the reading grows. *)
Theorem wind_speed_mapping :
  (forall raw, 0 <= windSpeedCentimetres raw <= 3240) /\
  windSpeedCentimetres 0 = 0 /\
  windSpeedCentimetres 1023 = 3240 /\
  (forall raw, 0 <= raw <= 1023 ->
     windSpeedCentimetres raw = raw * 3240 / 1023) /\
  (forall raw, analog_reading raw -> 1023 <= raw ->
     windSpeedCentimetres raw = 3240) /\
  (forall r1 r2, analog_reading r1 -> analog_reading r2 -> r1 <= r2 ->
     windSpeedCentimetres r1 <= windSpeedCentimetres r2).
Proof.
  split; [| split; [| split; [| split; [| split]]]].
  - intros raw. unfold windSpeedCentimetres. apply constrain_range. lia.
  - reflexivity.
  - reflexivity.
  - intros raw Hr. unfold windSpeedCentimetres.
    rewrite wind_map_exact by (unfold analog_reading; lia).
    unfold Arduino.constrain.
    destruct (Z.ltb_spec (Z.quot (raw * 3240) 1023) 0);
      rewrite ?Z.gtb_ltb;
      try destruct (Z.ltb_spec 3240 (Z.quot (raw * 3240) 1023));
      Z.quot_rem_to_equations; Z.div_mod_to_equations; lia.
  - intros raw Hr Hhigh. unfold windSpeedCentimetres.
    rewrite wind_map_exact by assumption.
    unfold analog_reading in Hr. unfold Arduino.constrain.
    destruct (Z.ltb_spec (Z.quot (raw * 3240) 1023) 0);
      rewrite ?Z.gtb_ltb;
      try destruct (Z.ltb_spec 3240 (Z.quot (raw * 3240) 1023));
      Z.quot_rem_to_equations; lia.
  - intros r1 r2 H1 H2 Hle. unfold windSpeedCentimetres.
    rewrite !wind_map_exact by assumption.
    destruct (constrain_mono (Z.quot (r1 * 3240) 1023)
                (Z.quot (r2 * 3240) 1023) 0 3240) as [H | H];
      [| exact H | lia].
    unfold analog_reading in *. Z.quot_rem_to_equations. nia.
Qed.

Lemma wind_speed_mapping_witness :
  windSpeedCentimetres 512 = 1621 /\
  windSpeedCentimetres 4095 = 3240 /\
  windSpeedCentimetres 512 <= windSpeedCentimetres 4095.
Proof.
  destruct wind_speed_mapping as (_ & _ & _ & Hmid & Hsat & Hmono).
  split; [| split].
  - rewrite (Hmid 512) by lia. reflexivity.
  - apply Hsat; [unfold analog_reading |]; lia.
  - apply Hmono; unfold analog_reading; lia.
Defined.

(* ===================================================================== *)
(** ** The flash store, key by key *)

Lemma not_config_key k :
  k ∉ config_keys ->
  k <> NVS_KEY_SSID /\ k <> NVS_KEY_PASS /\ k <> NVS_KEY_USER /\
  k <> NVS_KEY_SERVER /\ k <> NVS_KEY_MODE.
Proof.
  unfold config_keys. intros Hk.
  repeat split; intros ->; apply Hk; set_solver.
Qed.

Lemma saved_flash_frame ssid pass user server m k :
  k ∉ config_keys -> saved_flash ssid pass user server m !! k = m !! k.
Proof.
  intros Hk. apply not_config_key in Hk as (? & ? & ? & ? & ?).
  unfold saved_flash. now rewrite !lookup_insert_ne by congruence.
Qed.

Lemma cleared_flash_frame m k :
  k ∉ config_keys -> cleared_flash m !! k = m !! k.
Proof.
  intros Hk. apply not_config_key in Hk as (? & ? & ? & ? & ?).
  unfold cleared_flash.
  rewrite !lookup_delete_ne by congruence.
  now rewrite lookup_insert_ne by congruence.
Qed.

(** X2.  initNVS returns whether the store opened.  When it did not,
    the flash is as before.  When it did, the mode key is present
    afterwards, every entry that was present is unchanged (an existing
    mode is never overwritten), no other key appears, and the mode that
    a load reads is the same before and after.  Memory is not touched
    either way. *)
Theorem initNVS_ensures_mode_key env d :
  match initNVS env d with
  | Running ok d' =>
      ok = prefsBeginOk env (beginCalls d) /\
      (ok = false -> preferences d' = preferences d) /\
      (ok = true ->
         is_Some (preferences d' !! NVS_KEY_MODE) /\
         (forall k v, preferences d !! k = Some v ->
                      preferences d' !! k = Some v) /\
         (forall k, k <> NVS_KEY_MODE ->
                    preferences d' !! k = preferences d !! k)) /\
      stored_mode (preferences d') = stored_mode (preferences d) /\
      credentials d' = credentials d /\
      currentDeviceMode d' = currentDeviceMode d
  | Restarted _ => False
  end.
Proof.
  destruct d. unfold initNVS, credentials, stored_mode, lookup_uint. exec.
  destruct (prefsBeginOk env beginCalls0); exec.
  - destruct (preferences0 !! NVS_KEY_MODE) as [v |] eqn:Hkey; exec.
    + rewrite ?Hkey. repeat split; try discriminate; eauto.
    + rewrite ?lookup_insert_eq, ?Hkey.
      repeat split; try discriminate; eauto.
      * intros k v Hk. rewrite lookup_insert_ne; [exact Hk | congruence].
      * intros k Hk. now rewrite lookup_insert_ne by congruence.
  - repeat split; discriminate.
Qed.

(** X3.  saveConfigurationToNVS and clearConfigurationInNVS write to
    the five configuration keys only: every other entry of the flash
    namespace is as before.  When the store does not open they change
    nothing at all in flash, and neither the credentials nor the mode in
    memory. *)
Theorem flash_writes_stay_within_config_keys env d :
  match saveConfigurationToNVS env d with
  | Running _ d' =>
      (forall k, k ∉ config_keys -> preferences d' !! k = preferences d !! k) /\
      credentials d' = credentials d /\
      (prefsBeginOk env (beginCalls d) = false ->
         preferences d' = preferences d /\
         currentDeviceMode d' = currentDeviceMode d)
  | Restarted _ => False
  end /\
  match clearConfigurationInNVS env d with
  | Running _ d' =>
      (forall k, k ∉ config_keys -> preferences d' !! k = preferences d !! k) /\
      userName d' = userName d /\ serverAddress d' = serverAddress d /\
      (prefsBeginOk env (beginCalls d) = false ->
         preferences d' = preferences d /\
         currentDeviceMode d' = currentDeviceMode d /\
         credentials d' = credentials d)
  | Restarted _ => False
  end.
Proof.
  split.
  - destruct (prefsBeginOk env (beginCalls d)) eqn:Hopen.
    + destruct (saveConfigurationToNVS_opens env d Hopen) as [tr ->].
      destruct d. unfold credentials. exec.
      split; [| split; [reflexivity | discriminate]].
      intros k Hk. now apply saved_flash_frame.
    + destruct (saveConfigurationToNVS_fails env d Hopen) as [tr ->].
      destruct d. unfold credentials. exec. repeat split.
  - destruct (prefsBeginOk env (beginCalls d)) eqn:Hopen.
    + destruct (clearConfigurationInNVS_opens env d Hopen) as [tr ->].
      destruct d. exec.
      split; [| split; [reflexivity | split; [reflexivity | discriminate]]].
      intros k Hk. now apply cleared_flash_frame.
    + destruct (clearConfigurationInNVS_fails env d Hopen) as [tr ->].
      destruct d. unfold credentials. exec. repeat split.
Qed.

(** X4.  loadConfigurationFromNVS never writes to the flash.  It
    returns true exactly when the store opens, the stored mode is
    Configured and the stored network name is not empty.  Whenever the
    store opens, the mode in memory becomes the stored mode, also when
    the load returns false for want of a network name; with the stored
    mode Configured the four credentials are read, a missing user name
    as "defaultUser" and a missing server address as
    "192.168.50.23:5000"; with any other stored mode, or with the store
    not opening, the credentials in memory stay. *)
Theorem load_reads_and_never_writes env d :
  match loadConfigurationFromNVS env d with
  | Running found d' =>
      preferences d' = preferences d /\
      found =
        prefsBeginOk env (beginCalls d) &&
        (stored_mode (preferences d) =? MODE_CONFIGURED) &&
        (0 <? String.length (lookup_string NVS_KEY_SSID "" (preferences d)))%nat /\
      (prefsBeginOk env (beginCalls d) = true ->
         currentDeviceMode d' = stored_mode (preferences d) /\
         (stored_mode (preferences d) = MODE_CONFIGURED ->
            credentials d' = stored_credentials (preferences d) /\
            (preferences d !! NVS_KEY_USER = None -> userName d' = "defaultUser") /\
            (preferences d !! NVS_KEY_SERVER = None ->
               serverAddress d' = "192.168.50.23:5000")) /\
         (stored_mode (preferences d) <> MODE_CONFIGURED ->
            credentials d' = credentials d)) /\
      (prefsBeginOk env (beginCalls d) = false ->
         currentDeviceMode d' = currentDeviceMode d /\
         credentials d' = credentials d)
  | Restarted _ => False
  end.
Proof.
  destruct (prefsBeginOk env (beginCalls d)) eqn:Hopen.
  - destruct (loadConfigurationFromNVS_opens env d Hopen) as [tr Hrun].
    cbv zeta in Hrun. rewrite Hrun. clear Hrun.
    unfold stored_mode, stored_credentials, credentials.
    destruct (Z.eqb_spec (lookup_uint NVS_KEY_MODE MODE_UNCONFIGURED (preferences d))
                MODE_CONFIGURED) as [Hmode | Hmode].
    + destruct d. exec. exec in Hmode.
      split; [reflexivity |]. split; [reflexivity |].
      split; [| discriminate]. intros _.
      split; [reflexivity |]. split; [| contradiction].
      intros _. split; [reflexivity |].
      split; intros Hnone; now apply lookup_string_none.
    + destruct d. exec. exec in Hmode.
      split; [reflexivity |]. split; [reflexivity |].
      split; [| discriminate]. intros _.
      split; [reflexivity |]. split; [contradiction | reflexivity].
  - destruct (loadConfigurationFromNVS_fails env d Hopen) as [tr ->].
    destruct d. unfold credentials. exec.
    split; [reflexivity |]. split; [reflexivity |].
    split; [discriminate |]. intros _. split; reflexivity.
Qed.

(* ===================================================================== *)
(** ** The portal and the link check, where nothing is to be done *)

(** X5.  A form that lacks one of its four fields is answered with
    400 "Missing required form data." and nothing else happens: the
    credentials in memory, the flash, the mode, the radio and the portal
    are as before, no connection is attempted, and the pass of [loop]
    that received the form ends after its 20 ms. *)
Theorem incomplete_form_is_refused env d form :
  incomplete form ->
  handleConnect form env d =
    Running tt
      (set_trace
         (trace d ++ [EvSerial "Handling POST request for /connect";
                      EvServerSend 400 "Missing required form data."]) d) /\
  (currentDeviceMode d = MODE_UNCONFIGURED ->
   loop (Some form) env d =
     Running tt
       (set_clock (clock d + 20)
          (set_trace
             (trace d ++ [EvSerial "Handling POST request for /connect";
                          EvServerSend 400 "Missing required form data."]) d))).
Proof.
  intros Hform.
  assert (Hrun : handleConnect form env d =
    Running tt
      (set_trace
         (trace d ++ [EvSerial "Handling POST request for /connect";
                      EvServerSend 400 "Missing required form data."]) d)).
  { destruct form as [[s |] [p |] [u |] [a |]];
      unfold incomplete in Hform; cbn in Hform;
      try (exfalso; intuition discriminate);
      destruct d; unfold handleConnect, arg_ssid, arg_pass, arg_username,
        arg_serveraddr; exec; now rewrite <- app_assoc. }
  split; [exact Hrun |].
  intros Hmode. unfold loop.
  unfold mbind at 1. unfold M_bind at 1.
  unfold mbind at 1. unfold M_bind at 1.
  unfold gets at 1. rewrite Hmode, Z.eqb_refl.
  rewrite Hrun. destruct d. exec. reflexivity.
Qed.

Lemma incomplete_form_is_refused_witness :
  handleConnect (mkForm (Some "home") None (Some "alice") (Some "10.0.0.7:5000"))
    (surroundings (fun _ => true) (fun _ => true)) portal_device =
  Running tt
    (set_trace
       (trace portal_device ++
        [EvSerial "Handling POST request for /connect";
         EvServerSend 400 "Missing required form data."]) portal_device) /\
  incomplete (mkForm (Some "home") None (Some "alice") (Some "10.0.0.7:5000")).
Proof.
  split.
  - apply (incomplete_form_is_refused
             (surroundings (fun _ => true) (fun _ => true)) portal_device).
    right. left. reflexivity.
  - right. left. reflexivity.
Defined.

(** X6.  checkAndReconnectWiFi, where no loss of the link is seen.
    In any mode but Configured it returns false at once: the radio's
    status is not read and nothing changes.  In Configured mode with
    the link up it reads the status a second time and returns that
    answer, true or false, without a reconnect and without a revert:
    only the count of status reads changes. *)
Theorem link_check_without_loss env d :
  (currentDeviceMode d <> MODE_CONFIGURED ->
   checkAndReconnectWiFi env d = Running false d) /\
  (currentDeviceMode d = MODE_CONFIGURED ->
   wifiConnected env (statusReads d) = true ->
   checkAndReconnectWiFi env d =
     Running (wifiConnected env (S (statusReads d)))
       (set_statusReads (S (S (statusReads d))) d)).
Proof.
  split.
  - intros Hmode. destruct d. exec in Hmode.
    apply Z.eqb_neq in Hmode.
    unfold checkAndReconnectWiFi. exec.
    rewrite !Hmode. exec. rewrite ?Hmode. exec. reflexivity.
  - intros Hmode Hup. destruct d. exec in Hmode. exec in Hup. subst.
    unfold checkAndReconnectWiFi. exec.
    rewrite !Z.eqb_refl. exec. rewrite Hup. exec. rewrite ?Z.eqb_refl. exec.
    destruct (wifiConnected env (S statusReads0)); reflexivity.
Qed.

Lemma link_check_without_loss_witness :
  checkAndReconnectWiFi (surroundings (fun _ => true) (fun _ => true))
    portal_device = Running false portal_device /\
  checkAndReconnectWiFi (surroundings (fun _ => true) (fun _ => true))
    station_device =
  Running true (set_statusReads (S (S (statusReads station_device))) station_device).
Proof.
  destruct (link_check_without_loss
              (surroundings (fun _ => true) (fun _ => true)) portal_device)
    as [Hportal _].
  destruct (link_check_without_loss
              (surroundings (fun _ => true) (fun _ => true)) station_device)
    as [_ Hstation].
  split.
  - apply Hportal. vm_compute. discriminate.
  - apply Hstation; vm_compute; reflexivity.
Defined.

(* ===================================================================== *)
(** ** What decides a connection attempt *)

Lemma loop_reads_first_up up n0 k :
  loop_reads up n0 k =
  match first_up up n0 (S k) with
  | Some j => S j
  | None => S k
  end.
Proof.
  revert n0. induction k as [| k IH]; intros n0.
  - cbn. destruct (up n0); reflexivity.
  - cbn [loop_reads]. change (first_up up n0 (S (S k)))
      with (if up n0 then Some O
            else match first_up up (S n0) (S k) with
                 | Some j => Some (S j)
                 | None => None
                 end).
    destruct (up n0); [reflexivity |].
    rewrite IH. destruct (first_up up (S n0) (S k)); reflexivity.
Qed.

Lemma first_up_found up : forall k n0 j,
  first_up up n0 k = Some j ->
  (j < k)%nat /\ up (n0 + j)%nat = true /\
  forall i, (i < j)%nat -> up (n0 + i)%nat = false.
Proof.
  induction k as [| k IH]; intros n0 j; cbn [first_up]; [discriminate |].
  destruct (up n0) eqn:Hup.
  - intros [= <-]. rewrite Nat.add_0_r. repeat split; [lia | exact Hup | lia].
  - destruct (first_up up (S n0) k) as [j' |] eqn:Hrest; [| discriminate].
    intros [= <-]. destruct (IH _ _ Hrest) as (Hlt & Hj & Hbefore).
    split; [lia |]. split.
    + now replace (n0 + S j')%nat with (S n0 + j')%nat by lia.
    + intros [| i] Hi; [now rewrite Nat.add_0_r |].
      replace (n0 + S i)%nat with (S n0 + i)%nat by lia. apply Hbefore. lia.
Qed.

Lemma first_up_none up : forall k n0,
  first_up up n0 k = None ->
  forall i, (i < k)%nat -> up (n0 + i)%nat = false.
Proof.
  induction k as [| k IH]; intros n0; cbn [first_up]; [lia |].
  destruct (up n0) eqn:Hup; [discriminate |].
  destruct (first_up up (S n0) k) eqn:Hrest; [discriminate |].
  intros _ [| i] Hi; [now rewrite Nat.add_0_r |].
  replace (n0 + S i)%nat with (S n0 + i)%nat by lia. apply (IH _ Hrest). lia.
Qed.

(** X7.  connectToWiFi polls the radio's status up to 61 times, 250 ms
    apart, stops at the first poll that finds the link up, and then
    reads the status once more: that last read alone is its result.
    If the [j]-th poll is the first to find the link up, the result is
    the answer to read [j + 1]; if none of the 61 polls finds it up,
    the result is the answer to the read after them.  With the result
    true the device is Configured in the station role, with the result
    false it is Unconfigured with the radio off; the number of status
    reads made is one more than the polls. *)
Theorem connect_result_is_the_read_after_the_polls env d :
  let up := wifiConnected env in
  let n0 := statusReads d in
  let polled := first_up up n0 61 in
  let made := match polled with Some j => S j | None => 61%nat end in
  (match polled with
   | Some j =>
       (j <= 60)%nat /\ up (n0 + j)%nat = true /\
       forall i, (i < j)%nat -> up (n0 + i)%nat = false
   | None => forall i, (i <= 60)%nat -> up (n0 + i)%nat = false
   end) /\
  exists d1,
    connectToWiFi env d = Running (up (n0 + made)%nat) d1 /\
    statusReads d1 = S (n0 + made) /\
    currentDeviceMode d1 =
      (if up (n0 + made)%nat then MODE_CONFIGURED else MODE_UNCONFIGURED) /\
    wifiMode d1 = (if up (n0 + made)%nat then WIFI_STA else WIFI_MODE_NULL).
Proof.
  cbv zeta. split.
  - destruct (first_up (wifiConnected env) (statusReads d) 61) as [j |] eqn:Hfirst.
    + destruct (first_up_found _ _ _ _ Hfirst) as (Hlt & Hj & Hbefore).
      repeat split; [lia | exact Hj | exact Hbefore].
    + intros i Hi. apply (first_up_none _ _ _ Hfirst). lia.
  - assert (Hmade :
      loop_reads (wifiConnected env) (statusReads d) (Z.to_nat (15000 / 250)) =
      match first_up (wifiConnected env) (statusReads d) 61 with
      | Some j => S j
      | None => 61%nat
      end).
    { rewrite loop_reads_first_up. reflexivity. }
    rewrite <- Hmade. clear Hmade.
    destruct d. unfold connectToWiFi. exec.
    run_loop c tr Hc.
    destruct (wifiConnected env _); exec;
      eexists; (split; [reflexivity |]); exec; repeat split.
Qed.

(* ===================================================================== *)
(** ** The endpoints *)

Lemma append_cons a (s t : string) : String a s +:+ t = String a (s +:+ t).
Proof. reflexivity. Qed.

Lemma append_empty (s : string) : s +:+ "" = s.
Proof.
  induction s as [| a s IH]; [reflexivity |].
  now rewrite append_cons, IH.
Qed.

Lemma replace_keeps_char c f r a t :
  a <> c ->
  String_replace_from 0 (String c f) r (String a t) =
  String a (String_replace_from 0 (String c f) r t).
Proof.
  intros Hne. cbn [String_replace_from String.prefix].
  destruct (Ascii.ascii_dec c a) as [-> | _]; [contradiction | reflexivity].
Qed.

Lemma replace_keeps_plain c f r s t :
  free_of c s = true ->
  String_replace_from 0 (String c f) r (s +:+ t) =
  s +:+ String_replace_from 0 (String c f) r t.
Proof.
  induction s as [| a s IH]; [reflexivity |].
  cbn [free_of]. intros Hfree.
  apply andb_prop in Hfree as [Ha Hs].
  rewrite !append_cons, replace_keeps_char.
  - now rewrite IH.
  - intros ->. now rewrite Ascii.eqb_refl in Ha.
Qed.

Lemma dataEndpoint_plain server mac :
  free_of "<"%char server = true ->
  dataEndpoint server mac = "http://" +:+ server +:+ "/" +:+ mac +:+ "/data".
Proof.
  intros Hfree. unfold dataEndpoint, String_replace, apiDataPath.
  rewrite (replace_keeps_plain "<"%char _ _ "http://") by reflexivity.
  rewrite (replace_keeps_plain "<"%char _ _ server) by exact Hfree.
  reflexivity.
Qed.

Lemma registrationEndpoint_plain server user mac :
  free_of "<"%char server = true -> free_of "<"%char user = true ->
  registrationEndpoint server user mac =
  "http://" +:+ server +:+ "/" +:+ user +:+ "/add_device/" +:+ mac.
Proof.
  intros Hserver Huser.
  unfold registrationEndpoint, String_replace, apiRegisterPath.
  rewrite (replace_keeps_plain "<"%char _ _ "http://") by reflexivity.
  rewrite (replace_keeps_plain "<"%char _ _ server) by exact Hserver.
  change (String_replace_from 0 "<username>" user
            "/<username>/add_device/<mac_address>")
    with ("/" +:+ user +:+ "/add_device/<mac_address>").
  rewrite (replace_keeps_plain "<"%char _ _ "http://") by reflexivity.
  rewrite (replace_keeps_plain "<"%char _ _ server) by exact Hserver.
  rewrite (replace_keeps_plain "<"%char _ _ "/") by reflexivity.
  rewrite (replace_keeps_plain "<"%char _ _ user) by exact Huser.
  change (String_replace_from 0 "<mac_address>" mac "/add_device/<mac_address>")
    with ("/add_device/" +:+ mac +:+ "").
  now rewrite append_empty.
Qed.

(** X8.  sendMacAddress, with a server address and a user name free of
    the character [<]: when the link is down it returns at once, with
    nothing changed but the count of status reads; when the link is up
    it sends exactly one request, a GET to
    http://SERVER/USER/add_device/MAC.  Either way it leaves the
    credentials, the flash, the mode and the radio alone. *)
Theorem registration_request env d :
  free_of "<"%char (serverAddress d) = true ->
  free_of "<"%char (userName d) = true ->
  match sendMacAddress env d with
  | Running _ d' =>
      List.filter is_request (trace d') =
      List.filter is_request (trace d) ++
      (if wifiConnected env (statusReads d)
       then [EvHttpGet ("http://" +:+ serverAddress d +:+ "/" +:+ userName d
                        +:+ "/add_device/" +:+ macAddress env)]
       else []) /\
      (wifiConnected env (statusReads d) = false ->
       d' = set_statusReads (S (statusReads d)) d) /\
      credentials d' = credentials d /\ preferences d' = preferences d /\
      currentDeviceMode d' = currentDeviceMode d /\ wifiMode d' = wifiMode d
  | Restarted _ => False
  end.
Proof.
  destruct d. exec. intros Hserver Huser.
  unfold sendMacAddress, credentials. exec.
  destruct (wifiConnected env statusReads0); exec.
  - change (String_replace "<mac_address>" (macAddress env)
              (String_replace "<username>" userName0
                 ("http://" +:+ serverAddress0 +:+ apiRegisterPath)))
      with (registrationEndpoint serverAddress0 userName0 (macAddress env)).
    rewrite registrationEndpoint_plain by assumption.
    destruct (0 <? httpCode env httpCalls0); exec.
    + destruct ((httpCode env httpCalls0 =? 200) || (httpCode env httpCalls0 =? 201));
        exec; (split; [| repeat split; discriminate]);
        repeat rewrite List.filter_app; cbn [List.filter is_request];
        now rewrite ?app_nil_r.
    + (split; [| repeat split; discriminate]).
      repeat rewrite List.filter_app. cbn [List.filter is_request].
      now rewrite ?app_nil_r.
  - rewrite app_nil_r. repeat split.
Qed.

Lemma registration_request_witness :
  match sendMacAddress (surroundings (fun _ => true) (fun _ => true))
          station_device with
  | Running _ d' =>
      List.filter is_request (trace d') =
      List.filter is_request (trace station_device) ++
      [EvHttpGet "http://10.0.0.7:5000/alice/add_device/AA:BB:CC:DD:EE:FF"]
  | Restarted _ => False
  end.
Proof.
  pose proof (registration_request
                (surroundings (fun _ => true) (fun _ => true)) station_device
                eq_refl eq_refl) as H.
  destruct (sendMacAddress (surroundings (fun _ => true) (fun _ => true))
              station_device); [| exact H].
  exact (proj1 H).
Defined.

(* ===================================================================== *)
(** ** The telemetry cycle that passes the gate *)

Section TelemetryCycleFacts.

Variable fexp : float -> float.
Variable fround : float -> float.
Context {F : Type}.
Variable f0 : F.
Variable fdiv : F -> F -> F.
Variable of_int : Z -> F.
Variable to_double : F -> float.

Lemma signalOutcome_sends_nothing r :
  List.filter is_request (signalOutcome r) = [].
Proof.
  unfold signalOutcome.
  destruct (0 <? postResponseCode r);
    destruct ((200 <=? postResponseCode r) && (postResponseCode r <? 300));
    destruct (wifiUp r 1%nat); destruct (wifiUp r 2%nat); reflexivity.
Qed.

(** X9.  A telemetry cycle that passes the gate, with a server address
    free of the character [<], sends exactly one request: the POST of
    the cycle's document to http://SERVER/MAC/data.  It leaves the
    wind accumulator empty when it had the mutex and untouched
    otherwise, and it ends in the wait of DATA_SEND_INTERVAL. *)
Theorem telemetry_cycle_posts_once
  mode server bmeSensorOk r (w : WindData (F := F)) :
  free_of "<"%char server = true ->
  gate_open mode r = true ->
  List.filter is_request
    (fst (sensorTaskFunction_cycle fexp fround f0 fdiv of_int to_double
            mode server bmeSensorOk r w)) =
  [EvHttpPost ("http://" +:+ server +:+ "/" +:+ stationMac r +:+ "/data")
     (cyclePayload fexp fround f0 fdiv of_int to_double bmeSensorOk r w)] /\
  snd (sensorTaskFunction_cycle fexp fround f0 fdiv of_int to_double
         mode server bmeSensorOk r w) =
  (if mutexTaken r then windData_init f0 else w) /\
  last (fst (sensorTaskFunction_cycle fexp fround f0 fdiv of_int to_double
               mode server bmeSensorOk r w)) =
  Some (EvTaskDelay DATA_SEND_INTERVAL).
Proof.
  intros Hfree Hgate. unfold gate_open in Hgate.
  unfold sensorTaskFunction_cycle. rewrite Hgate. cbn [fst snd].
  rewrite dataEndpoint_plain by exact Hfree.
  split; [| split].
  - repeat rewrite List.filter_app. rewrite signalOutcome_sends_nothing.
    destruct (mutexTaken r), bmeSensorOk; reflexivity.
  - unfold cycleAverage. destruct (mutexTaken r); reflexivity.
  - rewrite !app_assoc. apply last_snoc.
Qed.

(** X10.  The document of a cycle has no member beyond temperature,
    pressure, humidity, sunshine, wind_speed and precipitation;
    sunshine, wind_speed and precipitation are always present;
    temperature and humidity are present exactly when their readings
    are numbers, rounded to two and to four places; wind_speed is the
    average in km/h rounded to two places.  When the BME280 failed to
    initialise the document has no temperature, pressure or humidity. *)
Theorem payload_members
  temp pressure humidity analogValue brightness (averageWindSpeed : F)
  precipitation :
  let doc :=
    buildPayload fexp fround to_double temp pressure humidity analogValue
      brightness averageWindSpeed precipitation in
  (forall k, is_Some (doc !! k) -> k ∈ payload_keys) /\
  is_Some (doc !! "sunshine") /\
  doc !! "wind_speed" =
    Some (JDouble (fround (to_double averageWindSpeed * 3.6 * 100.0) / 100.0)%float) /\
  doc !! "precipitation" =
    Some (JDouble (round4 fround (double_of_int precipitation))) /\
  doc !! "temperature" =
    (if is_nan temp then None else Some (JDouble (round2 fround temp))) /\
  doc !! "humidity" =
    (if is_nan humidity then None else Some (JDouble (round4 fround humidity))) /\
  (forall r (w : WindData (F := F)),
     let off := cyclePayload fexp fround f0 fdiv of_int to_double false r w in
     off !! "temperature" = None /\ off !! "pressure" = None /\
     off !! "humidity" = None).
Proof.
  cbv zeta. split; [| split; [| split; [| split; [| split; [| split]]]]].
  - intros k [v Hk]. unfold buildPayload in Hk.
    repeat match type of Hk with
           | context [if ?c then _ else _] => destruct c
           end;
      repeat (apply lookup_insert_Some in Hk as [[<- _] | [_ Hk]];
              [unfold payload_keys; set_solver |]);
      rewrite lookup_empty in Hk; discriminate.
  - unfold buildPayload.
    rewrite !lookup_insert_ne by discriminate.
    destruct (negb (analogValue =? -1)); rewrite lookup_insert_eq; eauto.
  - unfold buildPayload.
    rewrite lookup_insert_ne by discriminate. apply lookup_insert_eq.
  - unfold buildPayload. apply lookup_insert_eq.
  - unfold buildPayload.
    rewrite !lookup_insert_ne by discriminate.
    repeat match goal with
           | |- context [if negb ?c then _ else _] => destruct c; cbn [negb]
           end;
      rewrite ?lookup_insert_ne by discriminate;
      rewrite ?lookup_insert_eq, ?lookup_empty; reflexivity.
  - unfold buildPayload.
    rewrite !lookup_insert_ne by discriminate.
    repeat match goal with
           | |- context [if negb ?c then _ else _] => destruct c; cbn [negb]
           end;
      rewrite ?lookup_insert_ne by discriminate;
      rewrite ?lookup_insert_eq, ?lookup_empty; reflexivity.
  - intros r w. unfold cyclePayload, buildPayload.
    change (is_nan nan) with true. cbn [negb].
    rewrite (reduceToMSL_nan_pressure fexp nan nan STATION_ALTITUDE_METERS)
      by reflexivity.
    change (is_nan nan) with true. cbn [negb].
    destruct (negb (photoAnalog r =? -1));
      rewrite !lookup_insert_ne by discriminate;
      rewrite lookup_empty; repeat split.
Qed.

End TelemetryCycleFacts.

(* ===================================================================== *)
(** ** The button *)

Lemma buttonTask_passes_S n pinLow reads was :
  buttonTask_passes (S n) pinLow reads was =
  (after ← buttonTask_pass pinLow reads was;
   buttonTask_passes n pinLow (fst after) (snd after)).
Proof. reflexivity. Qed.

(** While the button stays down after a press has been taken, the
    passes of the task only wait. *)
Lemma held_button_waits pinLow env : forall n reads d,
  (forall i, (i < n)%nat -> pinLow (reads + i)%nat = true) ->
  buttonTask_passes n pinLow reads true env d =
  Running ((reads + n)%nat, true) (set_clock (clock d + 20 * Z.of_nat n) d).
Proof.
  induction n as [| n IH]; intros reads d Hheld.
  - destruct d. cbn [buttonTask_passes]. exec.
    rewrite Nat.add_0_r, Z.add_0_r. reflexivity.
  - rewrite buttonTask_passes_S. unfold buttonTask_pass.
    pose proof (Hheld O ltac:(lia)) as Hnow. rewrite Nat.add_0_r in Hnow.
    destruct d. exec. rewrite Hnow. exec. cbn [fst snd].
    rewrite IH.
    + exec. f_equal; [f_equal; lia | f_equal; lia].
    + intros i Hi. replace (S reads + i)%nat with (reads + S i)%nat by lia.
      apply Hheld. lia.
Qed.

(** X11.  The debounce of buttonTask.  A button that is down for two
    reads 50 ms apart is taken as one press, and however long it is
    held after that, the passes that follow only wait their 20 ms: the
    press is acted upon once.  A button that is up again at the read
    after the 50 ms is not taken as a press and changes nothing.  Once
    the button is seen up after a press, the task is ready for the next
    press. *)
Theorem button_hold_fires_once pinLow reads env d :
  (forall n,
     (forall i, (i < n + 2)%nat -> pinLow (reads + i)%nat = true) ->
     buttonTask_passes (S n) pinLow reads false env d =
     match buttonTask_pressed env (set_clock (clock d + 50) d) with
     | Running _ d1 =>
         Running ((reads + n + 2)%nat, true)
           (set_clock (clock d1 + 20 * (Z.of_nat n + 1)) d1)
     | Restarted d1 => Restarted d1
     end) /\
  (pinLow reads = true -> pinLow (S reads) = false ->
   buttonTask_pass pinLow reads false env d =
   Running (S (S reads), false) (set_clock (clock d + 70) d)) /\
  (pinLow reads = false ->
   buttonTask_pass pinLow reads true env d =
   Running (S reads, false)
     (set_clock (clock d + 20)
        (set_trace (trace d ++ [EvSerial "Button released"]) d)) /\
   buttonTask_pass pinLow reads false env d =
   Running (S reads, false) (set_clock (clock d + 20) d)).
Proof.
  split; [| split].
  - intros n Hheld.
    rewrite buttonTask_passes_S. unfold buttonTask_pass.
    pose proof (Hheld O ltac:(lia)) as H0. rewrite Nat.add_0_r in H0.
    pose proof (Hheld 1%nat ltac:(lia)) as H1.
    replace (reads + 1)%nat with (S reads) in H1 by lia.
    unfold mbind at 1. unfold M_bind at 1.
    rewrite H0. cbn [negb].
    unfold mbind at 1. unfold M_bind at 1.
    unfold mbind at 1. unfold M_bind at 1.
    unfold mbind at 1. unfold M_bind at 1.
    unfold delay at 1. unfold modify at 1.
    rewrite H1.
    unfold mbind at 1. unfold M_bind at 1.
    destruct (buttonTask_pressed env (set_clock (clock d + 50) d))
      as [[] d1 | d1]; [| reflexivity].
    destruct d1. exec. cbn [fst snd].
    rewrite held_button_waits.
    + exec. f_equal; [f_equal; lia | f_equal; lia].
    + intros i Hi. replace (S (S reads) + i)%nat with (reads + (i + 2))%nat by lia.
      apply Hheld. lia.
  - intros H0 H1. destruct d. unfold buttonTask_pass. exec.
    rewrite H0. exec. rewrite H1. exec. do 2 f_equal. lia.
  - intros H0. destruct d. unfold buttonTask_pass. exec.
    rewrite H0. exec. split; reflexivity.
Qed.

(* ===================================================================== *)
(** ** The mode, the radio and the flash over the life of the device *)

Lemma stored_of_saved ssid pass user server m :
  stored_mode (saved_flash ssid pass user server m) = MODE_CONFIGURED /\
  stored_credentials (saved_flash ssid pass user server m) =
  (ssid, pass, user, server).
Proof.
  destruct (saved_flash_holds ssid pass user server m) as (Hs & Hp & Hu & Hv & Hm).
  unfold stored_mode, stored_credentials.
  now rewrite (lookup_uint_of _ _ _ _ Hm), (lookup_string_of _ _ _ _ Hs),
    (lookup_string_of _ _ _ _ Hp), (lookup_string_of _ _ _ _ Hu),
    (lookup_string_of _ _ _ _ Hv).
Qed.

(** The revert to the portal, whether or not the flash opens: the
    device ends in its portal or restarts. *)
Lemma revertToPortal_runs env d :
  match revertToPortal env d with
  | Running _ d' => consistent d' /\ (flash_reliable env -> mirrored d')
  | Restarted d' => flash_reliable env -> holds_nothing (preferences d')
  end.
Proof.
  destruct (prefsBeginOk env (beginCalls d)) eqn:Hopen.
  - pose proof (revertToPortal_opens env d Hopen) as Hrev.
    destruct (revertToPortal env d) as [[] d' | d'].
    + destruct Hrev as (Hportal & Hflash & Hs & Hp & _).
      split; [now left |]. intros _. left. repeat split; try assumption;
        apply Hportal || apply Hflash.
    + intros _. apply Hrev.
  - destruct d. exec in Hopen.
    unfold revertToPortal, clearConfigurationInNVS. exec.
    rewrite Hopen. exec. run_switchToAP.
    destruct (softAPOk env softAPCalls0); exec.
    + split.
      * left. unfold in_portal. exec. repeat split.
      * intros Hrel. rewrite Hrel in Hopen. discriminate.
    + intros Hrel. rewrite Hrel in Hopen. discriminate.
Qed.

Lemma connectOrRevert_runs env d :
  match connectOrRevert env d with
  | Running _ d' => consistent d' /\ (flash_reliable env -> mirrored d')
  | Restarted d' => flash_reliable env -> holds_nothing (preferences d')
  end.
Proof.
  destruct d. unfold connectOrRevert. exec.
  destruct (wifiConnected env
              (statusReads0 +
               loop_reads (wifiConnected env) statusReads0
                 (Z.to_nat (15000 / 250)))) eqn:Hlink.
  - run_connect c Hc.
    unfold saveConfigurationToNVS. exec.
    destruct (prefsBeginOk env beginCalls0) eqn:Hopen; exec; run_sendMac.
    + split.
      * right. unfold in_station. exec. split; reflexivity.
      * intros _. right. unfold in_station, credentials. exec.
        split; [split; reflexivity |].
        apply (stored_of_saved wifiSSID0 wifiPass0 userName0 serverAddress0
                 preferences0).
    + split.
      * right. unfold in_station. exec. split; reflexivity.
      * intros Hrel. rewrite Hrel in Hopen. discriminate.
  - run_connect c Hc.
    match goal with
    | |- context [revertToPortal env ?d1] =>
        pose proof (revertToPortal_runs env d1) as Hrev;
        destruct (revertToPortal env d1) as [[] d' | d']
    end; exact Hrev.
Qed.

Ltac run_revert :=
  let Hrev := fresh "Hrev" in
  match goal with
  | |- context [revertToPortal ?env ?d1] =>
      pose proof (revertToPortal_runs env d1) as Hrev;
      destruct (revertToPortal env d1) as [[] ? | ?]; exec; exact Hrev
  end.

Lemma setup_runs env d :
  match setup env d with
  | Running _ d' => consistent d' /\ (flash_reliable env -> mirrored d')
  | Restarted d' => flash_reliable env -> holds_nothing (preferences d')
  end.
Proof.
  destruct d. unfold setup, loadConfigurationFromNVS. exec.
  destruct (prefsBeginOk env beginCalls0) eqn:Hopen; exec; [| run_revert].
  destruct (Z.eqb_spec (lookup_uint NVS_KEY_MODE MODE_UNCONFIGURED preferences0)
              MODE_CONFIGURED) as [Hmode | Hmode]; exec; [| run_revert].
  destruct (0 <? String.length (lookup_string NVS_KEY_SSID "" preferences0))%nat;
    exec; [| run_revert].
  destruct (wifiConnected env
              (statusReads0 +
               loop_reads (wifiConnected env) statusReads0
                 (Z.to_nat (15000 / 250)))) eqn:Hlink.
  - run_connect c Hc. run_sendMac.
    split.
    + right. unfold in_station. exec. split; reflexivity.
    + intros _. right.
      unfold in_station, credentials, stored_mode, stored_credentials.
      exec. repeat split. exact Hmode.
  - run_connect c Hc. run_revert.
Qed.

Lemma mirrored_consistent d : mirrored d -> consistent d.
Proof. intros [(H & _) | (H & _)]; [now left | now right]. Qed.

Lemma handleConnect_runs env d form :
  consistent d ->
  match handleConnect form env d with
  | Running _ d' =>
      consistent d' /\ (flash_reliable env -> mirrored d -> mirrored d')
  | Restarted d' => flash_reliable env -> holds_nothing (preferences d')
  end.
Proof.
  intros Hd.
  destruct form as [[ssid |] [pass |] [user |] [server |]];
    try (destruct d; unfold handleConnect, arg_ssid, arg_pass, arg_username,
           arg_serveraddr; exec; split; [exact Hd | intros _ Hm; exact Hm]).
  destruct d. unfold handleConnect, arg_ssid, arg_pass, arg_username,
    arg_serveraddr. exec.
  match goal with
  | |- context [connectOrRevert env ?d1] =>
      pose proof (connectOrRevert_runs env d1) as Hrun;
      destruct (connectOrRevert env d1) as [[] d' | d']
  end.
  - split; [apply Hrun | intros Hrel _; now apply Hrun].
  - exact Hrun.
Qed.

Lemma checkAndReconnectWiFi_runs env d :
  in_station d ->
  match checkAndReconnectWiFi env d with
  | Running _ d' =>
      consistent d' /\ (flash_reliable env -> mirrored d -> mirrored d')
  | Restarted d' => flash_reliable env -> holds_nothing (preferences d')
  end.
Proof.
  intros [Hmode Hrole].
  assert (Hstay : forall d',
            in_station d' -> preferences d' = preferences d ->
            credentials d' = credentials d ->
            consistent d' /\ (flash_reliable env -> mirrored d -> mirrored d')).
  { intros d' Hstation Hflash Hcred. split; [now right |].
    intros _ [([Hm _] & _) | (_ & Hstored)].
    - rewrite Hmode in Hm. discriminate Hm.
    - right. split; [exact Hstation |]. now rewrite Hflash, Hcred. }
  destruct d. exec in Hmode. exec in Hrole. subst.
  unfold checkAndReconnectWiFi, reconnectOrRevert. exec.
  rewrite !Z.eqb_refl. exec. rewrite ?Z.eqb_refl. exec.
  destruct (wifiConnected env statusReads0) eqn:Hup; exec.
  - rewrite ?Z.eqb_refl. exec.
    destruct (wifiConnected env (S statusReads0)); exec;
      apply Hstay; unfold in_station, credentials; exec; repeat split.
  - run_loop c tr Hc.
    destruct (wifiConnected env
                (S statusReads0 +
                 loop_reads (wifiConnected env) (S statusReads0)
                   (Z.to_nat (10000 / 250)))) eqn:Hlink; exec.
    + apply Hstay; unfold in_station, credentials; exec; repeat split.
    + match goal with
      | |- context [revertToPortal env ?d1] =>
          pose proof (revertToPortal_runs env d1) as Hrev;
          destruct (revertToPortal env d1) as [[] d' | d']
      end; exec.
      * split; [apply Hrev | intros Hrel _; now apply Hrev].
      * exact Hrev.
Qed.

Lemma buttonTask_pressed_runs env d :
  consistent d ->
  match buttonTask_pressed env d with
  | Running _ d' =>
      consistent d' /\ (flash_reliable env -> mirrored d -> mirrored d')
  | Restarted d' => flash_reliable env -> holds_nothing (preferences d')
  end.
Proof.
  intros [Hd | Hd].
  - destruct Hd as (Hmode & Hrole & Hserver).
    destruct d. exec in Hmode. exec in Hrole. exec in Hserver. subst.
    unfold buttonTask_pressed. exec.
    change (MODE_UNCONFIGURED =? MODE_CONFIGURED) with false. exec.
    split.
    + left. unfold in_portal. exec. repeat split.
    + intros _ [(_ & Hflash & Hs & Hp) | ([Hm _] & _)]; [| discriminate Hm].
      left. unfold in_portal. exec. exec in Hflash. exec in Hs. exec in Hp.
      repeat split; assumption || apply Hflash.
  - destruct Hd as (Hmode & Hrole).
    destruct d. exec in Hmode. exec in Hrole. subst.
    unfold buttonTask_pressed. exec. rewrite Z.eqb_refl. exec.
    match goal with
    | |- context [revertToPortal env ?d1] =>
        pose proof (revertToPortal_runs env d1) as Hrev;
        destruct (revertToPortal env d1) as [[] d' | d']
    end.
    + split; [apply Hrev | intros Hrel _; now apply Hrev].
    + exact Hrev.
Qed.

Lemma loop_runs env d submitted :
  consistent d ->
  match loop submitted env d with
  | Running _ d' =>
      consistent d' /\ (flash_reliable env -> mirrored d -> mirrored d')
  | Restarted d' => flash_reliable env -> holds_nothing (preferences d')
  end.
Proof.
  intros Hd.
  assert (Hclock : forall d1,
            consistent d1 /\ (flash_reliable env -> mirrored d -> mirrored d1) ->
            consistent (set_clock (clock d1 + 20) d1) /\
            (flash_reliable env -> mirrored d ->
             mirrored (set_clock (clock d1 + 20) d1))).
  { intros d1 [Hc Hm]. split.
    - destruct d1. exact Hc.
    - intros Hrel Hmd. specialize (Hm Hrel Hmd). destruct d1. exact Hm. }
  unfold loop.
  unfold mbind at 1. unfold M_bind at 1.
  unfold mbind at 1. unfold M_bind at 1.
  unfold gets at 1.
  destruct Hd as [Hportal | Hstation].
  - pose proof Hportal as (Hmode & _). rewrite Hmode.
    change (MODE_UNCONFIGURED =? MODE_UNCONFIGURED) with true. cbv iota.
    destruct submitted as [form |].
    + pose proof (handleConnect_runs env d form (or_introl Hportal)) as Hrun.
      destruct (handleConnect form env d) as [[] d1 | d1]; [| exact Hrun].
      unfold delay, modify. now apply Hclock.
    + unfold mret, M_ret, delay, modify. apply Hclock.
      split; [now left | intros _ Hm; exact Hm].
  - pose proof Hstation as (Hmode & _). rewrite Hmode.
    change (MODE_CONFIGURED =? MODE_UNCONFIGURED) with false.
    change (MODE_CONFIGURED =? MODE_CONFIGURED) with true. cbv iota.
    unfold mbind at 1. unfold M_bind at 1.
    pose proof (checkAndReconnectWiFi_runs env d Hstation) as Hrun.
    destruct (checkAndReconnectWiFi env d) as [b d1 | d1]; [| exact Hrun].
    unfold mret, M_ret, delay, modify. now apply Hclock.
Qed.

Lemma run_stimuli_runs env : forall stimuli d,
  consistent d ->
  match run_stimuli stimuli env d with
  | Running _ d' =>
      consistent d' /\ (flash_reliable env -> mirrored d -> mirrored d')
  | Restarted d' => flash_reliable env -> holds_nothing (preferences d')
  end.
Proof.
  induction stimuli as [| s rest IH]; intros d Hd.
  - cbn. split; [exact Hd | intros _ Hm; exact Hm].
  - cbn [run_stimuli]. unfold mbind, M_bind.
    assert (Hstep :
      match react s env d with
      | Running _ d' =>
          consistent d' /\ (flash_reliable env -> mirrored d -> mirrored d')
      | Restarted d' => flash_reliable env -> holds_nothing (preferences d')
      end).
    { destruct s as [submitted |]; cbn [react].
      - now apply loop_runs.
      - now apply buttonTask_pressed_runs. }
    destruct (react s env d) as [[] d1 | d1]; [| exact Hstep].
    destruct Hstep as [Hc1 Hm1]. specialize (IH d1 Hc1).
    destruct (run_stimuli rest env d1) as [[] d2 | d2]; [| exact IH].
    destruct IH as [Hc2 Hm2]. split; [exact Hc2 |].
    intros Hrel Hm. apply Hm2; [exact Hrel |]. now apply Hm1.
Qed.

Lemma setup_from_reset_runs env flash mounted :
  match setup_from_reset mounted env (power_on flash) with
  | Running started d' =>
      if started
      then consistent d' /\ (flash_reliable env -> mirrored d')
      else
        (mounted = false \/ prefsBeginOk env 0%nat = false) /\
        currentDeviceMode d' = MODE_UNCONFIGURED /\
        wifiMode d' = WIFI_MODE_NULL /\ serverRunning d' = false /\
        preferences d' = flash
  | Restarted d' => flash_reliable env -> holds_nothing (preferences d')
  end.
Proof.
  unfold setup_from_reset, initLittleFS, initNVS, power_on.
  destruct mounted; exec.
  - destruct (prefsBeginOk env 0%nat) eqn:Hopen; exec.
    + destruct (flash !! NVS_KEY_MODE); exec;
        match goal with
        | |- context [setup env ?d1] =>
            pose proof (setup_runs env d1) as Hrun;
            destruct (setup env d1) as [[] d' | d']
        end; exec; exact Hrun.
    + repeat split. now right.
  - repeat split. now left.
Qed.

(** X12.  The mode and the radio agree at all times.  From a reset on
    any content of the flash, in any surroundings, after the start and
    any sequence of passes of [loop] (with or without a submitted form)
    and presses of the button: the device is either Unconfigured in the
    access-point role with its portal running, or Configured in the
    station role; or it has restarted on the way.  A start that parks
    the device, because the file system does not mount or the flash
    store does not open, leaves the radio off, the portal down and the
    flash untouched. *)
Theorem mode_and_radio_agree env flash mounted stimuli :
  match lifetime mounted stimuli env (power_on flash) with
  | Running started d' =>
      if started then in_portal d' \/ in_station d'
      else
        (mounted = false \/ prefsBeginOk env 0%nat = false) /\
        currentDeviceMode d' = MODE_UNCONFIGURED /\
        wifiMode d' = WIFI_MODE_NULL /\ serverRunning d' = false /\
        preferences d' = flash
  | Restarted _ => True
  end.
Proof.
  unfold lifetime, mbind, M_bind.
  pose proof (setup_from_reset_runs env flash mounted) as Hstart.
  destruct (setup_from_reset mounted env (power_on flash))
    as [[|] d1 | d1]; [| exact Hstart | exact I].
  destruct Hstart as [Hc _].
  pose proof (run_stimuli_runs env stimuli d1 Hc) as Hrun.
  destruct (run_stimuli stimuli env d1) as [[] d2 | d2]; [| exact I].
  unfold mret, M_ret. apply Hrun.
Qed.

(** X13.  With a flash store that opens whenever it is asked to, the
    flash mirrors the device at all times.  From a reset on any content
    of the flash, after the start and any sequence of passes of [loop]
    and presses of the button: in its portal the device holds no
    network name and no passphrase and the flash holds no configuration
    (the mode Unconfigured, the four credentials removed); in station
    mode the flash stores the mode Configured and a load would read the
    very credentials the device has in memory.  If the device has
    restarted on the way, it did so with the configuration wiped.  The
    start parks the device only when the file system does not mount. *)
Theorem flash_mirrors_device env flash mounted stimuli :
  flash_reliable env ->
  match lifetime mounted stimuli env (power_on flash) with
  | Running started d' =>
      if started then mirrored d' else mounted = false
  | Restarted d' => holds_nothing (preferences d')
  end.
Proof.
  intros Hrel. unfold lifetime, mbind, M_bind.
  pose proof (setup_from_reset_runs env flash mounted) as Hstart.
  destruct (setup_from_reset mounted env (power_on flash))
    as [[|] d1 | d1].
  - destruct Hstart as [Hc Hm]. specialize (Hm Hrel).
    pose proof (run_stimuli_runs env stimuli d1 Hc) as Hrun.
    destruct (run_stimuli stimuli env d1) as [[] d2 | d2].
    + unfold mret, M_ret. now apply Hrun.
    + now apply Hrun.
  - destruct Hstart as [[Hfs | Hopen] _]; [exact Hfs |].
    rewrite Hrel in Hopen. discriminate.
  - now apply Hstart.
Qed.

(* ===================================================================== *)
(** ** The mutex under any block time *)

Section MutexFacts.

Context {F : Type}.
Variable f0 : F.
Variable fadd : F -> F -> F.
Variable fdiv : F -> F -> F.
Variable of_int : Z -> F.

Lemma exclusion_step timeout (s s' : Sys (F := F)) :
  mutexHolder s = in_critical (samplerPc s) (telemetryPc s) /\
  exclusive s /\
  windData s =
    snd (run_wind f0 fadd fdiv of_int (history s) (windData_init f0)) ->
  step f0 fadd fdiv of_int timeout s s' ->
  mutexHolder s' = in_critical (samplerPc s') (telemetryPc s') /\
  exclusive s' /\
  windData s' =
    snd (run_wind f0 fadd fdiv of_int (history s') (windData_init f0)).
Proof.
  intros (Hh & Hx & Hw) Hstep. unfold exclusive in *.
  inversion Hstep; subst; cbn in *;
    rewrite ?run_wind_snoc_record, ?run_wind_snoc_drain; cbn [fst snd];
    rewrite <- ?Hw;
    repeat split;
    try assumption; try reflexivity;
    try (destruct tp; cbn in *; congruence || tauto);
    try (destruct sp; cbn in *; congruence || tauto).
Qed.

(** X14.  Whatever block time the two tasks pass to [xSemaphoreTake],
    finite or not: in every state they can reach from the creation of
    the mutex, they are never both inside their critical sections, the
    mutex is held exactly by the task that is inside one, and the
    accumulator is what the critical sections, run one after the other
    in the order in which the mutex admitted them, leave behind. *)
Theorem mutex_excludes_under_any_block_time timeout (s : Sys (F := F)) :
  reachable f0 fadd fdiv of_int timeout s ->
  exclusive s /\
  mutexHolder s = in_critical (samplerPc s) (telemetryPc s) /\
  windData s =
    snd (run_wind f0 fadd fdiv of_int (history s) (windData_init f0)).
Proof.
  intros Hreach.
  enough (mutexHolder s = in_critical (samplerPc s) (telemetryPc s) /\
          exclusive s /\
          windData s =
            snd (run_wind f0 fadd fdiv of_int (history s) (windData_init f0)))
    by tauto.
  revert s Hreach. unfold reachable. apply rtc_ind_r.
  - repeat split.
  - intros y z _ Hstep Hy. eapply exclusion_step; eassumption.
Qed.

End MutexFacts.

(* ===================================================================== *)
(** ** From the samples to the reported wind speed *)

Lemma batch_grows_by_one {A B : Type} (pending : list A) (x : B) (rest : list B) :
  Z.of_nat (length pending) + Z.of_nat (length (x :: rest)) <= INT_MAX ->
  Z.of_nat (length pending) + 1 <= INT_MAX /\
  forall y : A,
    Z.of_nat (length (pending ++ [y])) + Z.of_nat (length rest) <= INT_MAX.
Proof.
  intros Hfit. cbn [length] in Hfit. split; [lia |].
  intros y. rewrite length_app. cbn [length]. lia.
Qed.

Section SamplesToReport.

Variable fexp : float -> float.
Variable fround : float -> float.
Context {F : Type}.
Variable f0 : F.
Variable fadd : F -> F -> F.
Variable fdiv : F -> F -> F.
Variable of_int : Z -> F.
Variable to_double : F -> float.

Lemma sampled_through_holds : forall readings w pending,
  holds f0 fadd w pending ->
  Z.of_nat (length pending) + Z.of_nat (length readings) <= INT_MAX ->
  holds f0 fadd (sampled_through fadd fdiv of_int readings w)
    (pending ++ map (currentWindSpeedms fdiv of_int) readings).
Proof.
  induction readings as [| raw readings IH]; intros w pending Hw Hfit.
  - cbn. now rewrite app_nil_r.
  - cbn [map]. change (raw :: readings) with ([raw] ++ readings).
    unfold sampled_through. rewrite fold_left_app. cbn [fold_left].
    fold (sampled_through fadd fdiv of_int readings).
    replace (pending ++ currentWindSpeedms fdiv of_int raw ::
             map (currentWindSpeedms fdiv of_int) readings)
      with ((pending ++ [currentWindSpeedms fdiv of_int raw]) ++
            map (currentWindSpeedms fdiv of_int) readings)
      by now rewrite <- app_assoc.
    destruct (batch_grows_by_one pending raw readings Hfit) as [Hone Hrest].
    apply IH.
    + unfold windSensorTaskFunction_cycle. cbn [snd].
      now apply holds_record.
    + apply Hrest.
Qed.

(** X15.  From the samples to the report.  When the sampling task has
    passed through its loop once for each of a list of readings since
    the last drain (no more of them than the [int] counter can count),
    the telemetry cycle that passes the gate next reports as wind_speed
    the mean of the samples of exactly those readings, each mapped to
    metres per second, times 3.6 and rounded to two places; and it
    leaves the accumulator empty for the next interval. *)
Theorem reported_wind_speed_is_the_mean_of_the_samples
  mode server bmeSensorOk r readings :
  Z.of_nat (length readings) <= INT_MAX ->
  gate_open mode r = true -> mutexTaken r = true ->
  let w := sampled_through fadd fdiv of_int readings (windData_init f0) in
  let average :=
    mean f0 fadd fdiv of_int (map (currentWindSpeedms fdiv of_int) readings) in
  cyclePayload fexp fround f0 fdiv of_int to_double bmeSensorOk r w
    !! "wind_speed" =
  Some (JDouble (fround (to_double average * 3.6 * 100.0) / 100.0)%float) /\
  snd (sensorTaskFunction_cycle fexp fround f0 fdiv of_int to_double
         mode server bmeSensorOk r w) = windData_init f0.
Proof.
  intros Hfit Hgate Htaken. cbv zeta.
  pose proof (sampled_through_holds readings (windData_init f0) []
                (holds_init f0 fadd) Hfit) as Hholds.
  cbn [app] in Hholds.
  pose proof (drain_of_holds f0 fadd fdiv of_int _ _ Hholds) as Hdrain.
  split.
  - unfold cyclePayload, cycleAverage. rewrite Htaken, Hdrain. cbn [fst].
    unfold buildPayload.
    rewrite lookup_insert_ne by discriminate. apply lookup_insert_eq.
  - unfold gate_open in Hgate. unfold sensorTaskFunction_cycle.
    rewrite Hgate. cbn [snd]. unfold cycleAverage.
    now rewrite Htaken, Hdrain.
Qed.

End SamplesToReport.

(* ===================================================================== *)
(** ** The properties on concrete runs *)

Lemma telemetry_cycle_posts_once_witness :
  List.filter is_request
    (fst (sensorTaskFunction_cycle exp_series round_half_away 0%float
            PrimFloat.div double_of_int (fun x : float => x)
            MODE_CONFIGURED "192.168.50.200:5000" true
            (mild_day true 15.0%float 1750) three_samples)) =
  [EvHttpPost "http://192.168.50.200:5000/AA:BB:CC:DD:EE:FF/data"
     (cyclePayload exp_series round_half_away 0%float PrimFloat.div
        double_of_int (fun x : float => x) true
        (mild_day true 15.0%float 1750) three_samples)] /\
  snd (sensorTaskFunction_cycle exp_series round_half_away 0%float
         PrimFloat.div double_of_int (fun x : float => x)
         MODE_CONFIGURED "192.168.50.200:5000" true
         (mild_day true 15.0%float 1750) three_samples) =
  windData_init 0%float /\
  last (fst (sensorTaskFunction_cycle exp_series round_half_away 0%float
               PrimFloat.div double_of_int (fun x : float => x)
               MODE_CONFIGURED "192.168.50.200:5000" true
               (mild_day true 15.0%float 1750) three_samples)) =
  Some (EvTaskDelay DATA_SEND_INTERVAL).
Proof.
  apply (telemetry_cycle_posts_once exp_series round_half_away 0%float
           PrimFloat.div double_of_int (fun x : float => x)
           MODE_CONFIGURED "192.168.50.200:5000" true
           (mild_day true 15.0%float 1750) three_samples);
    reflexivity.
Defined.

Lemma button_hold_fires_once_witness :
  buttonTask_passes 4 (fun _ => true) 0 false
    (surroundings (fun _ => true) (fun _ => true)) station_device =
  match buttonTask_pressed (surroundings (fun _ => true) (fun _ => true))
          (set_clock (clock station_device + 50) station_device) with
  | Running _ d1 => Running (5%nat, true) (set_clock (clock d1 + 20 * (3 + 1)) d1)
  | Restarted d1 => Restarted d1
  end.
Proof.
  destruct (button_hold_fires_once (fun _ => true) 0
              (surroundings (fun _ => true) (fun _ => true)) station_device)
    as [Hheld _].
  apply (Hheld 3%nat). intros i _. reflexivity.
Defined.

(** After a hold of the button in station mode the device is in its
    portal with the flash wiped, and the hold has been acted upon
    once. *)
Example held_button_reverts_once :
  match buttonTask_passes 4 (fun _ => true) 0 false
          (surroundings (fun _ => true) (fun _ => true)) station_device with
  | Running after d' =>
      after = (5%nat, true) /\
      currentDeviceMode d' = MODE_UNCONFIGURED /\ wifiMode d' = WIFI_AP /\
      preferences d' !! NVS_KEY_SSID = None /\
      length (List.filter
                (fun e => match e with
                          | EvSerial "Button press detected" => true
                          | _ => false
                          end) (trace d')) = 1%nat
  | Restarted _ => False
  end.
Proof. vm_compute. repeat split. Qed.

Lemma flash_mirrors_device_witness :
  match lifetime true
          [Pass None;
           Pass (Some (complete_form "home" "secret" "alice" "10.0.0.7:5000"));
           Pass None; Press]
          (surroundings (fun _ => true) (fun _ => true)) (power_on ∅) with
  | Running started d' => if started then mirrored d' else true = false
  | Restarted d' => holds_nothing (preferences d')
  end.
Proof.
  apply (flash_mirrors_device (surroundings (fun _ => true) (fun _ => true)) ∅
           true).
  intros k. reflexivity.
Defined.

(** A first start on an empty flash, a form submitted to the portal,
    and a press of the button: the device goes from its portal to
    station mode with the credentials stored, and back to its portal
    with the flash wiped. *)
Example portal_station_portal :
  match lifetime true
          [Pass None;
           Pass (Some (complete_form "home" "secret" "alice" "10.0.0.7:5000"))]
          (surroundings (fun _ => true) (fun _ => true)) (power_on ∅) with
  | Running started d' =>
      started = true /\ currentDeviceMode d' = MODE_CONFIGURED /\
      wifiMode d' = WIFI_STA /\
      preferences d' !! NVS_KEY_SSID = Some (NvsString "home") /\
      preferences d' !! NVS_KEY_MODE = Some (NvsUInt MODE_CONFIGURED)
  | Restarted _ => False
  end /\
  match lifetime true
          [Pass None;
           Pass (Some (complete_form "home" "secret" "alice" "10.0.0.7:5000"));
           Pass None; Press]
          (surroundings (fun _ => true) (fun _ => true)) (power_on ∅) with
  | Running started d' =>
      started = true /\ currentDeviceMode d' = MODE_UNCONFIGURED /\
      wifiMode d' = WIFI_AP /\ serverRunning d' = true /\
      preferences d' !! NVS_KEY_SSID = None /\
      preferences d' !! NVS_KEY_MODE = Some (NvsUInt MODE_UNCONFIGURED)
  | Restarted _ => False
  end.
Proof. vm_compute. repeat split. Qed.

Lemma sys_after_timeout_reachable n :
  reachable 0%Q Qplus Qdiv inject_Z (ticks n) sys_after_timeout.
Proof.
  unfold reachable, sys_init, sys_after_timeout.
  eapply rtc_l; [apply step_gate_open |].
  eapply rtc_l; [apply step_telemetry_takes |].
  eapply rtc_l; [apply (step_read 0%Q Qplus Qdiv inject_Z (ticks n) 2%Q) |].
  eapply rtc_l; [eapply step_sampler_times_out; reflexivity |].
  apply rtc_refl.
Qed.

Lemma mutex_excludes_under_any_block_time_witness :
  exclusive sys_after_timeout /\
  mutexHolder sys_after_timeout =
    in_critical (samplerPc sys_after_timeout) (telemetryPc sys_after_timeout) /\
  windData sys_after_timeout =
    snd (run_wind 0%Q Qplus Qdiv inject_Z (history sys_after_timeout)
           (windData_init 0%Q)).
Proof.
  apply (mutex_excludes_under_any_block_time 0%Q Qplus Qdiv inject_Z (ticks 5)).
  apply sys_after_timeout_reachable.
Defined.

Lemma reported_wind_speed_is_the_mean_of_the_samples_witness :
  cyclePayload exp_series round_half_away 0%float PrimFloat.div double_of_int
    (fun x : float => x) true (mild_day true 15.0%float 1750)
    (sampled_through PrimFloat.add PrimFloat.div double_of_int
       [0; 512; 1023] (windData_init 0%float))
    !! "wind_speed" =
  Some (JDouble
          (round_half_away
             (mean 0%float PrimFloat.add PrimFloat.div double_of_int
                (map (currentWindSpeedms PrimFloat.div double_of_int)
                   [0; 512; 1023]%Z) * 3.6 * 100.0) / 100.0)%float) /\
  snd (sensorTaskFunction_cycle exp_series round_half_away 0%float
         PrimFloat.div double_of_int (fun x : float => x)
         MODE_CONFIGURED "192.168.50.200:5000" true
         (mild_day true 15.0%float 1750)
         (sampled_through PrimFloat.add PrimFloat.div double_of_int
            [0; 512; 1023] (windData_init 0%float))) =
  windData_init 0%float.
Proof.
  apply (reported_wind_speed_is_the_mean_of_the_samples exp_series
           round_half_away 0%float PrimFloat.add PrimFloat.div double_of_int
           (fun x : float => x) MODE_CONFIGURED "192.168.50.200:5000" true
           (mild_day true 15.0%float 1750) [0; 512; 1023]);
    [unfold INT_MAX; cbn; lia | reflexivity | reflexivity].
Defined.

(** The readings 0, 512 and 1023 are the samples 0, 16.21 and 32.4 m/s;
    their mean is reported as 58.33 km/h. *)
Example three_readings_reported :
  cyclePayload exp_series round_half_away 0%float PrimFloat.div double_of_int
    (fun x : float => x) true (mild_day true 15.0%float 1750)
    (sampled_through PrimFloat.add PrimFloat.div double_of_int
       [0; 512; 1023] (windData_init 0%float))
    !! "wind_speed" = Some (JDouble 58.33%float).
Proof. vm_compute. reflexivity. Qed.

(** X16.  A form whose connection attempt fails still leaves its mark
    in memory.  With the flash store opening, after a complete form
    submitted to the portal and a connection attempt that fails, the
    device is back in its portal with the flash wiped and the network
    name and the passphrase empty, and the user name and the server
    address in memory are those of the form, not the ones the device had
    before. *)
Theorem failed_submission_keeps_user_and_server
  env d ssid pass user server :
  currentDeviceMode d = MODE_UNCONFIGURED ->
  prefsBeginOk env (beginCalls d) = true ->
  link_after (wifiConnected env) (statusReads d) 15000 = false ->
  match loop (Some (complete_form ssid pass user server)) env d with
  | Running _ d' =>
      in_portal d' /\ holds_nothing (preferences d') /\
      credentials d' = ("", "", user, server)
  | Restarted d' =>
      holds_nothing (preferences d') /\
      credentials d' = ("", "", user, server)
  end.
Proof.
  destruct d. unfold link_after. exec. intros Hmode Hopen Hlink. subst.
  unfold loop, handleConnect, connectOrRevert, complete_form, arg_ssid,
    arg_pass, arg_username, arg_serveraddr.
  exec. rewrite Z.eqb_refl. exec.
  run_connect c Hc.
  match goal with
  | |- context [revertToPortal env ?d1] =>
      pose proof (revertToPortal_opens env d1 Hopen) as Hrev;
      destruct (revertToPortal env d1) as [[] d' | d']
  end.
  - exec. unfold in_portal, credentials in *. destruct d'. exec. exec in Hrev.
    destruct Hrev as (Hportal & Hflash & -> & -> & -> & ->). tauto.
  - unfold credentials. destruct d'. exec. exec in Hrev.
    destruct Hrev as (Hflash & -> & -> & -> & ->). tauto.
Qed.

Lemma failed_submission_keeps_user_and_server_witness :
  match loop (Some (complete_form "home" "secret" "bob" "10.0.0.9:5000"))
          (surroundings (fun _ => false) (fun _ => true)) portal_device with
  | Running _ d' =>
      in_portal d' /\ holds_nothing (preferences d') /\
      credentials d' = ("", "", "bob", "10.0.0.9:5000")
  | Restarted d' =>
      holds_nothing (preferences d') /\
      credentials d' = ("", "", "bob", "10.0.0.9:5000")
  end.
Proof.
  apply (failed_submission_keeps_user_and_server
           (surroundings (fun _ => false) (fun _ => true)) portal_device);
    vm_compute; reflexivity.
Defined.

(** X17.  switchToAPMode never returns with the access point down.
    When [WiFi.softAP] succeeds it returns 100 ms later with the device
    Unconfigured, the radio in the access-point role, a scan of the
    networks started, and mDNS running exactly when [MDNS.begin]
    succeeded.  When [WiFi.softAP] fails it blinks red and restarts the
    device 6 s after the call, the mode in memory still what it was.
    Either way it leaves the credentials, the flash and the portal's
    server alone. *)
Theorem switchToAPMode_up_or_restart env d :
  match switchToAPMode env d with
  | Running _ d' =>
      softAPOk env (softAPCalls d) = true /\
      currentDeviceMode d' = MODE_UNCONFIGURED /\ wifiMode d' = WIFI_AP /\
      mdnsRunning d' = mdnsBeginOk env (mdnsCalls d) /\
      clock d' = clock d + 100 /\
      In (EvScanNetworks true) (trace d') /\
      last (List.filter (fun e => match e with EvLed _ => true | _ => false end)
              (trace d')) = Some (EvLed yellow) /\
      credentials d' = credentials d /\ preferences d' = preferences d /\
      serverRunning d' = serverRunning d
  | Restarted d' =>
      softAPOk env (softAPCalls d) = false /\
      currentDeviceMode d' = currentDeviceMode d /\
      clock d' = clock d + 6000 /\
      credentials d' = credentials d /\ preferences d' = preferences d /\
      serverRunning d' = serverRunning d
  end.
Proof.
  destruct d. unfold switchToAPMode, credentials. exec.
  destruct (softAPOk env softAPCalls0); exec.
  - destruct (mdnsBeginOk env mdnsCalls0); exec;
      repeat split;
      try (apply in_or_app; left; apply in_or_app; right; now left);
      repeat rewrite List.filter_app; cbn [List.filter];
      rewrite ?app_nil_r; apply last_snoc.
  - repeat split. lia.
Qed.
